(** * Blueprint command handlers of the UnrealMCP editor plugin

    A shallow embedding of [FEpicUnrealMCPBlueprintCommands]
    (Private/Commands/EpicUnrealMCPBlueprintCommands.cpp) together with the
    properties of its command dispatcher and of its handlers.

    The handlers are glue code around the Unreal editor.  The embedding keeps
    the two sides apart:

    - everything the plugin computes itself (parameter checks, string
      normalisation, loops over arrays, construction of the JSON reply) is a
      Rocq function;
    - every call into the engine that can do work (asset library, asset
      registry, Kismet utilities, component setters, editor subsystems) is an
      event of the [Editor] monad, answered by an arbitrary [EditorModel].

    Engine objects reached through pointers are represented by the values the
    handlers read from them, taken when the pointer is obtained.  The
    parameter bag, [GEditor] and the objects made with [MakeShared] are taken
    to be valid pointers; a blueprint's [SimpleConstructionScript] may be
    null, and dereferencing it ends the run ([NullDereference]).  [UE_LOG]
    lines are kept apart from the calls: a line carries its verbosity, its
    format string and its arguments. *)

From Stdlib Require Import ZArith String Ascii List Bool Lia.
From Stdlib Require Import Floats.SpecFloat.
From stdpp Require Import base option list gmap strings.
Import ListNotations.

#[local] Set Warnings "-register-all".
#[local] Open Scope string_scope.
#[local] Open Scope Z_scope.
#[local] Open Scope list_scope.

(* ===================================================================== *)
(** ** FString                                                            *)
(* ===================================================================== *)

(** [FString] comparison in Unreal's Core (Containers/UnrealString.h) is
    not byte equality.  [operator==] and [operator!=] are documented as case
    insensitive (they are [Stricmp(...) == 0] and
    [Equals(Other, ESearchCase::IgnoreCase)]), and [StartsWith], [EndsWith]
    and [Contains] take [ESearchCase::IgnoreCase] as the default of their
    search-case parameter, which the handlers never override.  The same holds
    for an [FName] compared with a string.  Case folding ([TChar::ToLower])
    maps the ASCII letters A-Z only.  Characters are modelled as 8-bit
    codes. *)
Module FString.

Definition ToLowerChar (c : ascii) : ascii :=
  let n := N_of_ascii c in
  if (65 <=? n)%N && (n <=? 90)%N then ascii_of_N (n + 32) else c.

Fixpoint ToLower (s : string) : string :=
  match s with
  | EmptyString => EmptyString
  | String c r => String (ToLowerChar c) (ToLower r)
  end.

(** [A == B] on FStrings ([Stricmp(A, B) == 0]). *)
Definition Equals (a b : string) : bool :=
  String.eqb (ToLower a) (ToLower b).

Definition IsEmpty (s : string) : bool :=
  match s with EmptyString => true | String _ _ => false end.

(** [S.StartsWith(Prefix)]; the handlers only pass non-empty literals. *)
Definition StartsWith (s pre : string) : bool :=
  String.prefix (ToLower pre) (ToLower s).

(** [S.EndsWith(Suffix)], for the non-empty literals the handlers pass. *)
Definition EndsWith (s suf : string) : bool :=
  let n := String.length s in
  let k := String.length suf in
  (k <=? n)%nat && String.eqb (ToLower (substring (n - k) k s)) (ToLower suf).

Fixpoint ContainsFrom (s sub : string) : bool :=
  String.prefix sub s
  || match s with
     | EmptyString => false
     | String _ r => ContainsFrom r sub
     end.

(** [S.Contains(Sub)], for the non-empty literals the handlers pass. *)
Definition Contains (s sub : string) : bool :=
  ContainsFrom (ToLower s) (ToLower sub).

End FString.

Infix "==?" := FString.Equals (at level 65, no associativity).

(* ===================================================================== *)
(** ** Numbers                                                            *)
(* ===================================================================== *)

(** JSON numbers are C++ [double]s, colours and physics values are
    [float]s.  Both are IEEE-754 values, represented by [spec_float] at
    precision 53 / 24. *)
Definition double := spec_float.
Definition float := spec_float.

Definition RoundTo (prec emax : Z) (x : spec_float) : spec_float :=
  match x with
  | S754_finite s m e => binary_normalize prec emax (cond_Zopp s (Zpos m)) e s
  | _ => x
  end.

(** Implicit conversion [double -> float] (round to nearest even). *)
Definition DoubleToFloat (d : double) : float := RoundTo 24 128 d.

(** Implicit conversion [float -> double] (exact). *)
Definition FloatToDouble (f : float) : double := RoundTo 53 1024 f.

(** Implicit conversion [int32 -> double] (exact). *)
Definition Int32ToDouble (n : Z) : double := binary_normalize 53 1024 n 0 false.

(** The cast [(int32)d]: truncation toward zero.  Outside the [int32] range
    the cast is undefined in C++; the value the x86-64 conversion
    instruction yields is used. *)
Definition DoubleToInt32 (d : double) : Z :=
  match d with
  | S754_finite s m e =>
      let a := if 0 <=? e then Z.shiftl (Zpos m) e else Z.shiftr (Zpos m) (- e) in
      let z := cond_Zopp s a in
      if (- 2147483648 <=? z) && (z <=? 2147483647) then z else - 2147483648
  | S754_zero _ => 0
  | _ => - 2147483648
  end.

Definition Double_0 : double := S754_zero false.
Definition Double_1 : double := Eval vm_compute in Int32ToDouble 1.

(** The literal [0.2f]. *)
Definition Float_0_2 : float := S754_finite false 13421773 (-26).

Module FMath.
(** [FMath::Min], [FMath::Max] and [FMath::Clamp] as UE5 defines them:
    [Min(A,B) = (A < B) ? A : B], [Max(A,B) = (B < A) ? A : B],
    [Clamp(X,Lo,Hi) = Max(Min(X,Hi),Lo)]. *)
Definition Min (A B : double) : double := if SFltb A B then A else B.
Definition Max (A B : double) : double := if SFltb B A then A else B.
Definition Clamp (X MinValue MaxValue : double) : double :=
  Max (Min X MaxValue) MinValue.
End FMath.

Record FVector := { VX : double; VY : double; VZ : double }.
Record FRotator := { Pitch : double; Yaw : double; Roll : double }.
Record FLinearColor := { R : float; G : float; B : float; A : float }.
Record FTransform := { Location : FVector; Rotation : FRotator }.

(* ===================================================================== *)
(** ** JSON                                                               *)
(* ===================================================================== *)

Inductive FJsonValue : Type :=
| FJsonValueNull
| FJsonValueBoolean (b : bool)
| FJsonValueNumber (d : double)
| FJsonValueString (s : string)
| FJsonValueArray (l : list FJsonValue)
| FJsonValueObject (o : gmap string FJsonValue).

(** [FJsonObject]: the [Values] map from field names to values. *)
Abbreviation FJsonObject := (gmap string FJsonValue).

(** Helpers of this repository (EpicUnrealMCPCommonUtils) and conversions of
    Unreal's Core that the handlers use but whose code is not part of the
    translation unit.  They are pure; the handlers are parametric in them. *)
Record Host := {
  CreateErrorResponse : string -> FJsonObject;
  GetVectorFromJson : FJsonObject -> string -> FVector;
  GetRotatorFromJson : FJsonObject -> string -> FRotator;
  (** [FString::SanitizeFloat(d, 0)] *)
  SanitizeFloat : double -> string;
  (** [FString::IsNumeric], [FCString::Atod], [FString::ToBool] *)
  IsNumeric : string -> bool;
  Atod : string -> double;
  ToBool : string -> bool;
}.

Section Json.
Context (host : Host).

(** [FJsonValue::TryGetString] *)
Definition TryGetString (v : FJsonValue) : option string :=
  match v with
  | FJsonValueString s => Some s
  | FJsonValueNumber d => Some (SanitizeFloat host d)
  | FJsonValueBoolean b => Some (if b then "true" else "false")
  | _ => None
  end.

(** [FJsonValue::TryGetNumber] *)
Definition TryGetNumber (v : FJsonValue) : option double :=
  match v with
  | FJsonValueNumber d => Some d
  | FJsonValueBoolean b => Some (if b then Double_1 else Double_0)
  | FJsonValueString s => if IsNumeric host s then Some (Atod host s) else None
  | _ => None
  end.

(** [FJsonValue::TryGetBool] *)
Definition TryGetBool (v : FJsonValue) : option bool :=
  match v with
  | FJsonValueBoolean b => Some b
  | FJsonValueNumber d => Some (negb (SFeqb d Double_0))
  | FJsonValueString s => Some (ToBool host s)
  | _ => None
  end.

(** [FJsonValue::TryGetArray] *)
Definition TryGetArray (v : FJsonValue) : option (list FJsonValue) :=
  match v with
  | FJsonValueArray l => Some l
  | _ => None
  end.

(** [AsNumber], [AsBool], [AsString]: the value on success, the default
    of the type (after an error message in the log) otherwise. *)
Definition AsNumber (v : FJsonValue) : double := default Double_0 (TryGetNumber v).
Definition AsBool (v : FJsonValue) : bool := default false (TryGetBool v).
Definition AsString (v : FJsonValue) : string := default "" (TryGetString v).

Definition HasField (o : FJsonObject) (f : string) : bool := bool_decide (is_Some (o !! f)).

(** [GetField<EJson::None>]: a null value when the field is missing. *)
Definition GetField (o : FJsonObject) (f : string) : FJsonValue :=
  default FJsonValueNull (o !! f).

Definition TryGetStringField (o : FJsonObject) (f : string) : option string :=
  o !! f ≫= TryGetString.
Definition TryGetBoolField (o : FJsonObject) (f : string) : option bool :=
  o !! f ≫= TryGetBool.
Definition TryGetArrayField (o : FJsonObject) (f : string) : option (list FJsonValue) :=
  o !! f ≫= TryGetArray.

Definition GetBoolField (o : FJsonObject) (f : string) : bool := AsBool (GetField o f).
Definition GetNumberField (o : FJsonObject) (f : string) : double := AsNumber (GetField o f).
Definition GetIntegerField (o : FJsonObject) (f : string) : Z :=
  DoubleToInt32 (GetNumberField o f).
Definition GetStringField (o : FJsonObject) (f : string) : string := AsString (GetField o f).

End Json.

Definition SetStringField (f v : string) (o : FJsonObject) : FJsonObject :=
  <[f := FJsonValueString v]> o.
Definition SetBoolField (f : string) (v : bool) (o : FJsonObject) : FJsonObject :=
  <[f := FJsonValueBoolean v]> o.
Definition SetNumberField (f : string) (v : double) (o : FJsonObject) : FJsonObject :=
  <[f := FJsonValueNumber v]> o.
Definition SetArrayField (f : string) (v : list FJsonValue) (o : FJsonObject) : FJsonObject :=
  <[f := FJsonValueArray v]> o.
Definition SetObjectField (f : string) (v : FJsonObject) (o : FJsonObject) : FJsonObject :=
  <[f := FJsonValueObject v]> o.

(* ===================================================================== *)
(** ** Engine objects                                                     *)
(* ===================================================================== *)

(** A [UClass]: its path name, its short name ([GetName]) and whether it
    derives from [UActorComponent]. *)
Record UClass := {
  GetClassPathName : string;
  ClassGetName : string;
  IsChildOf_UActorComponent : bool;
}.

Definition AActor_StaticClass : UClass :=
  {| GetClassPathName := "/Script/Engine.Actor"; ClassGetName := "Actor";
     IsChildOf_UActorComponent := false |}.
Definition APawn_StaticClass : UClass :=
  {| GetClassPathName := "/Script/Engine.Pawn"; ClassGetName := "Pawn";
     IsChildOf_UActorComponent := false |}.
Definition UBlueprint_StaticClass : UClass :=
  {| GetClassPathName := "/Script/Engine.Blueprint"; ClassGetName := "Blueprint";
     IsChildOf_UActorComponent := false |}.

(** What every [UObject] offers: its address, [GetName], [GetPathName] and
    [GetClass]. *)
Record UObjectBase := {
  ObjectPtr : N;
  GetName : string;
  GetPathName : string;
  GetClass : UClass;
}.

Record UMaterialInterface := { MaterialObject : UObjectBase }.

Record UStaticMesh := {
  StaticMeshObject : UObjectBase;
  GetNumSections : Z -> Z;
}.

(** Component templates.  [ComponentClass] is the most derived of the
    classes the handlers cast to. *)
Inductive EComponentClass :=
| IsActorComponent | IsSceneComponent | IsPrimitiveComponent | IsStaticMeshComponent.

Record UActorComponent := {
  ComponentObject : UObjectBase;
  ComponentClass : EComponentClass;
  GetMaterial : Z -> option UMaterialInterface;
  GetNumMaterials : Z;
  GetStaticMesh : option UStaticMesh;
}.

Definition Cast_USceneComponent (c : option UActorComponent) : option UActorComponent :=
  c ≫= fun x => match ComponentClass x with
                | IsActorComponent => None
                | _ => Some x
                end.
Definition Cast_UPrimitiveComponent (c : option UActorComponent) : option UActorComponent :=
  c ≫= fun x => match ComponentClass x with
                | IsPrimitiveComponent | IsStaticMeshComponent => Some x
                | _ => None
                end.
Definition Cast_UStaticMeshComponent (c : option UActorComponent) : option UActorComponent :=
  c ≫= fun x => match ComponentClass x with
                | IsStaticMeshComponent => Some x
                | _ => None
                end.

Record USCS_Node := {
  NodePtr : N;
  GetVariableName : string;
  ComponentTemplate : option UActorComponent;
}.

Record USimpleConstructionScript := {
  ScriptPtr : N;
  GetAllNodes : list (option USCS_Node);
  GetDefaultSceneRootNode : option USCS_Node;
}.

Inductive EEdGraphPinDirection := EGPD_Input | EGPD_Output.

Definition SameDirection (a b : EEdGraphPinDirection) : bool :=
  match a, b with
  | EGPD_Input, EGPD_Input | EGPD_Output, EGPD_Output => true
  | _, _ => false
  end.

(** A pin another pin is linked to: its name and the name of its owning
    node ([GetOwningNode] asserts that the owner is set). *)
Record FLinkedPin := {
  LinkedPinName : string;
  LinkedOwningNodeName : string;
}.

Record UEdGraphPin := {
  PinName : string;
  PinCategory : string;
  Direction : EEdGraphPinDirection;
  OwningNodeName : string;
  LinkedTo : list (option FLinkedPin);
}.

Record UEdGraphNode := {
  GraphNodeObject : UObjectBase;
  GetNodeTitle_FullTitle : string;
  NodePosX : Z;
  NodePosY : Z;
  bCanRenameNode : bool;
  Pins : list (option UEdGraphPin);
}.

Record UEdGraph := {
  GraphObject : UObjectBase;
  Nodes : list (option UEdGraphNode);
}.

Record FBPVariableDescription := {
  VarName : string;
  VarType_PinCategory : string;
  VarType_PinSubCategory : string;
  DefaultValue : string;
  FriendlyName : string;
  Category : string;
  PropertyFlags : Z;
  ReplicationCondition : Z;
  (** [HasMetaData(MD_Tooltip)] / [GetMetaData(MD_Tooltip)] *)
  MetaData_Tooltip : option string;
}.

Definition CPF_Edit : Z := 0x1.
Definition CPF_BlueprintVisible : Z := 0x4.
Definition CPF_Config : Z := 0x4000.
Definition CPF_DisableEditOnInstance : Z := 0x10000.

Record FBPInterfaceDescription := { Interface : option UClass }.

Record UBlueprint := {
  BlueprintObject : UObjectBase;
  ParentClass : option UClass;
  GeneratedClass : option UClass;
  SimpleConstructionScript : option USimpleConstructionScript;
  NewVariables : list FBPVariableDescription;
  FunctionGraphs : list (option UEdGraph);
  UbergraphPages : list (option UEdGraph);
  ImplementedInterfaces : list FBPInterfaceDescription;
}.

Record UWorld := { WorldObject : UObjectBase }.

Record AActor := {
  ActorObject : UObjectBase;
  (** [GetComponents<UStaticMeshComponent>] *)
  GetComponents_UStaticMeshComponent : list (option UActorComponent);
}.

(** An object as [LoadAsset] and the factories hand it out, by dynamic
    type. *)
Inductive UObject :=
| ABlueprint (b : UBlueprint)
| AStaticMesh (m : UStaticMesh)
| AMaterialInterface (m : UMaterialInterface)
| AWorld (w : UWorld)
| AnObject (o : UObjectBase).

Definition ObjectBase (o : UObject) : UObjectBase :=
  match o with
  | ABlueprint b => BlueprintObject b
  | AStaticMesh m => StaticMeshObject m
  | AMaterialInterface m => MaterialObject m
  | AWorld w => WorldObject w
  | AnObject o => o
  end.

Definition Cast_UBlueprint (o : option UObject) : option UBlueprint :=
  o ≫= fun x => match x with ABlueprint b => Some b | _ => None end.
Definition Cast_UStaticMesh (o : option UObject) : option UStaticMesh :=
  o ≫= fun x => match x with AStaticMesh m => Some m | _ => None end.
Definition Cast_UMaterialInterface (o : option UObject) : option UMaterialInterface :=
  o ≫= fun x => match x with AMaterialInterface m => Some m | _ => None end.
Definition IsA_UMaterialInterface (o : UObject) : bool :=
  match o with AMaterialInterface _ => true | _ => false end.
Definition IsA_UWorld (o : UObject) : bool :=
  match o with AWorld _ => true | _ => false end.

Record UPackage := { PackagePtr : N; PackageName : string }.

Record UBlueprintFactory := { FactoryPtr : N; Factory_ParentClass : UClass }.

Inductive EObjectFlags := RF_Public | RF_Standalone.

Record FAssetData := {
  AssetName : string;
  GetObjectPathString : string;
  AssetPackageName : string;
  AssetClassPath : string;
}.

Record FARFilter := {
  ClassPaths : list string;
  PackagePaths : list string;
  bRecursivePaths : bool;
}.

Record ULevelEditorSubsystem := { LevelEditorPtr : N }.
Record UAssetEditorSubsystem := { AssetEditorPtr : N }.

(* ===================================================================== *)
(** ** Calls into the engine                                              *)
(* ===================================================================== *)

(** One constructor per engine entry point the handlers call, indexed by
    the type of the answer; a pointer result that may be null is an
    [option]. *)
Inductive EngineCall : Type -> Type :=
(* UEditorAssetLibrary *)
| DoesAssetExist (AssetPath : string) : EngineCall bool
| LoadAsset (AssetPath : string) : EngineCall (option UObject)
| ListAssets (DirectoryPath : string) (bRecursive bIncludeFolder : bool)
    : EngineCall (list string)
(* object system *)
| NewObject_UBlueprintFactory : EngineCall UBlueprintFactory
| LoadClass_AActor (Path : string) : EngineCall (option UClass)
| FindObject_UClass (Name : string) : EngineCall (option UClass)
| CreatePackage (Name : string) : EngineCall UPackage
| FactoryCreateNew (Factory : UBlueprintFactory) (InClass : UClass)
    (InParent : UPackage) (InName : string) (Flags : list EObjectFlags)
    : EngineCall (option UObject)
| MarkPackageDirty (Package : UPackage) : EngineCall bool
(* asset registry *)
| AssetCreated (NewAsset : UBlueprint) : EngineCall unit
| LoadModuleChecked_AssetRegistry : EngineCall unit
| GetAssets (Filter : FARFilter) : EngineCall (list FAssetData)
| FAssetData_FromObject (Asset : UObject) : EngineCall FAssetData
(* helpers of EpicUnrealMCPCommonUtils that query the engine *)
| FindBlueprint (BlueprintName : string) : EngineCall (option UBlueprint)
| ActorToJsonObject (Actor : AActor) (bDetailed : bool) : EngineCall FJsonObject
(* blueprint editing *)
| CreateNode (Script : USimpleConstructionScript) (NewComponentClass : UClass)
    (NewComponentVariableName : string) : EngineCall (option USCS_Node)
| AddNode (Script : USimpleConstructionScript) (Node : USCS_Node) : EngineCall unit
| CompileBlueprint (Blueprint : UBlueprint) : EngineCall unit
| MarkBlueprintAsModified (Blueprint : UBlueprint) : EngineCall unit
(* component setters *)
| SetRelativeLocation (Component : UActorComponent) (NewLocation : FVector)
    : EngineCall unit
| SetRelativeRotation (Component : UActorComponent) (NewRotation : FRotator)
    : EngineCall unit
| SetRelativeScale3D (Component : UActorComponent) (NewScale3D : FVector)
    : EngineCall unit
| SetSimulatePhysics (Component : UActorComponent) (bSimulate : bool) : EngineCall unit
| SetMassOverrideInKg (Component : UActorComponent) (BoneName : string)
    (MassInKg : float) : EngineCall unit
| SetLinearDamping (Component : UActorComponent) (InDamping : float) : EngineCall unit
| SetAngularDamping (Component : UActorComponent) (InDamping : float) : EngineCall unit
| SetStaticMesh (Component : UActorComponent) (NewMesh : UStaticMesh) : EngineCall bool
| SetMaterial (Component : UActorComponent) (ElementIndex : Z)
    (Material : UMaterialInterface) : EngineCall unit
(* materials *)
| UMaterialInstanceDynamic_Create (ParentMaterial : UMaterialInterface)
    (InOuter : UActorComponent) : EngineCall (option UMaterialInterface)
| SetVectorParameterValue (Material : UMaterialInterface) (ParameterName : string)
    (Value : FLinearColor) : EngineCall unit
(* editor world *)
| GetEditorWorld : EngineCall (option UWorld)
| Sleep (Seconds : float) : EngineCall unit
| SpawnActor (World : UWorld) (Class : option UClass) (Transform : FTransform)
    : EngineCall (option AActor)
| SetActorLabel (Actor : AActor) (NewActorLabel : string) : EngineCall unit
| GetAllActorsOfClass (World : UWorld) (ActorClass : UClass)
    : EngineCall (list (option AActor))
(* editor subsystems *)
| GetEditorSubsystem_ULevelEditorSubsystem : EngineCall (option ULevelEditorSubsystem)
| LoadLevel (Subsystem : ULevelEditorSubsystem) (AssetPath : string) : EngineCall bool
| GetEditorSubsystem_UAssetEditorSubsystem : EngineCall (option UAssetEditorSubsystem)
| OpenEditorForAsset (Subsystem : UAssetEditorSubsystem) (Asset : UObject)
    : EngineCall bool.

(** An engine call together with its answer. *)
Inductive EngineEvent : Type :=
| Called {X : Type} (c : EngineCall X) (x : X).

Inductive ELogVerbosity := Error | Warning | Display | Log | Verbose.

Inductive LogArg :=
| LogString (s : string)
| LogInt (n : Z)
| LogNumber (d : double).

Record LogLine := {
  LogVerbosity : ELogVerbosity;
  LogFormat : string;
  LogArgs : list LogArg;
}.

(* ===================================================================== *)
(** ** The [Editor] monad                                                 *)
(* ===================================================================== *)

(** A handler is a tree: it returns, dereferences a null pointer, writes a
    line with [UE_LOG] and goes on, or calls the engine and goes on with
    the answer. *)
Inductive Editor (T : Type) : Type :=
| Ret (t : T)
| NullDereference
| UE_LOG (v : ELogVerbosity) (fmt : string) (args : list LogArg) (k : Editor T)
| Call {X : Type} (c : EngineCall X) (k : X -> Editor T).

Arguments Ret {T} t.
Arguments NullDereference {T}.
Arguments UE_LOG {T} v fmt args k.
Arguments Call {T X} c k.

Fixpoint bind {U T : Type} (p : Editor U) (f : U -> Editor T) : Editor T :=
  match p with
  | Ret u => f u
  | NullDereference => NullDereference
  | UE_LOG v fmt args k => UE_LOG v fmt args (bind k f)
  | Call c k => Call c (fun x => bind (k x) f)
  end.

Definition call {X : Type} (c : EngineCall X) : Editor X := Call c Ret.
Definition log (v : ELogVerbosity) (fmt : string) (args : list LogArg) : Editor unit :=
  UE_LOG v fmt args (Ret tt).

Declare Scope editor_scope.
Delimit Scope editor_scope with editor.
Notation "x <- p ;; q" := (bind p (fun x => q))
  (at level 100, p at next level, right associativity) : editor_scope.
Notation "p ;; q" := (bind p (fun _ => q))
  (at level 100, right associativity) : editor_scope.
#[local] Open Scope editor_scope.

(** *** Running a handler against an editor *)

(** An editor: a set of states and, for every call, its answer and the
    state it leaves. *)
Record EditorModel := {
  EditorState : Type;
  perform : forall X : Type, EngineCall X -> EditorState -> X * EditorState;
}.
Arguments perform _ {X} _ _.

Inductive Outcome (T : Type) : Type :=
| Returned (t : T)
| Crashed.
Arguments Returned {T} t.
Arguments Crashed {T}.

Record Run (T W : Type) := {
  outcome : Outcome T;
  final : W;
  calls : list EngineEvent;
  logged : list LogLine;
}.
Arguments outcome {T W} r.
Arguments final {T W} r.
Arguments calls {T W} r.
Arguments logged {T W} r.

Fixpoint run {T : Type} (M : EditorModel) (p : Editor T) (s : EditorState M)
  : Run T (EditorState M) :=
  match p with
  | Ret t => {| outcome := Returned t; final := s; calls := []; logged := [] |}
  | NullDereference => {| outcome := Crashed; final := s; calls := []; logged := [] |}
  | UE_LOG v fmt args k =>
      let r := run M k s in
      {| outcome := outcome r; final := final r; calls := calls r;
         logged := {| LogVerbosity := v; LogFormat := fmt; LogArgs := args |} :: logged r |}
  | Call c k =>
      let '(x, s') := perform M c s in
      let r := run M (k x) s' in
      {| outcome := outcome r; final := final r; calls := Called c x :: calls r;
         logged := logged r |}
  end.

(** [wp M p s Q]: running [p] from state [s] of [M] ends with an outcome, a
    final state and a list of calls that satisfy [Q]. *)
Definition wp {T : Type} (M : EditorModel) (p : Editor T) (s : EditorState M)
    (Q : Outcome T -> EditorState M -> list EngineEvent -> Prop) : Prop :=
  Q (outcome (run M p s)) (final (run M p s)) (calls (run M p s)).

(* ===================================================================== *)
(** ** The handlers                                                       *)
(* ===================================================================== *)

Definition when (b : bool) (p : Editor unit) : Editor unit :=
  if b then p else Ret tt.

(** The loop
    [for (Node : GetAllNodes()) if (Node && Node->GetVariableName().ToString() == ComponentName) { ComponentNode = Node; break; }]
    shared by the component handlers. *)
Fixpoint FindComponentNode (AllNodes : list (option USCS_Node)) (ComponentName : string)
  : option USCS_Node :=
  match AllNodes with
  | [] => None
  | Some Node :: rest =>
      if GetVariableName Node ==? ComponentName then Some Node
      else FindComponentNode rest ComponentName
  | None :: rest => FindComponentNode rest ComponentName
  end.

(** The loop [for (Actor : AllActors) if (Actor && Actor->GetName() == ActorName) { TargetActor = Actor; break; }]. *)
Fixpoint FindActorByName (AllActors : list (option AActor)) (ActorName : string)
  : option AActor :=
  match AllActors with
  | [] => None
  | Some Actor :: rest =>
      if GetName (ActorObject Actor) ==? ActorName then Some Actor
      else FindActorByName rest ActorName
  | None :: rest => FindActorByName rest ActorName
  end.

(** The loop [for (Graph : Graphs) if (Graph && Graph->GetName() == GraphName) { TargetGraph = Graph; break; }]. *)
Fixpoint FindGraphByName (Graphs : list (option UEdGraph)) (GraphName : string)
  : option UEdGraph :=
  match Graphs with
  | [] => None
  | Some Graph :: rest =>
      if GetName (GraphObject Graph) ==? GraphName then Some Graph
      else FindGraphByName rest GraphName
  | None :: rest => FindGraphByName rest GraphName
  end.

Section Handlers.
Context (host : Host).

Definition ReturnError (Message : string) : Editor FJsonObject :=
  Ret (CreateErrorResponse host Message).

(** *** create_blueprint *)

(** The parent-class block of [HandleCreateBlueprint]: the class the
    factory is given for a [parent_class] value. *)
Definition SelectParentClass (ParentClass : string) : Editor UClass :=
  let SelectedParentClass := AActor_StaticClass in
  if FString.IsEmpty ParentClass then Ret SelectedParentClass
  else
    let ClassName := ParentClass in
    let ClassName :=
      if negb (FString.StartsWith ClassName "A") then "A" +:+ ClassName else ClassName in
    FoundClass <-
      (if ClassName ==? "APawn" then Ret (Some APawn_StaticClass)
       else if ClassName ==? "AActor" then Ret (Some AActor_StaticClass)
       else
         let ClassPath := "/Script/Engine." +:+ ClassName in
         FoundClass <- call (LoadClass_AActor ClassPath) ;;
         match FoundClass with
         | Some _ => Ret FoundClass
         | None =>
             let GameClassPath := "/Script/Game." +:+ ClassName in
             call (LoadClass_AActor GameClassPath)
         end) ;;
    match FoundClass with
    | Some FoundClass =>
        log Log "Successfully set parent class to '%s'" [LogString ClassName] ;;
        Ret FoundClass
    | None =>
        log Warning
          "Could not find specified parent class '%s' at paths: /Script/Engine.%s or /Script/Game.%s, defaulting to AActor"
          [LogString ClassName; LogString ClassName; LogString ClassName] ;;
        Ret SelectedParentClass
    end.

Definition HandleCreateBlueprint (Params : FJsonObject) : Editor FJsonObject :=
  match TryGetStringField host Params "name" with
  | None => ReturnError "Missing 'name' parameter"
  | Some BlueprintName =>
      let PackagePath := "/Game/Blueprints/" in
      let AssetName := BlueprintName in
      bExists <- call (DoesAssetExist (PackagePath +:+ AssetName)) ;;
      if bExists : bool
      then ReturnError ("Blueprint already exists: " +:+ BlueprintName)
      else
        Factory <- call NewObject_UBlueprintFactory ;;
        let ParentClass := default "" (TryGetStringField host Params "parent_class") in
        SelectedParentClass <- SelectParentClass ParentClass ;;
        let Factory :=
          {| FactoryPtr := FactoryPtr Factory;
             Factory_ParentClass := SelectedParentClass |} in
        Package <- call (CreatePackage (PackagePath +:+ AssetName)) ;;
        Created <- call (FactoryCreateNew Factory UBlueprint_StaticClass Package AssetName
                           [RF_Standalone; RF_Public]) ;;
        match Cast_UBlueprint Created with
        | Some NewBlueprint =>
            call (AssetCreated NewBlueprint) ;;
            call (MarkPackageDirty Package) ;;
            let ResultObj : FJsonObject := ∅ in
            let ResultObj := SetStringField "name" AssetName ResultObj in
            let ResultObj := SetStringField "path" (PackagePath +:+ AssetName) ResultObj in
            Ret ResultObj
        | None => ReturnError "Failed to create blueprint"
        end
  end.

(** *** add_component_to_blueprint *)

Definition HandleAddComponentToBlueprint (Params : FJsonObject) : Editor FJsonObject :=
  match TryGetStringField host Params "blueprint_name" with
  | None => ReturnError "Missing 'blueprint_name' parameter"
  | Some BlueprintName =>
  match TryGetStringField host Params "component_type" with
  | None => ReturnError "Missing 'type' parameter"
  | Some ComponentType =>
  match TryGetStringField host Params "component_name" with
  | None => ReturnError "Missing 'name' parameter"
  | Some ComponentName =>
      Blueprint <- call (FindBlueprint BlueprintName) ;;
      match Blueprint with
      | None => ReturnError ("Blueprint not found: " +:+ BlueprintName)
      | Some Blueprint =>
          ComponentClass <- call (FindObject_UClass ComponentType) ;;
          ComponentClass <-
            (if negb (bool_decide (is_Some ComponentClass))
                && negb (FString.EndsWith ComponentType "Component")
             then call (FindObject_UClass (ComponentType +:+ "Component"))
             else Ret ComponentClass) ;;
          ComponentClass <-
            (if negb (bool_decide (is_Some ComponentClass))
                && negb (FString.StartsWith ComponentType "U")
             then
               ComponentClass <- call (FindObject_UClass ("U" +:+ ComponentType)) ;;
               if negb (bool_decide (is_Some ComponentClass))
                  && negb (FString.EndsWith ComponentType "Component")
               then call (FindObject_UClass ("U" +:+ ComponentType +:+ "Component"))
               else Ret ComponentClass
             else Ret ComponentClass) ;;
          match ComponentClass with
          | None => ReturnError ("Unknown component type: " +:+ ComponentType)
          | Some ComponentClass =>
              if negb (IsChildOf_UActorComponent ComponentClass)
              then ReturnError ("Unknown component type: " +:+ ComponentType)
              else
                match SimpleConstructionScript Blueprint with
                | None => NullDereference
                | Some Script =>
                    NewNode <- call (CreateNode Script ComponentClass ComponentName) ;;
                    match NewNode with
                    | Some NewNode =>
                        match Cast_USceneComponent (ComponentTemplate NewNode) with
                        | Some SceneComponent =>
                            when (HasField Params "location")
                              (call (SetRelativeLocation SceneComponent
                                       (GetVectorFromJson host Params "location"))) ;;
                            when (HasField Params "rotation")
                              (call (SetRelativeRotation SceneComponent
                                       (GetRotatorFromJson host Params "rotation"))) ;;
                            when (HasField Params "scale")
                              (call (SetRelativeScale3D SceneComponent
                                       (GetVectorFromJson host Params "scale")))
                        | None => Ret tt
                        end ;;
                        call (AddNode Script NewNode) ;;
                        call (CompileBlueprint Blueprint) ;;
                        let ResultObj : FJsonObject := ∅ in
                        let ResultObj := SetStringField "component_name" ComponentName ResultObj in
                        let ResultObj := SetStringField "component_type" ComponentType ResultObj in
                        Ret ResultObj
                    | None => ReturnError "Failed to add component to blueprint"
                    end
                end
          end
      end
  end end end.

(** *** set_physics_properties *)

Definition HandleSetPhysicsProperties (Params : FJsonObject) : Editor FJsonObject :=
  match TryGetStringField host Params "blueprint_name" with
  | None => ReturnError "Missing 'blueprint_name' parameter"
  | Some BlueprintName =>
  match TryGetStringField host Params "component_name" with
  | None => ReturnError "Missing 'component_name' parameter"
  | Some ComponentName =>
      Blueprint <- call (FindBlueprint BlueprintName) ;;
      match Blueprint with
      | None => ReturnError ("Blueprint not found: " +:+ BlueprintName)
      | Some Blueprint =>
      match SimpleConstructionScript Blueprint with
      | None => NullDereference
      | Some Script =>
      match FindComponentNode (GetAllNodes Script) ComponentName with
      | None => ReturnError ("Component not found: " +:+ ComponentName)
      | Some ComponentNode =>
      match Cast_UPrimitiveComponent (ComponentTemplate ComponentNode) with
      | None => ReturnError "Component is not a primitive component"
      | Some PrimComponent =>
          when (HasField Params "simulate_physics")
            (call (SetSimulatePhysics PrimComponent
                     (GetBoolField host Params "simulate_physics"))) ;;
          when (HasField Params "mass")
            (let Mass : float := DoubleToFloat (GetNumberField host Params "mass") in
             call (SetMassOverrideInKg PrimComponent "None" Mass) ;;
             log Display "Set mass for component %s to %f kg"
               [LogString ComponentName; LogNumber (FloatToDouble Mass)]) ;;
          when (HasField Params "linear_damping")
            (call (SetLinearDamping PrimComponent
                     (DoubleToFloat (GetNumberField host Params "linear_damping")))) ;;
          when (HasField Params "angular_damping")
            (call (SetAngularDamping PrimComponent
                     (DoubleToFloat (GetNumberField host Params "angular_damping")))) ;;
          call (MarkBlueprintAsModified Blueprint) ;;
          let ResultObj : FJsonObject := ∅ in
          let ResultObj := SetStringField "component" ComponentName ResultObj in
          Ret ResultObj
      end end end end
  end end.

(** *** compile_blueprint *)

Definition HandleCompileBlueprint (Params : FJsonObject) : Editor FJsonObject :=
  match TryGetStringField host Params "blueprint_name" with
  | None => ReturnError "Missing 'blueprint_name' parameter"
  | Some BlueprintName =>
      Blueprint <- call (FindBlueprint BlueprintName) ;;
      match Blueprint with
      | None => ReturnError ("Blueprint not found: " +:+ BlueprintName)
      | Some Blueprint =>
          call (CompileBlueprint Blueprint) ;;
          let ResultObj : FJsonObject := ∅ in
          let ResultObj := SetStringField "name" BlueprintName ResultObj in
          let ResultObj := SetBoolField "compiled" true ResultObj in
          Ret ResultObj
      end
  end.

(** *** spawn_blueprint_actor *)

Definition HandleSpawnBlueprintActor (Params : FJsonObject) : Editor FJsonObject :=
  log Warning "HandleSpawnBlueprintActor: Starting blueprint actor spawn" [] ;;
  match TryGetStringField host Params "blueprint_name" with
  | None =>
      log Error "HandleSpawnBlueprintActor: Missing blueprint_name parameter" [] ;;
      ReturnError "Missing 'blueprint_name' parameter"
  | Some BlueprintName =>
  match TryGetStringField host Params "actor_name" with
  | None =>
      log Error "HandleSpawnBlueprintActor: Missing actor_name parameter" [] ;;
      ReturnError "Missing 'actor_name' parameter"
  | Some ActorName =>
      log Warning "HandleSpawnBlueprintActor: Looking for blueprint '%s'"
        [LogString BlueprintName] ;;
      Blueprint <- call (FindBlueprint BlueprintName) ;;
      match Blueprint with
      | None =>
          log Error "HandleSpawnBlueprintActor: Blueprint not found: %s"
            [LogString BlueprintName] ;;
          ReturnError ("Blueprint not found: " +:+ BlueprintName)
      | Some Blueprint =>
          log Warning
            "HandleSpawnBlueprintActor: Blueprint found, getting transform parameters" [] ;;
          Location <-
            (if HasField Params "location"
             then
               let Location := GetVectorFromJson host Params "location" in
               log Warning "HandleSpawnBlueprintActor: Location set to (%f, %f, %f)"
                 [LogNumber (VX Location); LogNumber (VY Location); LogNumber (VZ Location)] ;;
               Ret Location
             else Ret {| VX := Double_0; VY := Double_0; VZ := Double_0 |}) ;;
          Rotation <-
            (if HasField Params "rotation"
             then
               let Rotation := GetRotatorFromJson host Params "rotation" in
               log Warning "HandleSpawnBlueprintActor: Rotation set to (%f, %f, %f)"
                 [LogNumber (Pitch Rotation); LogNumber (Yaw Rotation);
                  LogNumber (Roll Rotation)] ;;
               Ret Rotation
             else Ret {| Pitch := Double_0; Yaw := Double_0; Roll := Double_0 |}) ;;
          log Warning "HandleSpawnBlueprintActor: Getting editor world" [] ;;
          World <- call GetEditorWorld ;;
          match World with
          | None =>
              log Error "HandleSpawnBlueprintActor: Failed to get editor world" [] ;;
              ReturnError "Failed to get editor world"
          | Some World =>
              log Warning "HandleSpawnBlueprintActor: Creating spawn transform" [] ;;
              let SpawnTransform := {| Location := Location; Rotation := Rotation |} in
              call (Sleep Float_0_2) ;;
              log Warning
                "HandleSpawnBlueprintActor: About to spawn actor from blueprint '%s' with GeneratedClass: %s"
                [LogString BlueprintName;
                 LogString (match GeneratedClass Blueprint with
                            | Some c => ClassGetName c
                            | None => "NULL"
                            end)] ;;
              NewActor <- call (SpawnActor World (GeneratedClass Blueprint) SpawnTransform) ;;
              log Warning "HandleSpawnBlueprintActor: SpawnActor completed, NewActor: %s"
                [LogString (match NewActor with
                            | Some a => GetName (ActorObject a)
                            | None => "NULL"
                            end)] ;;
              match NewActor with
              | Some NewActor =>
                  log Warning "HandleSpawnBlueprintActor: Setting actor label to '%s'"
                    [LogString ActorName] ;;
                  call (SetActorLabel NewActor ActorName) ;;
                  log Warning "HandleSpawnBlueprintActor: About to convert actor to JSON" [] ;;
                  Result <- call (ActorToJsonObject NewActor true) ;;
                  log Warning
                    "HandleSpawnBlueprintActor: JSON conversion completed, returning result" [] ;;
                  Ret Result
              | None =>
                  log Error "HandleSpawnBlueprintActor: Failed to spawn blueprint actor" [] ;;
                  ReturnError "Failed to spawn blueprint actor"
              end
          end
      end
  end end.

(** *** set_static_mesh_properties *)

Definition HandleSetStaticMeshProperties (Params : FJsonObject) : Editor FJsonObject :=
  match TryGetStringField host Params "blueprint_name" with
  | None => ReturnError "Missing 'blueprint_name' parameter"
  | Some BlueprintName =>
  match TryGetStringField host Params "component_name" with
  | None => ReturnError "Missing 'component_name' parameter"
  | Some ComponentName =>
      Blueprint <- call (FindBlueprint BlueprintName) ;;
      match Blueprint with
      | None => ReturnError ("Blueprint not found: " +:+ BlueprintName)
      | Some Blueprint =>
      match SimpleConstructionScript Blueprint with
      | None => NullDereference
      | Some Script =>
      match FindComponentNode (GetAllNodes Script) ComponentName with
      | None => ReturnError ("Component not found: " +:+ ComponentName)
      | Some ComponentNode =>
      match Cast_UStaticMeshComponent (ComponentTemplate ComponentNode) with
      | None => ReturnError "Component is not a static mesh component"
      | Some MeshComponent =>
          when (HasField Params "static_mesh")
            (let MeshPath := GetStringField host Params "static_mesh" in
             Asset <- call (LoadAsset MeshPath) ;;
             match Cast_UStaticMesh Asset with
             | Some Mesh => call (SetStaticMesh MeshComponent Mesh) ;; Ret tt
             | None => Ret tt
             end) ;;
          when (HasField Params "material")
            (let MaterialPath := GetStringField host Params "material" in
             Asset <- call (LoadAsset MaterialPath) ;;
             match Cast_UMaterialInterface Asset with
             | Some Material => call (SetMaterial MeshComponent 0 Material)
             | None => Ret tt
             end) ;;
          call (MarkBlueprintAsModified Blueprint) ;;
          let ResultObj : FJsonObject := ∅ in
          let ResultObj := SetStringField "component" ComponentName ResultObj in
          Ret ResultObj
      end end end end
  end end.

(** *** set_mesh_material_color *)

(** [ColorArray.Add(FMath::Clamp(Value->AsNumber(), 0.0f, 1.0f))]: the
    clamp is taken on doubles, the array holds floats. *)
Definition ClampColorComponent (Value : FJsonValue) : float :=
  DoubleToFloat (FMath.Clamp (AsNumber host Value) Double_0 Double_1).

(** The part of [HandleSetMeshMaterialColor] that starts at the comment
    "Get color parameter", for the blueprint and the primitive component
    found before. *)
Definition SetMeshMaterialColor_FromColor (Params : FJsonObject) (ComponentName : string)
    (Blueprint : UBlueprint) (PrimComponent : UActorComponent) : Editor FJsonObject :=
  match TryGetArrayField Params "color" with
  | None => ReturnError "'color' must be an array of 4 float values [R, G, B, A]"
  | Some ColorJsonArray =>
      if negb (Z.of_nat (length ColorJsonArray) =? 4)
      then ReturnError "'color' must be an array of 4 float values [R, G, B, A]"
      else
        let ColorArray : list float := map ClampColorComponent ColorJsonArray in
        let Color :=
          {| R := nth 0 ColorArray Double_0; G := nth 1 ColorArray Double_0;
             B := nth 2 ColorArray Double_0; A := nth 3 ColorArray Double_0 |} in
        let MaterialSlot : Z :=
          if HasField Params "material_slot"
          then GetIntegerField host Params "material_slot" else 0 in
        let ParameterName :=
          default "BaseColor" (TryGetStringField host Params "parameter_name") in
        let WithMaterial (Material : UMaterialInterface) : Editor FJsonObject :=
          DynMaterial <- call (UMaterialInstanceDynamic_Create Material PrimComponent) ;;
          match DynMaterial with
          | None => ReturnError "Failed to create dynamic material instance"
          | Some DynMaterial =>
              call (SetVectorParameterValue DynMaterial ParameterName Color) ;;
              call (SetMaterial PrimComponent MaterialSlot DynMaterial) ;;
              call (MarkBlueprintAsModified Blueprint) ;;
              log Log
                "Successfully set material color on component %s: R=%f, G=%f, B=%f, A=%f"
                [LogString ComponentName; LogNumber (FloatToDouble (R Color));
                 LogNumber (FloatToDouble (G Color)); LogNumber (FloatToDouble (B Color));
                 LogNumber (FloatToDouble (A Color))] ;;
              let ResultObj : FJsonObject := ∅ in
              let ResultObj := SetStringField "component" ComponentName ResultObj in
              let ResultObj :=
                SetNumberField "material_slot" (Int32ToDouble MaterialSlot) ResultObj in
              let ResultObj := SetStringField "parameter_name" ParameterName ResultObj in
              let ColorResultArray :=
                [FJsonValueNumber (FloatToDouble (R Color));
                 FJsonValueNumber (FloatToDouble (G Color));
                 FJsonValueNumber (FloatToDouble (B Color));
                 FJsonValueNumber (FloatToDouble (A Color))] in
              let ResultObj := SetArrayField "color" ColorResultArray ResultObj in
              let ResultObj := SetBoolField "success" true ResultObj in
              Ret ResultObj
          end in
        match TryGetStringField host Params "material_path" with
        | Some MaterialPath =>
            Asset <- call (LoadAsset MaterialPath) ;;
            match Cast_UMaterialInterface Asset with
            | None => ReturnError ("Failed to load material: " +:+ MaterialPath)
            | Some Material => WithMaterial Material
            end
        | None =>
            match GetMaterial PrimComponent MaterialSlot with
            | Some Material => WithMaterial Material
            | None =>
                Asset <- call (LoadAsset "/Engine/BasicShapes/BasicShapeMaterial") ;;
                match Cast_UMaterialInterface Asset with
                | None =>
                    ReturnError
                      "No material found on component and failed to load default material"
                | Some Material => WithMaterial Material
                end
            end
        end
  end.

Definition HandleSetMeshMaterialColor (Params : FJsonObject) : Editor FJsonObject :=
  match TryGetStringField host Params "blueprint_name" with
  | None => ReturnError "Missing 'blueprint_name' parameter"
  | Some BlueprintName =>
  match TryGetStringField host Params "component_name" with
  | None => ReturnError "Missing 'component_name' parameter"
  | Some ComponentName =>
      Blueprint <- call (FindBlueprint BlueprintName) ;;
      match Blueprint with
      | None => ReturnError ("Blueprint not found: " +:+ BlueprintName)
      | Some Blueprint =>
      match SimpleConstructionScript Blueprint with
      | None => NullDereference
      | Some Script =>
      match FindComponentNode (GetAllNodes Script) ComponentName with
      | None => ReturnError ("Component not found: " +:+ ComponentName)
      | Some ComponentNode =>
      match Cast_UPrimitiveComponent (ComponentTemplate ComponentNode) with
      | None => ReturnError "Component is not a primitive component"
      | Some PrimComponent =>
          SetMeshMaterialColor_FromColor Params ComponentName Blueprint PrimComponent
      end end end end
  end end.

(** *** get_available_materials *)

Definition UMaterialInterface_StaticClass : UClass :=
  {| GetClassPathName := "/Script/Engine.MaterialInterface";
     ClassGetName := "MaterialInterface"; IsChildOf_UActorComponent := false |}.
Definition UMaterial_StaticClass : UClass :=
  {| GetClassPathName := "/Script/Engine.Material";
     ClassGetName := "Material"; IsChildOf_UActorComponent := false |}.
Definition UMaterialInstanceConstant_StaticClass : UClass :=
  {| GetClassPathName := "/Script/Engine.MaterialInstanceConstant";
     ClassGetName := "MaterialInstanceConstant"; IsChildOf_UActorComponent := false |}.
Definition UMaterialInstanceDynamic_StaticClass : UClass :=
  {| GetClassPathName := "/Script/Engine.MaterialInstanceDynamic";
     ClassGetName := "MaterialInstanceDynamic"; IsChildOf_UActorComponent := false |}.

(** "Ensure the path starts with /" and "ends with /". *)
Definition NormalizeSearchPath (SearchPath : string) : string :=
  let SearchPath :=
    if negb (FString.StartsWith SearchPath "/") then "/" +:+ SearchPath else SearchPath in
  let SearchPath :=
    if negb (FString.EndsWith SearchPath "/") then SearchPath +:+ "/" else SearchPath in
  SearchPath.

(** The inner loop of the manual search: is [AssetPath] the object path of
    an entry found so far? *)
Definition AlreadyFound (AssetDataArray : list FAssetData) (AssetPath : string) : bool :=
  existsb (fun ExistingData => GetObjectPathString ExistingData ==? AssetPath) AssetDataArray.

(** "Filter for materials from the manual search": the loop over
    [AllAssetPaths], which appends to [AssetDataArray]. *)
Fixpoint ManualMaterialSearch (AllAssetPaths : list string) (AssetDataArray : list FAssetData)
  : Editor (list FAssetData) :=
  match AllAssetPaths with
  | [] => Ret AssetDataArray
  | AssetPath :: rest =>
      if FString.Contains AssetPath "Material" && negb (FString.Contains AssetPath ".uasset")
      then
        Asset <- call (LoadAsset AssetPath) ;;
        match Asset with
        | Some Asset =>
            if IsA_UMaterialInterface Asset
            then
              if negb (AlreadyFound AssetDataArray AssetPath)
              then
                ManualAssetData <- call (FAssetData_FromObject Asset) ;;
                ManualMaterialSearch rest ((AssetDataArray ++ [ManualAssetData])%list)
              else ManualMaterialSearch rest AssetDataArray
            else ManualMaterialSearch rest AssetDataArray
        | None => ManualMaterialSearch rest AssetDataArray
        end
      else ManualMaterialSearch rest AssetDataArray
  end.

Definition MaterialToJson (AssetData : FAssetData) : FJsonObject :=
  let MaterialObj : FJsonObject := ∅ in
  let MaterialObj := SetStringField "name" (AssetName AssetData) MaterialObj in
  let MaterialObj := SetStringField "path" (GetObjectPathString AssetData) MaterialObj in
  let MaterialObj := SetStringField "package" (AssetPackageName AssetData) MaterialObj in
  let MaterialObj := SetStringField "class" (AssetClassPath AssetData) MaterialObj in
  MaterialObj.

(** "Convert to JSON": the loop over [AssetDataArray], which appends to
    [MaterialArray]. *)
Fixpoint MaterialsToJson (AssetDataArray : list FAssetData) (MaterialArray : list FJsonValue)
  : Editor (list FJsonValue) :=
  match AssetDataArray with
  | [] => Ret MaterialArray
  | AssetData :: rest =>
      let MaterialArray : list FJsonValue :=
        (MaterialArray ++ [FJsonValueObject (MaterialToJson AssetData)])%list in
      log Verbose "Found material: %s at %s"
        [LogString (AssetName AssetData); LogString (GetObjectPathString AssetData)] ;;
      MaterialsToJson rest MaterialArray
  end.

Definition HandleGetAvailableMaterials (Params : FJsonObject) : Editor FJsonObject :=
  let SearchPath := default "" (TryGetStringField host Params "search_path") in
  let bIncludeEngineMaterials :=
    if HasField Params "include_engine_materials"
    then GetBoolField host Params "include_engine_materials" else true in
  call LoadModuleChecked_AssetRegistry ;;
  let Filter_ClassPaths :=
    [GetClassPathName UMaterialInterface_StaticClass;
     GetClassPathName UMaterial_StaticClass;
     GetClassPathName UMaterialInstanceConstant_StaticClass;
     GetClassPathName UMaterialInstanceDynamic_StaticClass] in
  Searched <-
    (if negb (FString.IsEmpty SearchPath)
     then
       let SearchPath := NormalizeSearchPath SearchPath in
       log Log "Searching for materials in: %s" [LogString SearchPath] ;;
       Ret (SearchPath, [SearchPath])
     else
       log Log "Searching for materials in all game content" [] ;;
       Ret (SearchPath, ["/Game/"])) ;;
  let SearchPath : string := fst Searched in
  let Filter_PackagePaths : list string := snd Searched in
  Filter_PackagePaths <-
    (if bIncludeEngineMaterials
     then
       log Log "Including Engine materials in search" [] ;;
       Ret ((Filter_PackagePaths ++ ["/Engine/"])%list)
     else Ret Filter_PackagePaths) ;;
  let Filter :=
    {| ClassPaths := Filter_ClassPaths; PackagePaths := Filter_PackagePaths;
       bRecursivePaths := true |} in
  AssetDataArray <- call (GetAssets Filter) ;;
  log Log "Asset registry found %d materials" [LogInt (Z.of_nat (length AssetDataArray))] ;;
  AllAssetPaths <-
    (if negb (FString.IsEmpty SearchPath)
     then call (ListAssets SearchPath true false)
     else call (ListAssets "/Game/" true false)) ;;
  AssetDataArray <- ManualMaterialSearch AllAssetPaths AssetDataArray ;;
  log Log "Total materials found after manual search: %d"
    [LogInt (Z.of_nat (length AssetDataArray))] ;;
  MaterialArray <- MaterialsToJson AssetDataArray [] ;;
  let ResultObj : FJsonObject := ∅ in
  let ResultObj := SetArrayField "materials" MaterialArray ResultObj in
  let ResultObj :=
    SetNumberField "count" (Int32ToDouble (Z.of_nat (length MaterialArray))) ResultObj in
  let ResultObj :=
    SetStringField "search_path_used"
      (if FString.IsEmpty SearchPath then "/Game/" else SearchPath) ResultObj in
  Ret ResultObj.

(** *** apply_material_to_actor *)

(** The loop [for (MeshComp : MeshComponents) if (MeshComp) { MeshComp->SetMaterial(MaterialSlot, Material); bAppliedToAny = true; }]. *)
Fixpoint ApplyMaterialToComponents (MeshComponents : list (option UActorComponent))
    (MaterialSlot : Z) (Material : UMaterialInterface) (bAppliedToAny : bool)
  : Editor bool :=
  match MeshComponents with
  | [] => Ret bAppliedToAny
  | Some MeshComp :: rest =>
      call (SetMaterial MeshComp MaterialSlot Material) ;;
      ApplyMaterialToComponents rest MaterialSlot Material true
  | None :: rest => ApplyMaterialToComponents rest MaterialSlot Material bAppliedToAny
  end.

Definition HandleApplyMaterialToActor (Params : FJsonObject) : Editor FJsonObject :=
  match TryGetStringField host Params "actor_name" with
  | None => ReturnError "Missing 'actor_name' parameter"
  | Some ActorName =>
  match TryGetStringField host Params "material_path" with
  | None => ReturnError "Missing 'material_path' parameter"
  | Some MaterialPath =>
      let MaterialSlot : Z :=
        if HasField Params "material_slot"
        then GetIntegerField host Params "material_slot" else 0 in
      World <- call GetEditorWorld ;;
      match World with
      | None => ReturnError "Failed to get editor world"
      | Some World =>
          AllActors <- call (GetAllActorsOfClass World AActor_StaticClass) ;;
          match FindActorByName AllActors ActorName with
          | None => ReturnError ("Actor not found: " +:+ ActorName)
          | Some TargetActor =>
              Asset <- call (LoadAsset MaterialPath) ;;
              match Cast_UMaterialInterface Asset with
              | None => ReturnError ("Failed to load material: " +:+ MaterialPath)
              | Some Material =>
                  let MeshComponents := GetComponents_UStaticMeshComponent TargetActor in
                  bAppliedToAny <-
                    ApplyMaterialToComponents MeshComponents MaterialSlot Material false ;;
                  if negb bAppliedToAny
                  then ReturnError "No mesh components found on actor"
                  else
                    let ResultObj : FJsonObject := ∅ in
                    let ResultObj := SetStringField "actor_name" ActorName ResultObj in
                    let ResultObj := SetStringField "material_path" MaterialPath ResultObj in
                    let ResultObj :=
                      SetNumberField "material_slot" (Int32ToDouble MaterialSlot) ResultObj in
                    let ResultObj := SetBoolField "success" true ResultObj in
                    Ret ResultObj
              end
          end
      end
  end end.

(** *** apply_material_to_blueprint *)

Definition HandleApplyMaterialToBlueprint (Params : FJsonObject) : Editor FJsonObject :=
  match TryGetStringField host Params "blueprint_name" with
  | None => ReturnError "Missing 'blueprint_name' parameter"
  | Some BlueprintName =>
  match TryGetStringField host Params "component_name" with
  | None => ReturnError "Missing 'component_name' parameter"
  | Some ComponentName =>
  match TryGetStringField host Params "material_path" with
  | None => ReturnError "Missing 'material_path' parameter"
  | Some MaterialPath =>
      let MaterialSlot : Z :=
        if HasField Params "material_slot"
        then GetIntegerField host Params "material_slot" else 0 in
      Blueprint <- call (FindBlueprint BlueprintName) ;;
      match Blueprint with
      | None => ReturnError ("Blueprint not found: " +:+ BlueprintName)
      | Some Blueprint =>
      match SimpleConstructionScript Blueprint with
      | None => NullDereference
      | Some Script =>
      match FindComponentNode (GetAllNodes Script) ComponentName with
      | None => ReturnError ("Component not found: " +:+ ComponentName)
      | Some ComponentNode =>
      match Cast_UPrimitiveComponent (ComponentTemplate ComponentNode) with
      | None => ReturnError "Component is not a primitive component"
      | Some PrimComponent =>
          Asset <- call (LoadAsset MaterialPath) ;;
          match Cast_UMaterialInterface Asset with
          | None => ReturnError ("Failed to load material: " +:+ MaterialPath)
          | Some Material =>
              call (SetMaterial PrimComponent MaterialSlot Material) ;;
              call (MarkBlueprintAsModified Blueprint) ;;
              let ResultObj : FJsonObject := ∅ in
              let ResultObj := SetStringField "blueprint_name" BlueprintName ResultObj in
              let ResultObj := SetStringField "component_name" ComponentName ResultObj in
              let ResultObj := SetStringField "material_path" MaterialPath ResultObj in
              let ResultObj :=
                SetNumberField "material_slot" (Int32ToDouble MaterialSlot) ResultObj in
              let ResultObj := SetBoolField "success" true ResultObj in
              Ret ResultObj
          end
      end end end end
  end end end.

(** *** get_actor_material_info, get_blueprint_material_info *)

(** The [SlotInfo] object both handlers build for slot [i]. *)
Definition MaterialSlotInfo (i : Z) (Component : string) (Material : option UMaterialInterface)
  : FJsonObject :=
  let SlotInfo : FJsonObject := ∅ in
  let SlotInfo := SetNumberField "slot" (Int32ToDouble i) SlotInfo in
  let SlotInfo := SetStringField "component" Component SlotInfo in
  match Material with
  | Some Material =>
      let SlotInfo :=
        SetStringField "material_name" (GetName (MaterialObject Material)) SlotInfo in
      let SlotInfo :=
        SetStringField "material_path" (GetPathName (MaterialObject Material)) SlotInfo in
      let SlotInfo :=
        SetStringField "material_class"
          (ClassGetName (GetClass (MaterialObject Material))) SlotInfo in
      SlotInfo
  | None =>
      let SlotInfo := SetStringField "material_name" "None" SlotInfo in
      let SlotInfo := SetStringField "material_path" "" SlotInfo in
      let SlotInfo := SetStringField "material_class" "" SlotInfo in
      SlotInfo
  end.

(** [for (int32 i = 0; i < NumMaterials; i++)] over the slots of one
    component. *)
Definition ComponentMaterialSlots (NumMaterials : Z) (Component : string)
    (MeshComp : UActorComponent) : list FJsonValue :=
  map (fun i => FJsonValueObject (MaterialSlotInfo i Component (GetMaterial MeshComp i)))
      (seqZ 0 NumMaterials).

Definition HandleGetActorMaterialInfo (Params : FJsonObject) : Editor FJsonObject :=
  match TryGetStringField host Params "actor_name" with
  | None => ReturnError "Missing 'actor_name' parameter"
  | Some ActorName =>
      World <- call GetEditorWorld ;;
      match World with
      | None => ReturnError "Failed to get editor world"
      | Some World =>
          AllActors <- call (GetAllActorsOfClass World AActor_StaticClass) ;;
          match FindActorByName AllActors ActorName with
          | None => ReturnError ("Actor not found: " +:+ ActorName)
          | Some TargetActor =>
              let MeshComponents := GetComponents_UStaticMeshComponent TargetActor in
              let MaterialSlots : list FJsonValue :=
                flat_map
                  (fun MeshComp : option UActorComponent =>
                     match MeshComp with
                     | Some MeshComp =>
                         ComponentMaterialSlots (GetNumMaterials MeshComp)
                           (GetName (ComponentObject MeshComp)) MeshComp
                     | None => []
                     end)
                  MeshComponents in
              let ResultObj : FJsonObject := ∅ in
              let ResultObj := SetStringField "actor_name" ActorName ResultObj in
              let ResultObj := SetArrayField "material_slots" MaterialSlots ResultObj in
              let ResultObj :=
                SetNumberField "total_slots"
                  (Int32ToDouble (Z.of_nat (length MaterialSlots))) ResultObj in
              Ret ResultObj
          end
      end
  end.

Definition HandleGetBlueprintMaterialInfo (Params : FJsonObject) : Editor FJsonObject :=
  match TryGetStringField host Params "blueprint_name" with
  | None => ReturnError "Missing 'blueprint_name' parameter"
  | Some BlueprintName =>
  match TryGetStringField host Params "component_name" with
  | None => ReturnError "Missing 'component_name' parameter"
  | Some ComponentName =>
      Blueprint <- call (FindBlueprint BlueprintName) ;;
      match Blueprint with
      | None => ReturnError ("Blueprint not found: " +:+ BlueprintName)
      | Some Blueprint =>
      match SimpleConstructionScript Blueprint with
      | None => NullDereference
      | Some Script =>
      match FindComponentNode (GetAllNodes Script) ComponentName with
      | None => ReturnError ("Component not found: " +:+ ComponentName)
      | Some ComponentNode =>
      match Cast_UStaticMeshComponent (ComponentTemplate ComponentNode) with
      | None => ReturnError "Component is not a static mesh component"
      | Some MeshComponent =>
          let StaticMesh := GetStaticMesh MeshComponent in
          MaterialSlots <-
            match StaticMesh with
            | Some StaticMesh =>
                let NumMaterials := GetNumSections StaticMesh 0 in
                Ret (ComponentMaterialSlots NumMaterials ComponentName MeshComponent)
            | None =>
                log Warning "No static mesh assigned to component %s in blueprint %s"
                  [LogString ComponentName; LogString BlueprintName] ;;
                Ret []
            end ;;
          let ResultObj : FJsonObject := ∅ in
          let ResultObj := SetStringField "blueprint_name" BlueprintName ResultObj in
          let ResultObj := SetStringField "component_name" ComponentName ResultObj in
          let ResultObj := SetArrayField "material_slots" MaterialSlots ResultObj in
          let ResultObj :=
            SetNumberField "total_slots"
              (Int32ToDouble (Z.of_nat (length MaterialSlots))) ResultObj in
          let ResultObj :=
            SetBoolField "has_static_mesh" (bool_decide (is_Some StaticMesh)) ResultObj in
          Ret ResultObj
      end end end end
  end end.

(** *** read_blueprint_content *)

(** The [NodeObj] with "name", "class" and "title" that the analysis
    handlers build for a node. *)
Definition BasicNodeInfo (Node : UEdGraphNode) : FJsonObject :=
  let NodeObj : FJsonObject := ∅ in
  let NodeObj := SetStringField "name" (GetName (GraphNodeObject Node)) NodeObj in
  let NodeObj :=
    SetStringField "class" (ClassGetName (GetClass (GraphNodeObject Node))) NodeObj in
  let NodeObj := SetStringField "title" (GetNodeTitle_FullTitle Node) NodeObj in
  NodeObj.

(** [for (Node : Graph->Nodes) if (Node) { ... NodeArray.Add(NodeObj); }] *)
Definition BasicNodeArray (GraphNodes : list (option UEdGraphNode)) : list FJsonValue :=
  omap (fun Node : option UEdGraphNode =>
          Node ≫= fun Node => Some (FJsonValueObject (BasicNodeInfo Node)))
       GraphNodes.

Definition HandleReadBlueprintContent (Params : FJsonObject) : Editor FJsonObject :=
  match TryGetStringField host Params "blueprint_path" with
  | None => ReturnError "Missing 'blueprint_path' parameter"
  | Some BlueprintPath =>
      let bIncludeEventGraph := default true (TryGetBoolField host Params "include_event_graph") in
      let bIncludeFunctions := default true (TryGetBoolField host Params "include_functions") in
      let bIncludeVariables := default true (TryGetBoolField host Params "include_variables") in
      let bIncludeComponents := default true (TryGetBoolField host Params "include_components") in
      let bIncludeInterfaces := default true (TryGetBoolField host Params "include_interfaces") in
      Asset <- call (LoadAsset BlueprintPath) ;;
      match Cast_UBlueprint Asset with
      | None => ReturnError ("Failed to load blueprint: " +:+ BlueprintPath)
      | Some Blueprint =>
          let ResultObj : FJsonObject := ∅ in
          let ResultObj := SetStringField "blueprint_path" BlueprintPath ResultObj in
          let ResultObj :=
            SetStringField "blueprint_name" (GetName (BlueprintObject Blueprint)) ResultObj in
          let ResultObj :=
            SetStringField "parent_class"
              (match ParentClass Blueprint with
               | Some c => ClassGetName c
               | None => "None"
               end) ResultObj in
          let ResultObj :=
            if bIncludeVariables
            then
              let VariableArray :=
                map (fun Var : FBPVariableDescription =>
                       let VarObj : FJsonObject := ∅ in
                       let VarObj := SetStringField "name" (VarName Var) VarObj in
                       let VarObj :=
                         SetStringField "type" (VarType_PinCategory Var) VarObj in
                       let VarObj :=
                         SetStringField "default_value" (DefaultValue Var) VarObj in
                       let VarObj :=
                         SetBoolField "is_editable"
                           (negb (Z.land (PropertyFlags Var) CPF_Edit =? 0)) VarObj in
                       FJsonValueObject VarObj)
                    (NewVariables Blueprint) in
              SetArrayField "variables" VariableArray ResultObj
            else ResultObj in
          let ResultObj :=
            if bIncludeFunctions
            then
              let FunctionArray :=
                omap (fun Graph : option UEdGraph =>
                        Graph ≫= fun Graph =>
                          let FuncObj : FJsonObject := ∅ in
                          let FuncObj :=
                            SetStringField "name" (GetName (GraphObject Graph)) FuncObj in
                          let FuncObj := SetStringField "graph_type" "Function" FuncObj in
                          let NodeCount := Z.of_nat (length (Nodes Graph)) in
                          let FuncObj :=
                            SetNumberField "node_count" (Int32ToDouble NodeCount) FuncObj in
                          Some (FJsonValueObject FuncObj))
                     (FunctionGraphs Blueprint) in
              SetArrayField "functions" FunctionArray ResultObj
            else ResultObj in
          let ResultObj :=
            if bIncludeEventGraph
            then
              let EventGraphObj : FJsonObject := ∅ in
              let EventGraphObj :=
                match FindGraphByName (UbergraphPages Blueprint) "EventGraph" with
                | Some Graph =>
                    let EventGraphObj :=
                      SetStringField "name" (GetName (GraphObject Graph)) EventGraphObj in
                    let EventGraphObj :=
                      SetNumberField "node_count"
                        (Int32ToDouble (Z.of_nat (length (Nodes Graph)))) EventGraphObj in
                    SetArrayField "nodes" (BasicNodeArray (Nodes Graph)) EventGraphObj
                | None => EventGraphObj
                end in
              SetObjectField "event_graph" EventGraphObj ResultObj
            else ResultObj in
          let ResultObj :=
            if bIncludeComponents
            then
              let ComponentArray :=
                match SimpleConstructionScript Blueprint with
                | Some Script =>
                    omap (fun Node : option USCS_Node =>
                            Node ≫= fun Node =>
                            ComponentTemplate Node ≫= fun Template =>
                              let CompObj : FJsonObject := ∅ in
                              let CompObj :=
                                SetStringField "name" (GetVariableName Node) CompObj in
                              let CompObj :=
                                SetStringField "class"
                                  (ClassGetName (GetClass (ComponentObject Template)))
                                  CompObj in
                              let CompObj :=
                                SetBoolField "is_root"
                                  (bool_decide
                                     (Some (NodePtr Node)
                                      = NodePtr <$> GetDefaultSceneRootNode Script))
                                  CompObj in
                              Some (FJsonValueObject CompObj))
                         (GetAllNodes Script)
                | None => []
                end in
              SetArrayField "components" ComponentArray ResultObj
            else ResultObj in
          let ResultObj :=
            if bIncludeInterfaces
            then
              let InterfaceArray :=
                map (fun Desc : FBPInterfaceDescription =>
                       let InterfaceObj : FJsonObject := ∅ in
                       let InterfaceObj :=
                         SetStringField "name"
                           (match Interface Desc with
                            | Some c => ClassGetName c
                            | None => "Unknown"
                            end) InterfaceObj in
                       FJsonValueObject InterfaceObj)
                    (ImplementedInterfaces Blueprint) in
              SetArrayField "interfaces" InterfaceArray ResultObj
            else ResultObj in
          let ResultObj := SetBoolField "success" true ResultObj in
          Ret ResultObj
      end
  end.

(** *** analyze_blueprint_graph *)

(** The [PinObj] of a pin. *)
Definition PinInfo (Pin : UEdGraphPin) : FJsonObject :=
  let PinObj : FJsonObject := ∅ in
  let PinObj := SetStringField "name" (PinName Pin) PinObj in
  let PinObj := SetStringField "type" (PinCategory Pin) PinObj in
  let PinObj :=
    SetStringField "direction"
      (match Direction Pin with EGPD_Input => "Input" | EGPD_Output => "Output" end)
      PinObj in
  let PinObj :=
    SetNumberField "connections" (Int32ToDouble (Z.of_nat (length (LinkedTo Pin)))) PinObj in
  PinObj.

(** "Record connections for this pin": one [ConnObj] per linked pin that
    is set. *)
Definition PinConnections (Pin : UEdGraphPin) : list FJsonValue :=
  omap (fun LinkedPin : option FLinkedPin =>
          LinkedPin ≫= fun LinkedPin =>
            let ConnObj : FJsonObject := ∅ in
            let ConnObj := SetStringField "from_node" (OwningNodeName Pin) ConnObj in
            let ConnObj := SetStringField "from_pin" (PinName Pin) ConnObj in
            let ConnObj :=
              SetStringField "to_node" (LinkedOwningNodeName LinkedPin) ConnObj in
            let ConnObj := SetStringField "to_pin" (LinkedPinName LinkedPin) ConnObj in
            Some (FJsonValueObject ConnObj))
       (LinkedTo Pin).

(** The [NodeObj] that the graph analysis adds to [NodeArray] for a node. *)
Definition AnalyzedNode (bIncludeNodeDetails bIncludePinConnections : bool)
    (Node : UEdGraphNode) : FJsonObject :=
  let NodeObj := BasicNodeInfo Node in
  let NodeObj :=
    if bIncludeNodeDetails
    then
      let NodeObj := SetNumberField "pos_x" (Int32ToDouble (NodePosX Node)) NodeObj in
      let NodeObj := SetNumberField "pos_y" (Int32ToDouble (NodePosY Node)) NodeObj in
      SetBoolField "can_rename" (bCanRenameNode Node) NodeObj
    else NodeObj in
  let NodeObj :=
    if bIncludePinConnections
    then
      let PinArray :=
        omap (fun Pin : option UEdGraphPin =>
                Pin ≫= fun Pin => Some (FJsonValueObject (PinInfo Pin)))
             (Pins Node) in
      SetArrayField "pins" PinArray NodeObj
    else NodeObj in
  NodeObj.

(** What the analysis of a node adds to [ConnectionArray]. *)
Definition NodeConnections (bIncludePinConnections : bool) (Node : UEdGraphNode)
  : list FJsonValue :=
  if bIncludePinConnections
  then flat_map (fun Pin : option UEdGraphPin =>
                   match Pin with
                   | Some Pin => PinConnections Pin
                   | None => []
                   end)
                (Pins Node)
  else [].

(** "Find the specified graph": event graphs first, function graphs if not
    found. *)
Definition FindTargetGraph (Blueprint : UBlueprint) (GraphName : string) : option UEdGraph :=
  match FindGraphByName (UbergraphPages Blueprint) GraphName with
  | Some TargetGraph => Some TargetGraph
  | None => FindGraphByName (FunctionGraphs Blueprint) GraphName
  end.

(** "Analyze nodes": the [NodeArray] of a graph. *)
Definition AnalyzedNodeArray (bIncludeNodeDetails bIncludePinConnections : bool)
    (TargetGraph : UEdGraph) : list FJsonValue :=
  omap (fun Node : option UEdGraphNode =>
          Node ≫= fun Node =>
            Some (FJsonValueObject
                    (AnalyzedNode bIncludeNodeDetails bIncludePinConnections Node)))
       (Nodes TargetGraph).

Definition HandleAnalyzeBlueprintGraph (Params : FJsonObject) : Editor FJsonObject :=
  match TryGetStringField host Params "blueprint_path" with
  | None => ReturnError "Missing 'blueprint_path' parameter"
  | Some BlueprintPath =>
      let GraphName := default "EventGraph" (TryGetStringField host Params "graph_name") in
      let bIncludeNodeDetails :=
        default true (TryGetBoolField host Params "include_node_details") in
      let bIncludePinConnections :=
        default true (TryGetBoolField host Params "include_pin_connections") in
      let bTraceExecutionFlow :=
        default true (TryGetBoolField host Params "trace_execution_flow") in
      Asset <- call (LoadAsset BlueprintPath) ;;
      match Cast_UBlueprint Asset with
      | None => ReturnError ("Failed to load blueprint: " +:+ BlueprintPath)
      | Some Blueprint =>
          match FindTargetGraph Blueprint GraphName with
          | None => ReturnError ("Graph not found: " +:+ GraphName)
          | Some TargetGraph =>
              let GraphData : FJsonObject := ∅ in
              let GraphData :=
                SetStringField "graph_name" (GetName (GraphObject TargetGraph)) GraphData in
              let GraphData :=
                SetStringField "graph_type"
                  (ClassGetName (GetClass (GraphObject TargetGraph))) GraphData in
              let NodeArray :=
                AnalyzedNodeArray bIncludeNodeDetails bIncludePinConnections TargetGraph in
              let ConnectionArray :=
                flat_map (fun Node : option UEdGraphNode =>
                            match Node with
                            | Some Node => NodeConnections bIncludePinConnections Node
                            | None => []
                            end)
                         (Nodes TargetGraph) in
              let GraphData := SetArrayField "nodes" NodeArray GraphData in
              let GraphData := SetArrayField "connections" ConnectionArray GraphData in
              let ResultObj : FJsonObject := ∅ in
              let ResultObj := SetStringField "blueprint_path" BlueprintPath ResultObj in
              let ResultObj := SetObjectField "graph_data" GraphData ResultObj in
              let ResultObj := SetBoolField "success" true ResultObj in
              Ret ResultObj
          end
      end
  end.

(** *** get_blueprint_variable_details *)

Definition VariableDetails (Var : FBPVariableDescription) : FJsonObject :=
  let VarObj : FJsonObject := ∅ in
  let VarObj := SetStringField "name" (VarName Var) VarObj in
  let VarObj := SetStringField "type" (VarType_PinCategory Var) VarObj in
  let VarObj := SetStringField "sub_category" (VarType_PinSubCategory Var) VarObj in
  let VarObj := SetStringField "default_value" (DefaultValue Var) VarObj in
  let VarObj :=
    SetStringField "friendly_name"
      (if FString.IsEmpty (FriendlyName Var) then VarName Var else FriendlyName Var)
      VarObj in
  let TooltipValue := default "" (MetaData_Tooltip Var) in
  let VarObj := SetStringField "tooltip" TooltipValue VarObj in
  let VarObj := SetStringField "category" (Category Var) VarObj in
  let VarObj :=
    SetBoolField "is_editable" (negb (Z.land (PropertyFlags Var) CPF_Edit =? 0)) VarObj in
  let VarObj :=
    SetBoolField "is_blueprint_visible"
      (negb (Z.land (PropertyFlags Var) CPF_BlueprintVisible =? 0)) VarObj in
  let VarObj :=
    SetBoolField "is_editable_in_instance"
      (Z.land (PropertyFlags Var) CPF_DisableEditOnInstance =? 0) VarObj in
  let VarObj :=
    SetBoolField "is_config" (negb (Z.land (PropertyFlags Var) CPF_Config =? 0)) VarObj in
  let VarObj :=
    SetNumberField "replication" (Int32ToDouble (ReplicationCondition Var)) VarObj in
  VarObj.

Definition HandleGetBlueprintVariableDetails (Params : FJsonObject) : Editor FJsonObject :=
  match TryGetStringField host Params "blueprint_path" with
  | None => ReturnError "Missing 'blueprint_path' parameter"
  | Some BlueprintPath =>
      let Requested := TryGetStringField host Params "variable_name" in
      let VariableName := default "" Requested in
      let bSpecificVariable := bool_decide (is_Some Requested) in
      Asset <- call (LoadAsset BlueprintPath) ;;
      match Cast_UBlueprint Asset with
      | None => ReturnError ("Failed to load blueprint: " +:+ BlueprintPath)
      | Some Blueprint =>
          let VariableArray : list FJsonObject :=
            omap (fun Var : FBPVariableDescription =>
                    if bSpecificVariable && negb (VarName Var ==? VariableName)
                    then None
                    else Some (VariableDetails Var))
                 (NewVariables Blueprint) in
          let ResultObj : FJsonObject := ∅ in
          let ResultObj := SetStringField "blueprint_path" BlueprintPath ResultObj in
          if bSpecificVariable
          then
            let ResultObj := SetStringField "variable_name" VariableName ResultObj in
            match VariableArray with
            | First :: _ =>
                let ResultObj := SetObjectField "variable" First ResultObj in
                let ResultObj := SetBoolField "success" true ResultObj in
                Ret ResultObj
            | [] => ReturnError ("Variable not found: " +:+ VariableName)
            end
          else
            let ResultObj :=
              SetArrayField "variables" (map FJsonValueObject VariableArray) ResultObj in
            let ResultObj :=
              SetNumberField "variable_count"
                (Int32ToDouble (Z.of_nat (length VariableArray))) ResultObj in
            let ResultObj := SetBoolField "success" true ResultObj in
            Ret ResultObj
      end
  end.

(** *** get_blueprint_function_details *)

(** The [PinObj] with "name" and "type" of a function parameter. *)
Definition ParameterPin (Pin : UEdGraphPin) : FJsonValue :=
  let PinObj : FJsonObject := ∅ in
  let PinObj := SetStringField "name" (PinName Pin) PinObj in
  let PinObj := SetStringField "type" (PinCategory Pin) PinObj in
  FJsonValueObject PinObj.

(** The pins of [Node] with direction [Dir] whose name is not [Exec]. *)
Definition ParameterPins (Dir : EEdGraphPinDirection) (Exec : string) (Node : UEdGraphNode)
  : list FJsonValue :=
  omap (fun Pin : option UEdGraphPin =>
          Pin ≫= fun Pin =>
            if SameDirection (Direction Pin) Dir && negb (PinName Pin ==? Exec)
            then Some (ParameterPin Pin)
            else None)
       (Pins Node).

(** "Find function entry and result nodes": what a node adds to
    [InputPins] and to [OutputPins]. *)
Definition NodeInputPins (Node : UEdGraphNode) : list FJsonValue :=
  if FString.Contains (ClassGetName (GetClass (GraphNodeObject Node))) "FunctionEntry"
  then ParameterPins EGPD_Output "then" Node
  else [].

Definition NodeOutputPins (Node : UEdGraphNode) : list FJsonValue :=
  if FString.Contains (ClassGetName (GetClass (GraphNodeObject Node))) "FunctionEntry"
  then []
  else if FString.Contains (ClassGetName (GetClass (GraphNodeObject Node))) "FunctionResult"
  then ParameterPins EGPD_Input "exec" Node
  else [].

Definition FunctionDetails (bIncludeGraph : bool) (Graph : UEdGraph) : FJsonObject :=
  let FuncObj : FJsonObject := ∅ in
  let FuncObj := SetStringField "name" (GetName (GraphObject Graph)) FuncObj in
  let FuncObj := SetStringField "graph_type" "Function" FuncObj in
  let InputPins :=
    flat_map (fun Node : option UEdGraphNode =>
                match Node with Some Node => NodeInputPins Node | None => [] end)
             (Nodes Graph) in
  let OutputPins :=
    flat_map (fun Node : option UEdGraphNode =>
                match Node with Some Node => NodeOutputPins Node | None => [] end)
             (Nodes Graph) in
  let FuncObj := SetArrayField "input_parameters" InputPins FuncObj in
  let FuncObj := SetArrayField "output_parameters" OutputPins FuncObj in
  let FuncObj :=
    SetNumberField "node_count" (Int32ToDouble (Z.of_nat (length (Nodes Graph)))) FuncObj in
  let FuncObj :=
    if bIncludeGraph
    then SetArrayField "graph_nodes" (BasicNodeArray (Nodes Graph)) FuncObj
    else FuncObj in
  FuncObj.

Definition HandleGetBlueprintFunctionDetails (Params : FJsonObject) : Editor FJsonObject :=
  match TryGetStringField host Params "blueprint_path" with
  | None => ReturnError "Missing 'blueprint_path' parameter"
  | Some BlueprintPath =>
      let Requested := TryGetStringField host Params "function_name" in
      let FunctionName := default "" Requested in
      let bSpecificFunction := bool_decide (is_Some Requested) in
      let bIncludeGraph := default true (TryGetBoolField host Params "include_graph") in
      Asset <- call (LoadAsset BlueprintPath) ;;
      match Cast_UBlueprint Asset with
      | None => ReturnError ("Failed to load blueprint: " +:+ BlueprintPath)
      | Some Blueprint =>
          let FunctionArray : list FJsonObject :=
            omap (fun Graph : option UEdGraph =>
                    Graph ≫= fun Graph =>
                      if bSpecificFunction
                         && negb (GetName (GraphObject Graph) ==? FunctionName)
                      then None
                      else Some (FunctionDetails bIncludeGraph Graph))
                 (FunctionGraphs Blueprint) in
          let ResultObj : FJsonObject := ∅ in
          let ResultObj := SetStringField "blueprint_path" BlueprintPath ResultObj in
          if bSpecificFunction
          then
            let ResultObj := SetStringField "function_name" FunctionName ResultObj in
            match FunctionArray with
            | First :: _ =>
                let ResultObj := SetObjectField "function" First ResultObj in
                let ResultObj := SetBoolField "success" true ResultObj in
                Ret ResultObj
            | [] => ReturnError ("Function not found: " +:+ FunctionName)
            end
          else
            let ResultObj :=
              SetArrayField "functions" (map FJsonValueObject FunctionArray) ResultObj in
            let ResultObj :=
              SetNumberField "function_count"
                (Int32ToDouble (Z.of_nat (length FunctionArray))) ResultObj in
            let ResultObj := SetBoolField "success" true ResultObj in
            Ret ResultObj
      end
  end.

(** *** open_asset_in_editor *)

Definition HandleOpenAssetInEditor (Params : FJsonObject) : Editor FJsonObject :=
  match TryGetStringField host Params "asset_path" with
  | None => ReturnError "Missing 'asset_path' parameter"
  | Some AssetPath =>
      Asset <- call (LoadAsset AssetPath) ;;
      match Asset with
      | None => ReturnError ("Failed to load asset: " +:+ AssetPath)
      | Some Asset =>
          let AssetName := GetName (ObjectBase Asset) in
          let AssetClassName := ClassGetName (GetClass (ObjectBase Asset)) in
          if IsA_UWorld Asset
          then
            LevelEditorSubsystem <- call GetEditorSubsystem_ULevelEditorSubsystem ;;
            match LevelEditorSubsystem with
            | None => ReturnError "Failed to get LevelEditorSubsystem"
            | Some LevelEditorSubsystem =>
                bLoaded <- call (LoadLevel LevelEditorSubsystem AssetPath) ;;
                if negb bLoaded
                then ReturnError ("Failed to load level: " +:+ AssetPath)
                else
                  let ResultObj : FJsonObject := ∅ in
                  let ResultObj := SetBoolField "success" true ResultObj in
                  let ResultObj := SetStringField "asset_path" AssetPath ResultObj in
                  let ResultObj := SetStringField "asset_name" AssetName ResultObj in
                  let ResultObj := SetStringField "asset_class" AssetClassName ResultObj in
                  Ret ResultObj
            end
          else
            AssetEditorSubsystem <- call GetEditorSubsystem_UAssetEditorSubsystem ;;
            match AssetEditorSubsystem with
            | None => ReturnError "Failed to get AssetEditorSubsystem"
            | Some AssetEditorSubsystem =>
                bOpened <- call (OpenEditorForAsset AssetEditorSubsystem Asset) ;;
                if negb bOpened
                then ReturnError ("Failed to open editor for asset: " +:+ AssetPath)
                else
                  let ResultObj : FJsonObject := ∅ in
                  let ResultObj := SetBoolField "success" true ResultObj in
                  let ResultObj := SetStringField "asset_path" AssetPath ResultObj in
                  let ResultObj := SetStringField "asset_name" AssetName ResultObj in
                  let ResultObj := SetStringField "asset_class" AssetClassName ResultObj in
                  Ret ResultObj
            end
      end
  end.

(** *** HandleCommand *)

(** The private handlers of [FEpicUnrealMCPBlueprintCommands]. *)
Inductive Handler :=
| CmdCreateBlueprint
| CmdAddComponentToBlueprint
| CmdSetPhysicsProperties
| CmdCompileBlueprint
| CmdSetStaticMeshProperties
| CmdSpawnBlueprintActor
| CmdSetMeshMaterialColor
| CmdGetAvailableMaterials
| CmdApplyMaterialToActor
| CmdApplyMaterialToBlueprint
| CmdGetActorMaterialInfo
| CmdGetBlueprintMaterialInfo
| CmdReadBlueprintContent
| CmdAnalyzeBlueprintGraph
| CmdGetBlueprintVariableDetails
| CmdGetBlueprintFunctionDetails
| CmdOpenAssetInEditor.

(** The [if / else if] chain of [HandleCommand]: the branch that
    [CommandType] takes, if any. *)
Definition SelectHandler (CommandType : string) : option Handler :=
  if CommandType ==? "create_blueprint" then Some CmdCreateBlueprint
  else if CommandType ==? "add_component_to_blueprint" then Some CmdAddComponentToBlueprint
  else if CommandType ==? "set_physics_properties" then Some CmdSetPhysicsProperties
  else if CommandType ==? "compile_blueprint" then Some CmdCompileBlueprint
  else if CommandType ==? "set_static_mesh_properties" then Some CmdSetStaticMeshProperties
  else if CommandType ==? "spawn_blueprint_actor" then Some CmdSpawnBlueprintActor
  else if CommandType ==? "set_mesh_material_color" then Some CmdSetMeshMaterialColor
  else if CommandType ==? "get_available_materials" then Some CmdGetAvailableMaterials
  else if CommandType ==? "apply_material_to_actor" then Some CmdApplyMaterialToActor
  else if CommandType ==? "apply_material_to_blueprint" then Some CmdApplyMaterialToBlueprint
  else if CommandType ==? "get_actor_material_info" then Some CmdGetActorMaterialInfo
  else if CommandType ==? "get_blueprint_material_info" then Some CmdGetBlueprintMaterialInfo
  else if CommandType ==? "read_blueprint_content" then Some CmdReadBlueprintContent
  else if CommandType ==? "analyze_blueprint_graph" then Some CmdAnalyzeBlueprintGraph
  else if CommandType ==? "get_blueprint_variable_details"
  then Some CmdGetBlueprintVariableDetails
  else if CommandType ==? "get_blueprint_function_details"
  then Some CmdGetBlueprintFunctionDetails
  else if CommandType ==? "open_asset_in_editor" then Some CmdOpenAssetInEditor
  else None.

(** The body of the branch. *)
Definition Invoke (h : Handler) (Params : FJsonObject) : Editor FJsonObject :=
  match h with
  | CmdCreateBlueprint => HandleCreateBlueprint Params
  | CmdAddComponentToBlueprint => HandleAddComponentToBlueprint Params
  | CmdSetPhysicsProperties => HandleSetPhysicsProperties Params
  | CmdCompileBlueprint => HandleCompileBlueprint Params
  | CmdSetStaticMeshProperties => HandleSetStaticMeshProperties Params
  | CmdSpawnBlueprintActor => HandleSpawnBlueprintActor Params
  | CmdSetMeshMaterialColor => HandleSetMeshMaterialColor Params
  | CmdGetAvailableMaterials => HandleGetAvailableMaterials Params
  | CmdApplyMaterialToActor => HandleApplyMaterialToActor Params
  | CmdApplyMaterialToBlueprint => HandleApplyMaterialToBlueprint Params
  | CmdGetActorMaterialInfo => HandleGetActorMaterialInfo Params
  | CmdGetBlueprintMaterialInfo => HandleGetBlueprintMaterialInfo Params
  | CmdReadBlueprintContent => HandleReadBlueprintContent Params
  | CmdAnalyzeBlueprintGraph => HandleAnalyzeBlueprintGraph Params
  | CmdGetBlueprintVariableDetails => HandleGetBlueprintVariableDetails Params
  | CmdGetBlueprintFunctionDetails => HandleGetBlueprintFunctionDetails Params
  | CmdOpenAssetInEditor => HandleOpenAssetInEditor Params
  end.

Definition HandleCommand (CommandType : string) (Params : FJsonObject) : Editor FJsonObject :=
  match SelectHandler CommandType with
  | Some h => Invoke h Params
  | None => ReturnError ("Unknown blueprint command: " +:+ CommandType)
  end.

End Handlers.

(* ===================================================================== *)
(** ** Concrete hosts and editors                                         *)
(* ===================================================================== *)

(** A host whose error response is the object
    [{"success": false, "error": Message}]; its conversions never succeed. *)
Definition PlainHost : Host :=
  {| CreateErrorResponse Message :=
       SetStringField "error" Message (SetBoolField "success" false ∅);
     GetVectorFromJson _ _ := {| VX := Double_0; VY := Double_0; VZ := Double_0 |};
     GetRotatorFromJson _ _ := {| Pitch := Double_0; Yaw := Double_0; Roll := Double_0 |};
     SanitizeFloat _ := "";
     IsNumeric _ := false;
     Atod _ := Double_0;
     ToBool _ := false |}.

(** The answers of an editor with an empty project: no asset, class,
    blueprint, world or subsystem is found and nothing can be created. *)
Definition EmptyProject {X : Type} (c : EngineCall X) : X :=
  match c in EngineCall X return X with
  | DoesAssetExist _ => false
  | LoadAsset _ => None
  | ListAssets _ _ _ => []
  | NewObject_UBlueprintFactory =>
      {| FactoryPtr := 1; Factory_ParentClass := AActor_StaticClass |}
  | LoadClass_AActor _ => None
  | FindObject_UClass _ => None
  | CreatePackage Name => {| PackagePtr := 2; PackageName := Name |}
  | FactoryCreateNew _ _ _ _ _ => None
  | MarkPackageDirty _ => true
  | AssetCreated _ => tt
  | LoadModuleChecked_AssetRegistry => tt
  | GetAssets _ => []
  | FAssetData_FromObject Asset =>
      {| AssetName := GetName (ObjectBase Asset);
         GetObjectPathString := GetPathName (ObjectBase Asset);
         AssetPackageName := "";
         AssetClassPath := GetClassPathName (GetClass (ObjectBase Asset)) |}
  | FindBlueprint _ => None
  | ActorToJsonObject _ _ => ∅
  | CreateNode _ _ _ => None
  | AddNode _ _ => tt
  | CompileBlueprint _ => tt
  | MarkBlueprintAsModified _ => tt
  | SetRelativeLocation _ _ => tt
  | SetRelativeRotation _ _ => tt
  | SetRelativeScale3D _ _ => tt
  | SetSimulatePhysics _ _ => tt
  | SetMassOverrideInKg _ _ _ => tt
  | SetLinearDamping _ _ => tt
  | SetAngularDamping _ _ => tt
  | SetStaticMesh _ _ => true
  | SetMaterial _ _ _ => tt
  | UMaterialInstanceDynamic_Create _ _ => None
  | SetVectorParameterValue _ _ _ => tt
  | GetEditorWorld => None
  | Sleep _ => tt
  | SpawnActor _ _ _ => None
  | SetActorLabel _ _ => tt
  | GetAllActorsOfClass _ _ => []
  | GetEditorSubsystem_ULevelEditorSubsystem => None
  | LoadLevel _ _ => false
  | GetEditorSubsystem_UAssetEditorSubsystem => None
  | OpenEditorForAsset _ _ => false
  end.

(** An editor that answers every call by [answer] and counts the calls it
    has served. *)
Definition Scripted (answer : forall X : Type, EngineCall X -> X) : EditorModel :=
  {| EditorState := nat;
     perform X c served := (answer X c, S served) |}.

(** The seventeen command names of [HandleCommand]. *)
Definition RecognizedCommands : list string :=
  [ "create_blueprint"; "add_component_to_blueprint"; "set_physics_properties";
    "compile_blueprint"; "set_static_mesh_properties"; "spawn_blueprint_actor";
    "set_mesh_material_color"; "get_available_materials"; "apply_material_to_actor";
    "apply_material_to_blueprint"; "get_actor_material_info";
    "get_blueprint_material_info"; "read_blueprint_content"; "analyze_blueprint_graph";
    "get_blueprint_variable_details"; "get_blueprint_function_details";
    "open_asset_in_editor" ].

(** The string parameters a handler reads with [TryGetStringField] and
    answers with an error when the read fails. *)
Definition RequiredStringFields (h : Handler) : list string :=
  match h with
  | CmdCreateBlueprint => ["name"]
  | CmdAddComponentToBlueprint => ["blueprint_name"; "component_type"; "component_name"]
  | CmdSetPhysicsProperties => ["blueprint_name"; "component_name"]
  | CmdCompileBlueprint => ["blueprint_name"]
  | CmdSetStaticMeshProperties => ["blueprint_name"; "component_name"]
  | CmdSpawnBlueprintActor => ["blueprint_name"; "actor_name"]
  | CmdSetMeshMaterialColor => ["blueprint_name"; "component_name"]
  | CmdGetAvailableMaterials => []
  | CmdApplyMaterialToActor => ["actor_name"; "material_path"]
  | CmdApplyMaterialToBlueprint => ["blueprint_name"; "component_name"; "material_path"]
  | CmdGetActorMaterialInfo => ["actor_name"]
  | CmdGetBlueprintMaterialInfo => ["blueprint_name"; "component_name"]
  | CmdReadBlueprintContent => ["blueprint_path"]
  | CmdAnalyzeBlueprintGraph => ["blueprint_path"]
  | CmdGetBlueprintVariableDetails => ["blueprint_path"]
  | CmdGetBlueprintFunctionDetails => ["blueprint_path"]
  | CmdOpenAssetInEditor => ["asset_path"]
  end.

(** The text of the error for a missing parameter. *)
Definition MissingParameter (Field : string) : string :=
  "Missing '" +:+ Field +:+ "' parameter".

(** *** Data for the examples *)

Definition SomeClass (Name : string) : UClass :=
  {| GetClassPathName := "/Script/Engine." +:+ Name; ClassGetName := Name;
     IsChildOf_UActorComponent := false |}.

Definition SomeObject (Ptr : N) (Name Path ClassName : string) : UObjectBase :=
  {| ObjectPtr := Ptr; GetName := Name; GetPathName := Path;
     GetClass := SomeClass ClassName |}.

(** A blueprint "BP_Crate" without components, variables or graphs. *)
Definition BP_Crate : UBlueprint :=
  {| BlueprintObject :=
       SomeObject 16 "BP_Crate" "/Game/Blueprints/BP_Crate.BP_Crate" "Blueprint";
     ParentClass := Some AActor_StaticClass;
     GeneratedClass := None;
     SimpleConstructionScript := None;
     NewVariables := [];
     FunctionGraphs := [];
     UbergraphPages := [];
     ImplementedInterfaces := [] |}.

(** A project in which [FindBlueprint] finds "BP_Crate". *)
Definition CrateProject (X : Type) (c : EngineCall X) : X :=
  match c in EngineCall X return X -> X with
  | FindBlueprint Name => fun other => if String.eqb Name "BP_Crate" then Some BP_Crate else other
  | DoesAssetExist Path =>
      fun other => if String.eqb Path "/Game/Blueprints/BP_Crate" then true else other
  | _ => fun other => other
  end (EmptyProject c).

(** A level "/Game/Maps/Arena" and a material "/Game/Materials/M_Steel". *)
Definition Arena : UObject :=
  AWorld {| WorldObject := SomeObject 32 "Arena" "/Game/Maps/Arena.Arena" "World" |}.

Definition M_Steel : UMaterialInterface :=
  {| MaterialObject :=
       SomeObject 48 "M_Steel" "/Game/Materials/M_Steel.M_Steel" "Material" |}.

(** A project with these two assets in which both editor subsystems are
    present and open what they are asked to open. *)
Definition ArenaProject (X : Type) (c : EngineCall X) : X :=
  match c in EngineCall X return X -> X with
  | LoadAsset Path =>
      fun other =>
        if String.eqb Path "/Game/Maps/Arena" then Some Arena
        else if String.eqb Path "/Game/Materials/M_Steel" then Some (AMaterialInterface M_Steel)
        else other
  | GetEditorSubsystem_ULevelEditorSubsystem => fun _ => Some {| LevelEditorPtr := 3 |}
  | GetEditorSubsystem_UAssetEditorSubsystem => fun _ => Some {| AssetEditorPtr := 4 |}
  | LoadLevel _ _ => fun _ => true
  | OpenEditorForAsset _ _ => fun _ => true
  | _ => fun other => other
  end (EmptyProject c).

(** A blueprint with an event graph of two nodes (and an unset slot) and a
    function graph "Explode" of one node. *)
Definition SomeNode (Ptr : N) (Name ClassName Title : string) : UEdGraphNode :=
  {| GraphNodeObject := SomeObject Ptr Name "" ClassName;
     GetNodeTitle_FullTitle := Title;
     NodePosX := 0; NodePosY := 0; bCanRenameNode := false;
     Pins := [] |}.

Definition BeginPlayNode : UEdGraphNode :=
  SomeNode 65 "K2Node_Event_0" "K2Node_Event" "Event BeginPlay".
Definition PrintNode : UEdGraphNode :=
  SomeNode 66 "K2Node_CallFunction_0" "K2Node_CallFunction" "Print String".
Definition EntryNode : UEdGraphNode :=
  SomeNode 67 "K2Node_FunctionEntry_0" "K2Node_FunctionEntry" "Explode".

Definition EventGraph : UEdGraph :=
  {| GraphObject := SomeObject 80 "EventGraph" "" "EdGraph";
     Nodes := [Some BeginPlayNode; None; Some PrintNode] |}.
Definition ExplodeGraph : UEdGraph :=
  {| GraphObject := SomeObject 81 "Explode" "" "EdGraph";
     Nodes := [Some EntryNode] |}.

Definition BP_Barrel : UBlueprint :=
  {| BlueprintObject :=
       SomeObject 17 "BP_Barrel" "/Game/Blueprints/BP_Barrel.BP_Barrel" "Blueprint";
     ParentClass := Some AActor_StaticClass;
     GeneratedClass := None;
     SimpleConstructionScript := None;
     NewVariables := [];
     FunctionGraphs := [None; Some ExplodeGraph];
     UbergraphPages := [Some EventGraph];
     ImplementedInterfaces := [] |}.

Definition BarrelProject (X : Type) (c : EngineCall X) : X :=
  match c in EngineCall X return X -> X with
  | LoadAsset Path =>
      fun other =>
        if String.eqb Path "/Game/Blueprints/BP_Barrel" then Some (ABlueprint BP_Barrel)
        else other
  | _ => fun other => other
  end (EmptyProject c).

(** A project whose asset registry knows "M_Steel" and whose asset library
    lists "M_Steel", a second material "M_Glass" and a texture. *)
Definition M_Glass : UMaterialInterface :=
  {| MaterialObject :=
       SomeObject 49 "M_Glass" "/Game/Materials/M_Glass.M_Glass" "Material" |}.

Definition SteelData : FAssetData :=
  {| AssetName := "M_Steel";
     GetObjectPathString := "/Game/Materials/M_Steel.M_Steel";
     AssetPackageName := "/Game/Materials/M_Steel";
     AssetClassPath := "/Script/Engine.Material" |}.

Definition GlassData : FAssetData :=
  {| AssetName := "M_Glass";
     GetObjectPathString := "/Game/Materials/M_Glass.M_Glass";
     AssetPackageName := "/Game/Materials/M_Glass";
     AssetClassPath := "/Script/Engine.Material" |}.

Definition MaterialsProject (X : Type) (c : EngineCall X) : X :=
  match c in EngineCall X return X -> X with
  | GetAssets _ => fun _ => [SteelData]
  | ListAssets _ _ _ =>
      fun _ => ["/Game/Materials/M_Steel.M_Steel"; "/Game/Materials/M_Glass.M_Glass";
                "/Game/Textures/T_Noise.T_Noise"]
  | LoadAsset Path =>
      fun other =>
        if String.eqb Path "/Game/Materials/M_Steel.M_Steel"
        then Some (AMaterialInterface M_Steel)
        else if String.eqb Path "/Game/Materials/M_Glass.M_Glass"
        then Some (AMaterialInterface M_Glass)
        else other
  | FAssetData_FromObject _ => fun _ => GlassData
  | _ => fun other => other
  end (EmptyProject c).


(** A project without assets in which the blueprint factory works: it
    returns a blueprint of the requested name. *)
Definition NewBlueprint (Name : string) (Parent : UClass) : UBlueprint :=
  {| BlueprintObject := SomeObject 96 Name ("/Game/Blueprints/" +:+ Name) "Blueprint";
     ParentClass := Some Parent;
     GeneratedClass := None;
     SimpleConstructionScript := None;
     NewVariables := [];
     FunctionGraphs := [];
     UbergraphPages := [];
     ImplementedInterfaces := [] |}.

Definition WorkshopProject (X : Type) (c : EngineCall X) : X :=
  match c in EngineCall X return X -> X with
  | FactoryCreateNew Factory _ _ Name _ =>
      fun _ => Some (ABlueprint (NewBlueprint Name (Factory_ParentClass Factory)))
  | _ => fun other => other
  end (EmptyProject c).

(** The same project with one class that loads: "ACharacter", from the
    engine path. *)
Definition CharacterProject (X : Type) (c : EngineCall X) : X :=
  match c in EngineCall X return X -> X with
  | LoadClass_AActor Path =>
      fun other =>
        if String.eqb Path "/Script/Engine.ACharacter" then Some (SomeClass "Character")
        else other
  | _ => fun other => other
  end (WorkshopProject X c).

(** A blueprint "BP_Lamp" with a static mesh component "Shade" that has
    "M_Glass" in slot 0, in a project where dynamic material instances can
    be created. *)
Definition Shade : UActorComponent :=
  {| ComponentObject := SomeObject 112 "Shade_GEN_VARIABLE" "" "StaticMeshComponent";
     ComponentClass := IsStaticMeshComponent;
     GetMaterial := fun i => if i =? 0 then Some M_Glass else None;
     GetNumMaterials := 1;
     GetStaticMesh := None |}.

Definition ShadeNode : USCS_Node :=
  {| NodePtr := 113; GetVariableName := "Shade"; ComponentTemplate := Some Shade |}.

Definition BP_Lamp : UBlueprint :=
  {| BlueprintObject :=
       SomeObject 18 "BP_Lamp" "/Game/Blueprints/BP_Lamp.BP_Lamp" "Blueprint";
     ParentClass := Some AActor_StaticClass;
     GeneratedClass := None;
     SimpleConstructionScript :=
       Some {| ScriptPtr := 114; GetAllNodes := [None; Some ShadeNode];
               GetDefaultSceneRootNode := None |};
     NewVariables := [];
     FunctionGraphs := [];
     UbergraphPages := [];
     ImplementedInterfaces := [] |}.

Definition ShadeInstance : UMaterialInterface :=
  {| MaterialObject :=
       SomeObject 115 "MaterialInstanceDynamic_0" "" "MaterialInstanceDynamic" |}.

Definition LampProject (X : Type) (c : EngineCall X) : X :=
  match c in EngineCall X return X -> X with
  | FindBlueprint Name =>
      fun other => if String.eqb Name "BP_Lamp" then Some BP_Lamp else other
  | UMaterialInstanceDynamic_Create _ _ => fun _ => Some ShadeInstance
  | _ => fun other => other
  end (EmptyProject c).

(** The doubles nearest to 0.1 and 0.5, and 2 and -1. *)
Definition Double_0_1 : double := S754_finite false 7205759403792794 (-56).
Definition Double_0_5 : double := S754_finite false 4503599627370496 (-53).
Definition Double_2 : double := S754_finite false 4503599627370496 (-51).
Definition Double_minus_1 : double := S754_finite true 4503599627370496 (-52).

(** The float nearest to 0.1, as a double: 0.100000001490116... *)
Definition Float_0_1_as_double : double := S754_finite false 7205759511166976 (-56).

Definition LampColor : FJsonObject :=
  {[ "blueprint_name" := FJsonValueString "BP_Lamp";
     "component_name" := FJsonValueString "Shade";
     "color" := FJsonValueArray [FJsonValueNumber Double_0_1; FJsonValueNumber Double_0_5;
                                 FJsonValueNumber Double_2;
                                 FJsonValueNumber Double_minus_1] ]}.

(** *** Predicates on calls and replies *)

(** Calls on the asset editor subsystem, including its lookup. *)
Definition IsAssetEditorCall (e : EngineEvent) : bool :=
  match e with
  | Called GetEditorSubsystem_UAssetEditorSubsystem _ => true
  | Called (OpenEditorForAsset _ _) _ => true
  | _ => false
  end.

(** Calls on the level editor subsystem, including its lookup. *)
Definition IsLevelEditorCall (e : EngineEvent) : bool :=
  match e with
  | Called GetEditorSubsystem_ULevelEditorSubsystem _ => true
  | Called (LoadLevel _ _) _ => true
  | _ => false
  end.

(** The reply of [open_asset_in_editor] for an asset that was opened. *)
Definition OpenedAssetReply (AssetPath : string) (Asset : UObject) (ResultObj : FJsonObject)
  : Prop :=
  ResultObj !! "success" = Some (FJsonValueBoolean true)
  /\ ResultObj !! "asset_path" = Some (FJsonValueString AssetPath)
  /\ ResultObj !! "asset_name" = Some (FJsonValueString (GetName (ObjectBase Asset)))
  /\ ResultObj !! "asset_class"
     = Some (FJsonValueString (ClassGetName (GetClass (ObjectBase Asset)))).

(** The graphs of [Graphs] that are set and whose name is [GraphName], in
    the order of the array.  Names are compared as the handlers compare
    them, the way Unreal compares names: ignoring case. *)
Definition GraphsNamed (GraphName : string) (Graphs : list (option UEdGraph))
  : list UEdGraph :=
  List.filter (fun Graph => GetName (GraphObject Graph) ==? GraphName) (omap id Graphs).

(** The nodes of a graph that are set, in the order of the array. *)
Definition SetNodes (Graph : UEdGraph) : list UEdGraphNode := omap id (Nodes Graph).

(** [Entry] is a JSON object that describes [Node]. *)
Definition EntryOfNode (Node : UEdGraphNode) (Entry : FJsonValue) : Prop :=
  exists NodeObj : FJsonObject,
    Entry = FJsonValueObject NodeObj
    /\ NodeObj !! "name" = Some (FJsonValueString (GetName (GraphNodeObject Node)))
    /\ NodeObj !! "class"
       = Some (FJsonValueString (ClassGetName (GetClass (GraphNodeObject Node))))
    /\ NodeObj !! "title" = Some (FJsonValueString (GetNodeTitle_FullTitle Node)).

(** The last character of [Path] is "/". *)
Fixpoint LastIsSlash (Path : string) : bool :=
  match Path with
  | EmptyString => false
  | String c EmptyString => Ascii.eqb c "/"
  | String _ rest => LastIsSlash rest
  end.

(** [Given] with a "/" put in front unless it begins with one, and then a
    "/" put behind unless it ends with one. *)
Definition WithSlashes (Given : string) : string :=
  let Fronted := if String.prefix "/" Given then Given else "/" +:+ Given in
  if LastIsSlash Fronted then Fronted else Fronted +:+ "/".

(** [Path] is [Given] normalized to begin and to end with "/": it is
    [WithSlashes Given], and it does begin and end with "/". *)
Definition NormalizedFrom (Given Path : string) : Prop :=
  Path = WithSlashes Given
  /\ String.prefix "/" Path = true
  /\ exists Body : string, Path = Body +:+ "/".



(** [Given] begins with the letter "A", capital or small. *)
Definition BeginsWithLetterA (Given : string) : bool :=
  match Given with
  | String c _ => Ascii.eqb c "A" || Ascii.eqb c "a"
  | EmptyString => false
  end.

(** The class name that [create_blueprint] looks up for a 'parent_class'
    value: the value itself when it begins with the letter "A", the value
    with "A" put in front otherwise. *)
Definition ParentClassName (Given : string) : string :=
  if negb (BeginsWithLetterA Given) then "A" +:+ Given else Given.

(** The replies of [set_mesh_material_color] when, after the colour was
    read, no material could be loaded, found or instanced. *)
Definition MaterialFailure (host : Host) (ResultObj : FJsonObject) : Prop :=
  (exists MaterialPath : string,
      ResultObj = CreateErrorResponse host ("Failed to load material: " +:+ MaterialPath))
  \/ ResultObj
     = CreateErrorResponse host
         "No material found on component and failed to load default material"
  \/ ResultObj = CreateErrorResponse host "Failed to create dynamic material instance".

(** An input component clamped to [0, 1]. *)
Definition Clamped (host : Host) (Value : FJsonValue) : double :=
  FMath.Clamp (AsNumber host Value) Double_0 Double_1.

(** The entry of the reply's "color" array for an input component: the
    clamped component rounded to single precision. *)
Definition ColorEntry (host : Host) (Value : FJsonValue) : FJsonValue :=
  FJsonValueNumber (FloatToDouble (DoubleToFloat (Clamped host Value))).

(* ===================================================================== *)
(** ** Vocabulary for the properties of the handlers                      *)
(* ===================================================================== *)

(** *** Families of handlers *)

(** The handlers that look a blueprint up by name with [FindBlueprint]. *)
Definition BlueprintHandlers : list Handler :=
  [CmdAddComponentToBlueprint; CmdSetPhysicsProperties; CmdCompileBlueprint;
   CmdSetStaticMeshProperties; CmdSpawnBlueprintActor; CmdSetMeshMaterialColor;
   CmdApplyMaterialToBlueprint; CmdGetBlueprintMaterialInfo].

(** The handlers that look a component up in the construction script of
    the blueprint. *)
Definition ComponentHandlers : list Handler :=
  [CmdSetPhysicsProperties; CmdSetStaticMeshProperties; CmdSetMeshMaterialColor;
   CmdApplyMaterialToBlueprint; CmdGetBlueprintMaterialInfo].

(** The cast such a handler applies to the template of the component it
    found, and the message of the error it returns when the cast fails. *)
Definition ComponentCast (h : Handler) : option UActorComponent -> option UActorComponent :=
  match h with
  | CmdSetStaticMeshProperties | CmdGetBlueprintMaterialInfo => Cast_UStaticMeshComponent
  | _ => Cast_UPrimitiveComponent
  end.

Definition ComponentCastError (h : Handler) : string :=
  match h with
  | CmdSetStaticMeshProperties | CmdGetBlueprintMaterialInfo =>
      "Component is not a static mesh component"
  | _ => "Component is not a primitive component"
  end.

(** Every string parameter the handler requires can be read. *)
Definition RequiredFieldsRead (host : Host) (h : Handler) (Params : FJsonObject) : Prop :=
  Forall (fun Field => is_Some (TryGetStringField host Params Field)) (RequiredStringFields h).

(** The material slot a handler works on: 'material_slot' read as an
    integer when the field is present, slot 0 otherwise. *)
Definition RequestedSlot (host : Host) (Params : FJsonObject) : Z :=
  if HasField Params "material_slot" then GetIntegerField host Params "material_slot" else 0.

(** The calls by which [set_physics_properties] sets the properties that
    are present in the parameter bag, in the order of the source. *)
Definition PhysicsSetterCalls (host : Host) (Params : FJsonObject)
    (PrimComponent : UActorComponent) : list EngineEvent :=
  (if HasField Params "simulate_physics"
   then [Called (SetSimulatePhysics PrimComponent
                   (GetBoolField host Params "simulate_physics")) tt]
   else [])
  ++ (if HasField Params "mass"
      then [Called (SetMassOverrideInKg PrimComponent "None"
                      (DoubleToFloat (GetNumberField host Params "mass"))) tt]
      else [])
  ++ (if HasField Params "linear_damping"
      then [Called (SetLinearDamping PrimComponent
                      (DoubleToFloat (GetNumberField host Params "linear_damping"))) tt]
      else [])
  ++ (if HasField Params "angular_damping"
      then [Called (SetAngularDamping PrimComponent
                      (DoubleToFloat (GetNumberField host Params "angular_damping"))) tt]
      else []).

(** Calls that change a component template or a material. *)
Definition IsSetterCall (e : EngineEvent) : bool :=
  match e with
  | Called (SetRelativeLocation _ _) _ | Called (SetRelativeRotation _ _) _
  | Called (SetRelativeScale3D _ _) _ | Called (SetSimulatePhysics _ _) _
  | Called (SetMassOverrideInKg _ _ _) _ | Called (SetLinearDamping _ _) _
  | Called (SetAngularDamping _ _) _ | Called (SetStaticMesh _ _) _
  | Called (SetMaterial _ _ _) _ | Called (SetVectorParameterValue _ _ _) _ => true
  | _ => false
  end.

(** [SlotInfo] describes slot [i] of the component named [Component] that
    holds [Material]. *)
Definition SlotDescribes (i : Z) (Component : string) (Material : option UMaterialInterface)
    (SlotInfo : FJsonObject) : Prop :=
  SlotInfo !! "slot" = Some (FJsonValueNumber (Int32ToDouble i))
  /\ SlotInfo !! "component" = Some (FJsonValueString Component)
  /\ SlotInfo !! "material_name"
     = Some (FJsonValueString
               (match Material with
                | Some Material => GetName (MaterialObject Material)
                | None => "None"
                end))
  /\ SlotInfo !! "material_path"
     = Some (FJsonValueString
               (match Material with
                | Some Material => GetPathName (MaterialObject Material)
                | None => ""
                end))
  /\ SlotInfo !! "material_class"
     = Some (FJsonValueString
               (match Material with
                | Some Material => ClassGetName (GetClass (MaterialObject Material))
                | None => ""
                end)).

(** A box collision component: a primitive component that is not a static
    mesh component. *)
Definition Trigger : UActorComponent :=
  {| ComponentObject := SomeObject 128 "Trigger_GEN_VARIABLE" "" "BoxComponent";
     ComponentClass := IsPrimitiveComponent;
     GetMaterial := fun _ => None;
     GetNumMaterials := 0;
     GetStaticMesh := None |}.

Definition TriggerNode : USCS_Node :=
  {| NodePtr := 129; GetVariableName := "Trigger"; ComponentTemplate := Some Trigger |}.

(** A static mesh component "Bars" with a mesh of two sections, "M_Steel"
    in slot 0 and nothing in slot 1. *)
Definition SM_Bars : UStaticMesh :=
  {| StaticMeshObject := SomeObject 131 "SM_Bars" "/Game/Meshes/SM_Bars.SM_Bars" "StaticMesh";
     GetNumSections := fun _ => 2 |}.

Definition Bars : UActorComponent :=
  {| ComponentObject := SomeObject 132 "Bars_GEN_VARIABLE" "" "StaticMeshComponent";
     ComponentClass := IsStaticMeshComponent;
     GetMaterial := fun i => if i =? 0 then Some M_Steel else None;
     GetNumMaterials := 2;
     GetStaticMesh := Some SM_Bars |}.

Definition BarsNode : USCS_Node :=
  {| NodePtr := 133; GetVariableName := "Bars"; ComponentTemplate := Some Bars |}.

(** A blueprint "BP_Gate" whose construction script has the nodes "Trigger"
    and "Bars". *)
Definition GateScript : USimpleConstructionScript :=
  {| ScriptPtr := 130; GetAllNodes := [Some TriggerNode; None; Some BarsNode];
     GetDefaultSceneRootNode := Some TriggerNode |}.

Definition BP_Gate : UBlueprint :=
  {| BlueprintObject :=
       SomeObject 19 "BP_Gate" "/Game/Blueprints/BP_Gate.BP_Gate" "Blueprint";
     ParentClass := Some AActor_StaticClass;
     GeneratedClass := Some (SomeClass "BP_Gate_C");
     SimpleConstructionScript := Some GateScript;
     NewVariables := [];
     FunctionGraphs := [];
     UbergraphPages := [];
     ImplementedInterfaces := [] |}.

(** A project with "BP_Gate" and the material "M_Steel". *)
Definition GateProject (X : Type) (c : EngineCall X) : X :=
  match c in EngineCall X return X -> X with
  | FindBlueprint Name =>
      fun other => if String.eqb Name "BP_Gate" then Some BP_Gate else other
  | LoadAsset Path =>
      fun other =>
        if String.eqb Path "/Game/Materials/M_Steel" then Some (AMaterialInterface M_Steel)
        else other
  | _ => fun other => other
  end (EmptyProject c).

Definition Double_10 : double := Eval vm_compute in Int32ToDouble 10.

Definition GatePhysics : FJsonObject :=
  {[ "blueprint_name" := FJsonValueString "BP_Gate";
     "component_name" := FJsonValueString "Trigger";
     "simulate_physics" := FJsonValueBoolean true;
     "mass" := FJsonValueNumber Double_10 ]}.
(** [e] is a setter by which [set_static_mesh_properties] applies an asset
    it loaded in [Calls]: the mesh loaded from the path in 'static_mesh', or,
    in slot 0, the material loaded from the path in 'material'. *)
Definition SetsLoadedAsset (host : Host) (Params : FJsonObject) (MeshComponent : UActorComponent)
    (Calls : list EngineEvent) (e : EngineEvent) : Prop :=
  (exists (Mesh : UStaticMesh) (bSet : bool),
      e = Called (SetStaticMesh MeshComponent Mesh) bSet
      /\ HasField Params "static_mesh" = true
      /\ In (Called (LoadAsset (GetStringField host Params "static_mesh"))
               (Some (AStaticMesh Mesh))) Calls)
  \/ (exists Material : UMaterialInterface,
         e = Called (SetMaterial MeshComponent 0 Material) tt
         /\ HasField Params "material" = true
         /\ In (Called (LoadAsset (GetStringField host Params "material"))
                  (Some (AMaterialInterface Material))) Calls).

(** The colour [set_mesh_material_color] makes of four JSON values. *)
Definition ColorOf (host : Host) (V0 V1 V2 V3 : FJsonValue) : FLinearColor :=
  {| R := ClampColorComponent host V0; G := ClampColorComponent host V1;
     B := ClampColorComponent host V2; A := ClampColorComponent host V3 |}.

(** What [set_mesh_material_color] does with materials, for the component
    and the colour of the call.  The instance is made for the component,
    from the asset at 'material_path' when that can be read, else from the
    material in the requested slot of the component, else from the asset
    "/Engine/BasicShapes/BasicShapeMaterial".  The colour is set on an
    instance made before, under 'parameter_name' ("BaseColor" when that
    cannot be read), and such an instance is put in the requested slot of
    the component. *)
Definition ColorCall (host : Host) (Params : FJsonObject) (PrimComponent : UActorComponent)
    (Color : FLinearColor) (Calls : list EngineEvent) (e : EngineEvent) : Prop :=
  match e with
  | Called (UMaterialInstanceDynamic_Create Parent Outer) _ =>
      Outer = PrimComponent
      /\ match TryGetStringField host Params "material_path" with
         | Some MaterialPath =>
             In (Called (LoadAsset MaterialPath) (Some (AMaterialInterface Parent))) Calls
         | None =>
             match GetMaterial PrimComponent (RequestedSlot host Params) with
             | Some Material => Parent = Material
             | None =>
                 In (Called (LoadAsset "/Engine/BasicShapes/BasicShapeMaterial")
                       (Some (AMaterialInterface Parent))) Calls
             end
         end
  | Called (SetVectorParameterValue DynMaterial ParameterName Value) _ =>
      ParameterName = default "BaseColor" (TryGetStringField host Params "parameter_name")
      /\ Value = Color
      /\ exists Parent : UMaterialInterface,
           In (Called (UMaterialInstanceDynamic_Create Parent PrimComponent)
                 (Some DynMaterial)) Calls
  | Called (SetMaterial Target Slot DynMaterial) _ =>
      Target = PrimComponent
      /\ Slot = RequestedSlot host Params
      /\ exists Parent : UMaterialInterface,
           In (Called (UMaterialInstanceDynamic_Create Parent PrimComponent)
                 (Some DynMaterial)) Calls
  | _ => True
  end.

Definition LampMesh : FJsonObject :=
  {[ "blueprint_name" := FJsonValueString "BP_Lamp";
     "component_name" := FJsonValueString "Shade";
     "static_mesh" := FJsonValueString "/Game/Meshes/SM_Missing" ]}.

Definition GateMaterial : FJsonObject :=
  {[ "blueprint_name" := FJsonValueString "BP_Gate";
     "component_name" := FJsonValueString "Bars";
     "material_path" := FJsonValueString "/Game/Materials/M_Steel" ]}.
(** The handlers that look an actor of the editor world up by name. *)
Definition ActorHandlers : list Handler := [CmdApplyMaterialToActor; CmdGetActorMaterialInfo].

(** The transform [spawn_blueprint_actor] spawns at: 'location' and
    'rotation' when the fields are present, zero otherwise. *)
Definition SpawnTransformOf (host : Host) (Params : FJsonObject) : FTransform :=
  {| Location :=
       if HasField Params "location" then GetVectorFromJson host Params "location"
       else {| VX := Double_0; VY := Double_0; VZ := Double_0 |};
     Rotation :=
       if HasField Params "rotation" then GetRotatorFromJson host Params "rotation"
       else {| Pitch := Double_0; Yaw := Double_0; Roll := Double_0 |} |}.

(** An editor world with an actor "Gate_1" that has the components "Bars",
    an unset entry and "Shade". *)
Definition Stage : UWorld :=
  {| WorldObject := SomeObject 144 "Stage" "/Game/Maps/Stage.Stage" "World" |}.

Definition Gate_1 : AActor :=
  {| ActorObject := SomeObject 145 "Gate_1" "/Game/Maps/Stage.Stage:Gate_1" "BP_Gate_C";
     GetComponents_UStaticMeshComponent := [Some Bars; None; Some Shade] |}.

(** A project with that world, "BP_Gate" and "M_Steel", in which actors
    spawn as "Gate_1". *)
Definition StageProject (X : Type) (c : EngineCall X) : X :=
  match c in EngineCall X return X -> X with
  | GetEditorWorld => fun _ => Some Stage
  | GetAllActorsOfClass _ _ => fun _ => [None; Some Gate_1]
  | SpawnActor _ _ _ => fun _ => Some Gate_1
  | ActorToJsonObject Actor _ =>
      fun _ => SetStringField "name" (GetName (ActorObject Actor)) ∅
  | _ => fun other => other
  end (GateProject X c).

Definition StageMaterial : FJsonObject :=
  {[ "actor_name" := FJsonValueString "Gate_1";
     "material_path" := FJsonValueString "/Game/Materials/M_Steel";
     "material_slot" := FJsonValueNumber Double_1 ]}.

Definition StageSpawn : FJsonObject :=
  {[ "blueprint_name" := FJsonValueString "BP_Gate";
     "actor_name" := FJsonValueString "North gate" ]}.
(** The handlers that analyze a blueprint loaded from 'blueprint_path'. *)
Definition AnalysisHandlers : list Handler :=
  [CmdReadBlueprintContent; CmdAnalyzeBlueprintGraph; CmdGetBlueprintVariableDetails;
   CmdGetBlueprintFunctionDetails].

(** A flag of the analysis handlers: the field read as a boolean, [true]
    when it cannot be read. *)
Definition IncludeFlag (host : Host) (Params : FJsonObject) (Field : string) : bool :=
  default true (TryGetBoolField host Params Field).

(** The optional sections of the reply of [read_blueprint_content], each
    with the flag that asks for it. *)
Definition ContentSections : list (string * string) :=
  [("variables", "include_variables"); ("functions", "include_functions");
   ("event_graph", "include_event_graph"); ("components", "include_components");
   ("interfaces", "include_interfaces")].

(** The variables of [Variables] whose name is [VariableName], ignoring
    case, in the order of the array. *)
Definition VariablesNamed (VariableName : string) (Variables : list FBPVariableDescription)
  : list FBPVariableDescription :=
  List.filter (fun Var => VarName Var ==? VariableName) Variables.

(** [Entry] is a JSON object that describes the variable [Var]. *)
Definition EntryOfVariable (Var : FBPVariableDescription) (Entry : FJsonValue) : Prop :=
  exists VarObj : FJsonObject,
    Entry = FJsonValueObject VarObj
    /\ VarObj !! "name" = Some (FJsonValueString (VarName Var))
    /\ VarObj !! "type" = Some (FJsonValueString (VarType_PinCategory Var))
    /\ VarObj !! "default_value" = Some (FJsonValueString (DefaultValue Var))
    /\ VarObj !! "category" = Some (FJsonValueString (Category Var))
    /\ VarObj !! "friendly_name"
       = Some (FJsonValueString
                 (match FriendlyName Var with
                  | EmptyString => VarName Var
                  | String _ _ => FriendlyName Var
                  end))
    /\ VarObj !! "tooltip"
       = Some (FJsonValueString
                 (match MetaData_Tooltip Var with Some Tooltip => Tooltip | None => "" end)).

(** [Entry] is a JSON object that describes the function graph [Graph],
    with its nodes exactly when [bIncludeGraph] is set. *)
Definition EntryOfFunction (bIncludeGraph : bool) (Graph : UEdGraph) (Entry : FJsonValue)
  : Prop :=
  exists FuncObj : FJsonObject,
    Entry = FJsonValueObject FuncObj
    /\ FuncObj !! "name" = Some (FJsonValueString (GetName (GraphObject Graph)))
    /\ FuncObj !! "graph_type" = Some (FJsonValueString "Function")
    /\ FuncObj !! "node_count"
       = Some (FJsonValueNumber (Int32ToDouble (Z.of_nat (length (Nodes Graph)))))
    /\ (is_Some (FuncObj !! "graph_nodes") <-> bIncludeGraph = true).

(** The class name of the node contains "FunctionEntry", or
    "FunctionResult", ignoring case. *)
Definition IsFunctionEntry (Node : UEdGraphNode) : bool :=
  FString.Contains (ClassGetName (GetClass (GraphNodeObject Node))) "FunctionEntry".
Definition IsFunctionResult (Node : UEdGraphNode) : bool :=
  FString.Contains (ClassGetName (GetClass (GraphNodeObject Node))) "FunctionResult".

(** [Entry] is the "name" and "type" of a pin, with direction [Dir] and a
    name other than [Exec], of a node of [Graph] that [Selected] selects. *)
Definition ParameterOf (Graph : UEdGraph) (Selected : UEdGraphNode -> bool)
    (Dir : EEdGraphPinDirection) (Exec : string) (Entry : FJsonValue) : Prop :=
  exists (Node : UEdGraphNode) (Pin : UEdGraphPin),
    In (Some Node) (Nodes Graph)
    /\ Selected Node = true
    /\ In (Some Pin) (Pins Node)
    /\ Direction Pin = Dir
    /\ PinName Pin ==? Exec = false
    /\ Entry = ParameterPin Pin.

(** A blueprint "BP_Door" with two variables, the event graph of the other
    samples and a function "Open" with an entry node, an unset node and a
    result node. *)
Definition Health : FBPVariableDescription :=
  {| VarName := "Health"; VarType_PinCategory := "real"; VarType_PinSubCategory := "double";
     DefaultValue := "100.0"; FriendlyName := ""; Category := "Default";
     PropertyFlags := Z.lor CPF_Edit CPF_BlueprintVisible; ReplicationCondition := 0;
     MetaData_Tooltip := Some "Hit points" |}.

Definition bIsOpen : FBPVariableDescription :=
  {| VarName := "bIsOpen"; VarType_PinCategory := "bool"; VarType_PinSubCategory := "None";
     DefaultValue := "false"; FriendlyName := "Is Open"; Category := "State";
     PropertyFlags := CPF_DisableEditOnInstance; ReplicationCondition := 0;
     MetaData_Tooltip := None |}.

Definition SomePin (Name PinType : string) (Dir : EEdGraphPinDirection) (Owner : string)
  : UEdGraphPin :=
  {| PinName := Name; PinCategory := PinType; Direction := Dir; OwningNodeName := Owner;
     LinkedTo := [] |}.

Definition OpenEntry : UEdGraphNode :=
  {| GraphNodeObject := SomeObject 160 "K2Node_FunctionEntry_0" "" "K2Node_FunctionEntry";
     GetNodeTitle_FullTitle := "Open";
     NodePosX := 0; NodePosY := 0; bCanRenameNode := false;
     Pins := [Some (SomePin "then" "exec" EGPD_Output "K2Node_FunctionEntry_0"); None;
              Some (SomePin "Speed" "real" EGPD_Output "K2Node_FunctionEntry_0")] |}.

Definition OpenResult : UEdGraphNode :=
  {| GraphNodeObject := SomeObject 161 "K2Node_FunctionResult_0" "" "K2Node_FunctionResult";
     GetNodeTitle_FullTitle := "Return Node";
     NodePosX := 400; NodePosY := 0; bCanRenameNode := false;
     Pins := [Some (SomePin "exec" "exec" EGPD_Input "K2Node_FunctionResult_0");
              Some (SomePin "Done" "bool" EGPD_Input "K2Node_FunctionResult_0")] |}.

Definition OpenGraph : UEdGraph :=
  {| GraphObject := SomeObject 162 "Open" "" "EdGraph";
     Nodes := [Some OpenEntry; None; Some OpenResult] |}.

Definition BP_Door : UBlueprint :=
  {| BlueprintObject :=
       SomeObject 20 "BP_Door" "/Game/Blueprints/BP_Door.BP_Door" "Blueprint";
     ParentClass := None;
     GeneratedClass := None;
     SimpleConstructionScript := None;
     NewVariables := [Health; bIsOpen];
     FunctionGraphs := [None; Some OpenGraph];
     UbergraphPages := [Some EventGraph];
     ImplementedInterfaces := [] |}.

Definition DoorProject (X : Type) (c : EngineCall X) : X :=
  match c in EngineCall X return X -> X with
  | LoadAsset Path =>
      fun other =>
        if String.eqb Path "/Game/Blueprints/BP_Door" then Some (ABlueprint BP_Door)
        else other
  | _ => fun other => other
  end (ArenaProject X c).
(** The fields of the parameter bag on which the reply and the calls of a
    handler depend. *)
Definition FieldsUsed (h : Handler) : list string :=
  match h with
  | CmdCreateBlueprint => ["name"; "parent_class"]
  | CmdAddComponentToBlueprint =>
      ["blueprint_name"; "component_type"; "component_name"; "location"; "rotation"; "scale"]
  | CmdSetPhysicsProperties =>
      ["blueprint_name"; "component_name"; "simulate_physics"; "mass"; "linear_damping";
       "angular_damping"]
  | CmdCompileBlueprint => ["blueprint_name"]
  | CmdSetStaticMeshProperties =>
      ["blueprint_name"; "component_name"; "static_mesh"; "material"]
  | CmdSpawnBlueprintActor => ["blueprint_name"; "actor_name"; "location"; "rotation"]
  | CmdSetMeshMaterialColor =>
      ["blueprint_name"; "component_name"; "color"; "material_slot"; "parameter_name";
       "material_path"]
  | CmdGetAvailableMaterials => ["search_path"; "include_engine_materials"]
  | CmdApplyMaterialToActor => ["actor_name"; "material_path"; "material_slot"]
  | CmdApplyMaterialToBlueprint =>
      ["blueprint_name"; "component_name"; "material_path"; "material_slot"]
  | CmdGetActorMaterialInfo => ["actor_name"]
  | CmdGetBlueprintMaterialInfo => ["blueprint_name"; "component_name"]
  | CmdReadBlueprintContent =>
      ["blueprint_path"; "include_event_graph"; "include_functions"; "include_variables";
       "include_components"; "include_interfaces"]
  | CmdAnalyzeBlueprintGraph =>
      ["blueprint_path"; "graph_name"; "include_node_details"; "include_pin_connections"]
  | CmdGetBlueprintVariableDetails => ["blueprint_path"; "variable_name"]
  | CmdGetBlueprintFunctionDetails => ["blueprint_path"; "function_name"; "include_graph"]
  | CmdOpenAssetInEditor => ["asset_path"]
  end.

(** The vector and rotator helpers of the host read the field they are
    asked for and nothing else of the parameter bag. *)
Definition HostReadsTheField (host : Host) : Prop :=
  forall (Params Params' : FJsonObject) (Field : string),
    Params !! Field = Params' !! Field ->
    GetVectorFromJson host Params Field = GetVectorFromJson host Params' Field
    /\ GetRotatorFromJson host Params Field = GetRotatorFromJson host Params' Field.









(** The class names [add_component_to_blueprint] can look up for a
    component type, in the order of the source: the type itself; the type
    with "Component" behind it unless it ends so; the type with "U" in front
    of it unless it begins so; the type with both. *)
Definition ComponentClassNames (ComponentType : string) : list string :=
  [ComponentType]
  ++ (if FString.EndsWith ComponentType "Component" then []
      else [ComponentType +:+ "Component"])
  ++ (if FString.StartsWith ComponentType "U" then []
      else ["U" +:+ ComponentType]
           ++ (if FString.EndsWith ComponentType "Component" then []
               else ["U" +:+ ComponentType +:+ "Component"])).

(** The name and the answer of a class lookup. *)
Definition ClassLookup (e : EngineEvent) : option (string * option UClass) :=
  match e with
  | Called (FindObject_UClass Name) Class => Some (Name, Class)
  | _ => None
  end.

(** The calls by which [add_component_to_blueprint] places a scene
    component, for the fields that are present. *)
Definition TransformCalls (host : Host) (Params : FJsonObject)
    (SceneComponent : UActorComponent) : list EngineEvent :=
  (if HasField Params "location"
   then [Called (SetRelativeLocation SceneComponent
                   (GetVectorFromJson host Params "location")) tt]
   else [])
  ++ (if HasField Params "rotation"
      then [Called (SetRelativeRotation SceneComponent
                      (GetRotatorFromJson host Params "rotation")) tt]
      else [])
  ++ (if HasField Params "scale"
      then [Called (SetRelativeScale3D SceneComponent
                      (GetVectorFromJson host Params "scale")) tt]
      else []).

(** A project with "BP_Gate" in which the component class
    "UPointLightComponent" exists and nodes can be created. *)
Definition UPointLightComponent_StaticClass : UClass :=
  {| GetClassPathName := "/Script/Engine.PointLightComponent";
     ClassGetName := "PointLightComponent"; IsChildOf_UActorComponent := true |}.

Definition Lantern : UActorComponent :=
  {| ComponentObject := SomeObject 192 "Lantern_GEN_VARIABLE" "" "PointLightComponent";
     ComponentClass := IsSceneComponent;
     GetMaterial := fun _ => None;
     GetNumMaterials := 0;
     GetStaticMesh := None |}.

Definition LanternNode : USCS_Node :=
  {| NodePtr := 193; GetVariableName := "Lantern"; ComponentTemplate := Some Lantern |}.

Definition LightProject (X : Type) (c : EngineCall X) : X :=
  match c in EngineCall X return X -> X with
  | FindObject_UClass Name =>
      fun other =>
        if String.eqb Name "UPointLightComponent" then Some UPointLightComponent_StaticClass
        else other
  | CreateNode _ _ _ => fun _ => Some LanternNode
  | _ => fun other => other
  end (GateProject X c).

Definition GateLight : FJsonObject :=
  {[ "blueprint_name" := FJsonValueString "BP_Gate";
     "component_type" := FJsonValueString "PointLight";
     "component_name" := FJsonValueString "Lantern";
     "location" := FJsonValueArray [] ]}.

Definition GateLightByClass : FJsonObject :=
  {[ "blueprint_name" := FJsonValueString "BP_Gate";
     "component_type" := FJsonValueString "UPointLightComponent";
     "component_name" := FJsonValueString "Lantern";
     "location" := FJsonValueArray [] ]}.
(** The class [create_blueprint] gives the factory for a 'parent_class'
    value that it resolves without loading a class. *)
Definition ParentWithoutLoading (Given : string) : UClass :=
  if negb (FString.IsEmpty Given) && (ParentClassName Given ==? "APawn")
  then APawn_StaticClass else AActor_StaticClass.

(** The path [get_available_materials] searches: "/Game/" when
    'search_path' cannot be read or is empty, the normalized path
    otherwise. *)
Definition SearchPathOf (host : Host) (Params : FJsonObject) : string :=
  match TryGetStringField host Params "search_path" with
  | Some Given => if FString.IsEmpty Given then "/Game/" else NormalizeSearchPath Given
  | None => "/Game/"
  end.

(** The filter it gives the asset registry. *)
Definition MaterialFilter (host : Host) (Params : FJsonObject) : FARFilter :=
  {| ClassPaths :=
       [GetClassPathName UMaterialInterface_StaticClass;
        GetClassPathName UMaterial_StaticClass;
        GetClassPathName UMaterialInstanceConstant_StaticClass;
        GetClassPathName UMaterialInstanceDynamic_StaticClass];
     PackagePaths :=
       [SearchPathOf host Params]
       ++ (if (if HasField Params "include_engine_materials"
               then GetBoolField host Params "include_engine_materials" else true)
           then ["/Engine/"] else []);
     bRecursivePaths := true |}.

(** The calls of the manual search: loading an asset and making asset data
    of it. *)
Definition IsManualSearchCall (e : EngineEvent) : bool :=
  match e with
  | Called (LoadAsset _) _ | Called (FAssetData_FromObject _) _ => true
  | _ => false
  end.

(* ===================================================================== *)
(** ** Properties of the dispatcher                                       *)
(* ===================================================================== *)

Lemma SelectHandler_unmatched (CommandType : string) :
  Forall (fun Name => CommandType ==? Name = false) RecognizedCommands ->
  SelectHandler CommandType = None.
Proof.
  unfold RecognizedCommands, SelectHandler; intros Hno.
  repeat match goal with
         | H : Forall _ (_ :: _) |- _ =>
             apply Forall_cons_1 in H; destruct H as [-> H]
         end.
  reflexivity.
Qed.

(** C1 (as amended).  A command type that matches none of the seventeen
    command names, compared the way [FString] compares (ignoring the case of
    ASCII letters), selects no handler, and [HandleCommand] is the bare
    return of the error response "Unknown blueprint command: <command type>". *)
Theorem C1_unknown_command (host : Host) (CommandType : string) (Params : FJsonObject) :
  Forall (fun Name => CommandType ==? Name = false) RecognizedCommands ->
  SelectHandler CommandType = None /\
  HandleCommand host CommandType Params
  = Ret (CreateErrorResponse host ("Unknown blueprint command: " +:+ CommandType)).
Proof.
  intros Hno; pose proof (SelectHandler_unmatched CommandType Hno) as Hsel.
  split; [exact Hsel|].
  unfold HandleCommand; rewrite Hsel; reflexivity.
Qed.

Lemma C1_unknown_command_witness :
  Forall (fun Name => "destroy_blueprint" ==? Name = false) RecognizedCommands /\
  SelectHandler "destroy_blueprint" = None /\
  HandleCommand PlainHost "destroy_blueprint" ∅
  = Ret (CreateErrorResponse PlainHost "Unknown blueprint command: destroy_blueprint").
Proof.
  assert (Hno : Forall (fun Name => "destroy_blueprint" ==? Name = false) RecognizedCommands)
    by (repeat constructor).
  split; [exact Hno|].
  exact (C1_unknown_command PlainHost "destroy_blueprint" ∅ Hno).
Defined.

(** C1 (as stated) fails: "CREATE_BLUEPRINT" is not one of the seventeen
    names, yet it selects [HandleCreateBlueprint]; with no parameters the
    reply is that handler's "Missing 'name' parameter", not the
    unknown-command error. *)
Lemma C1_uppercase_command_is_handled :
  ~ In "CREATE_BLUEPRINT" RecognizedCommands /\
  SelectHandler "CREATE_BLUEPRINT" = Some CmdCreateBlueprint /\
  HandleCommand PlainHost "CREATE_BLUEPRINT" ∅
  = Ret (CreateErrorResponse PlainHost "Missing 'name' parameter") /\
  HandleCommand PlainHost "CREATE_BLUEPRINT" ∅
  <> Ret (CreateErrorResponse PlainHost "Unknown blueprint command: CREATE_BLUEPRINT").
Proof.
  split; [|split; [reflexivity|split; [reflexivity|]]].
  - unfold RecognizedCommands; simpl; intros H.
    repeat (destruct H as [H|H]; [discriminate H|]); exact H.
  - intros H. apply (f_equal (fun p => match p with
                                       | Ret o => o !! "error"
                                       | _ => None
                                       end)) in H.
    vm_compute in H. discriminate H.
Qed.

(** Each of the seventeen names selects its own handler. *)
Example recognized_commands_select_handlers :
  map SelectHandler RecognizedCommands
  = map Some
      [CmdCreateBlueprint; CmdAddComponentToBlueprint; CmdSetPhysicsProperties;
       CmdCompileBlueprint; CmdSetStaticMeshProperties; CmdSpawnBlueprintActor;
       CmdSetMeshMaterialColor; CmdGetAvailableMaterials; CmdApplyMaterialToActor;
       CmdApplyMaterialToBlueprint; CmdGetActorMaterialInfo; CmdGetBlueprintMaterialInfo;
       CmdReadBlueprintContent; CmdAnalyzeBlueprintGraph; CmdGetBlueprintVariableDetails;
       CmdGetBlueprintFunctionDetails; CmdOpenAssetInEditor].
Proof. reflexivity. Qed.

(* ===================================================================== *)
(** ** Missing parameters                                                 *)
(* ===================================================================== *)

Lemma TryGetStringField_absent (host : Host) (Params : FJsonObject) (Field : string) :
  Params !! Field = None -> TryGetStringField host Params Field = None.
Proof. unfold TryGetStringField; intros ->; reflexivity. Qed.

(** C2.  For every recognized command and every string parameter its
    handler requires: when the parameter is absent from the parameter bag,
    the handler returns an error response whose message reports a missing
    parameter, it has made no call into the engine by then, and the editor
    is in the state it started from. *)
Theorem C2_missing_parameter (host : Host) (M : EditorModel) (s : EditorState M)
    (CommandType : string) (h : Handler) (Params : FJsonObject) (Field : string) :
  SelectHandler CommandType = Some h ->
  In Field (RequiredStringFields h) ->
  Params !! Field = None ->
  exists Reported : string,
    let r := run M (HandleCommand host CommandType Params) s in
    outcome r = Returned (CreateErrorResponse host (MissingParameter Reported))
    /\ calls r = []
    /\ final r = s.
Proof.
  intros Hsel Hin Habsent.
  apply (TryGetStringField_absent host) in Habsent.
  unfold HandleCommand; rewrite Hsel; clear Hsel.
  destruct h; simpl in Hin;
    repeat (destruct Hin as [<-|Hin]; [|try contradiction]);
    try contradiction;
    cbv beta iota delta
      [Invoke HandleCreateBlueprint HandleAddComponentToBlueprint
       HandleSetPhysicsProperties HandleCompileBlueprint HandleSetStaticMeshProperties
       HandleSpawnBlueprintActor HandleSetMeshMaterialColor HandleGetAvailableMaterials
       HandleApplyMaterialToActor HandleApplyMaterialToBlueprint
       HandleGetActorMaterialInfo HandleGetBlueprintMaterialInfo
       HandleReadBlueprintContent HandleAnalyzeBlueprintGraph
       HandleGetBlueprintVariableDetails HandleGetBlueprintFunctionDetails
       HandleOpenAssetInEditor];
    rewrite Habsent;
    repeat match goal with
           | |- context [match TryGetStringField host Params ?f with _ => _ end] =>
               destruct (TryGetStringField host Params f)
           end;
    first [ exists "name"; repeat split; reflexivity
          | exists "type"; repeat split; reflexivity
          | exists "blueprint_name"; repeat split; reflexivity
          | exists "component_name"; repeat split; reflexivity
          | exists "actor_name"; repeat split; reflexivity
          | exists "material_path"; repeat split; reflexivity
          | exists "blueprint_path"; repeat split; reflexivity
          | exists "asset_path"; repeat split; reflexivity ].
Qed.

Lemma C2_missing_parameter_witness :
  exists Reported : string,
    let r := run (Scripted (@EmptyProject))
               (HandleCommand PlainHost "set_physics_properties"
                  {[ "blueprint_name" := FJsonValueString "BP_Crate" ]}) 0%nat in
    outcome r = Returned (CreateErrorResponse PlainHost (MissingParameter Reported))
    /\ calls r = []
    /\ final r = 0%nat.
Proof.
  apply (C2_missing_parameter PlainHost (Scripted (@EmptyProject)) 0%nat
           "set_physics_properties" CmdSetPhysicsProperties
           {[ "blueprint_name" := FJsonValueString "BP_Crate" ]} "component_name").
  - reflexivity.
  - simpl; tauto.
  - reflexivity.
Defined.

(* ===================================================================== *)
(** ** compile_blueprint                                                  *)
(* ===================================================================== *)

(** C3.  When [compile_blueprint] is given a 'blueprint_name' and the
    blueprint is found, the handler calls the compiler once and returns the
    object with "name" set to the given name and "compiled" set to [true],
    whatever the compiler does to the editor. *)
Theorem C3_compile_blueprint_result (host : Host) (M : EditorModel) (s s1 : EditorState M)
    (Params : FJsonObject) (BlueprintName : string) (Blueprint : UBlueprint) :
  TryGetStringField host Params "blueprint_name" = Some BlueprintName ->
  perform M (FindBlueprint BlueprintName) s = (Some Blueprint, s1) ->
  let r := run M (HandleCommand host "compile_blueprint" Params) s in
  exists ResultObj : FJsonObject,
    outcome r = Returned ResultObj
    /\ ResultObj !! "name" = Some (FJsonValueString BlueprintName)
    /\ ResultObj !! "compiled" = Some (FJsonValueBoolean true)
    /\ ResultObj = SetBoolField "compiled" true (SetStringField "name" BlueprintName ∅)
    /\ calls r = [Called (FindBlueprint BlueprintName) (Some Blueprint);
                  Called (CompileBlueprint Blueprint) tt]
    /\ final r = snd (perform M (CompileBlueprint Blueprint) s1).
Proof.
  intros Hname Hfound.
  change (HandleCommand host "compile_blueprint" Params)
    with (HandleCompileBlueprint host Params).
  unfold HandleCompileBlueprint; rewrite Hname; simpl.
  rewrite Hfound; simpl.
  destruct (perform M (CompileBlueprint Blueprint) s1) as [[] s2]; simpl.
  eexists; split; [reflexivity|].
  unfold SetBoolField, SetStringField.
  split; [|split; [|repeat split]].
  - rewrite lookup_insert_ne by discriminate. apply lookup_insert_eq.
  - apply lookup_insert_eq.
Qed.

Lemma C3_compile_blueprint_result_witness :
  let r := run (Scripted CrateProject)
             (HandleCommand PlainHost "compile_blueprint"
                {[ "blueprint_name" := FJsonValueString "BP_Crate" ]}) 0%nat in
  exists ResultObj : FJsonObject,
    outcome r = Returned ResultObj
    /\ ResultObj !! "name" = Some (FJsonValueString "BP_Crate")
    /\ ResultObj !! "compiled" = Some (FJsonValueBoolean true)
    /\ ResultObj = SetBoolField "compiled" true (SetStringField "name" "BP_Crate" ∅)
    /\ calls r = [Called (FindBlueprint "BP_Crate") (Some BP_Crate);
                  Called (CompileBlueprint BP_Crate) tt]
    /\ final r = snd (perform (Scripted CrateProject) (CompileBlueprint BP_Crate) 1%nat).
Proof.
  apply (C3_compile_blueprint_result PlainHost (Scripted CrateProject) 0%nat 1%nat
           {[ "blueprint_name" := FJsonValueString "BP_Crate" ]} "BP_Crate" BP_Crate);
    reflexivity.
Defined.

(* ===================================================================== *)
(** ** create_blueprint                                                   *)
(* ===================================================================== *)

(** C4.  When [create_blueprint] is given a 'name' and an asset exists at
    "/Game/Blueprints/" followed by that name, the handler returns the error
    "Blueprint already exists: <name>"; the existence check is the only
    call it makes, so no package is created, no factory runs and the asset
    registry is not notified. *)
Theorem C4_blueprint_already_exists (host : Host) (M : EditorModel) (s s1 : EditorState M)
    (Params : FJsonObject) (BlueprintName : string) :
  TryGetStringField host Params "name" = Some BlueprintName ->
  perform M (DoesAssetExist ("/Game/Blueprints/" +:+ BlueprintName)) s = (true, s1) ->
  let r := run M (HandleCommand host "create_blueprint" Params) s in
  outcome r
  = Returned (CreateErrorResponse host ("Blueprint already exists: " +:+ BlueprintName))
  /\ calls r = [Called (DoesAssetExist ("/Game/Blueprints/" +:+ BlueprintName)) true]
  /\ final r = s1.
Proof.
  intros Hname Hexists.
  change (HandleCommand host "create_blueprint" Params)
    with (HandleCreateBlueprint host Params).
  unfold HandleCreateBlueprint; rewrite Hname; simpl.
  rewrite Hexists; simpl. repeat split.
Qed.

Lemma C4_blueprint_already_exists_witness :
  let r := run (Scripted CrateProject)
             (HandleCommand PlainHost "create_blueprint"
                {[ "name" := FJsonValueString "BP_Crate" ]}) 0%nat in
  outcome r
  = Returned (CreateErrorResponse PlainHost "Blueprint already exists: BP_Crate")
  /\ calls r = [Called (DoesAssetExist "/Game/Blueprints/BP_Crate") true]
  /\ final r = 1%nat.
Proof.
  apply (C4_blueprint_already_exists PlainHost (Scripted CrateProject) 0%nat 1%nat
           {[ "name" := FJsonValueString "BP_Crate" ]} "BP_Crate");
    reflexivity.
Defined.

(* ===================================================================== *)
(** ** open_asset_in_editor                                               *)
(* ===================================================================== *)

Lemma OpenedAssetReply_intro (AssetPath : string) (Asset : UObject) :
  OpenedAssetReply AssetPath Asset
    (SetStringField "asset_class" (ClassGetName (GetClass (ObjectBase Asset)))
       (SetStringField "asset_name" (GetName (ObjectBase Asset))
          (SetStringField "asset_path" AssetPath (SetBoolField "success" true ∅)))).
Proof.
  unfold OpenedAssetReply, SetStringField, SetBoolField.
  repeat split;
    repeat (rewrite lookup_insert_ne by discriminate); apply lookup_insert_eq.
Qed.

(** C7.  When [open_asset_in_editor] is given an 'asset_path' and the asset
    loads: a level ([UWorld]) is opened by [LoadLevel] of the level editor
    subsystem and no call is made on the asset editor subsystem; any other
    asset is opened by [OpenEditorForAsset] of the asset editor subsystem and
    no call is made on the level editor subsystem.  The handler always
    returns; the reply is either one of the two errors of the branch or,
    when the subsystem answered [true], an object with "success" = true,
    "asset_path", "asset_name" and "asset_class". *)
Theorem C7_open_asset_in_editor (host : Host) (M : EditorModel) (s s1 : EditorState M)
    (Params : FJsonObject) (AssetPath : string) (Asset : UObject) :
  TryGetStringField host Params "asset_path" = Some AssetPath ->
  perform M (LoadAsset AssetPath) s = (Some Asset, s1) ->
  let r := run M (HandleCommand host "open_asset_in_editor" Params) s in
  exists ResultObj : FJsonObject,
    outcome r = Returned ResultObj /\
    if IsA_UWorld Asset
    then
      Forall (fun e => IsAssetEditorCall e = false) (calls r) /\
      ((exists LevelEditor,
           In (Called (LoadLevel LevelEditor AssetPath) true) (calls r)
           /\ OpenedAssetReply AssetPath Asset ResultObj)
       \/ (In (Called GetEditorSubsystem_ULevelEditorSubsystem None) (calls r)
           /\ ResultObj = CreateErrorResponse host "Failed to get LevelEditorSubsystem")
       \/ (exists LevelEditor,
              In (Called (LoadLevel LevelEditor AssetPath) false) (calls r)
              /\ ResultObj
                 = CreateErrorResponse host ("Failed to load level: " +:+ AssetPath)))
    else
      Forall (fun e => IsLevelEditorCall e = false) (calls r) /\
      ((exists AssetEditor,
           In (Called (OpenEditorForAsset AssetEditor Asset) true) (calls r)
           /\ OpenedAssetReply AssetPath Asset ResultObj)
       \/ (In (Called GetEditorSubsystem_UAssetEditorSubsystem None) (calls r)
           /\ ResultObj = CreateErrorResponse host "Failed to get AssetEditorSubsystem")
       \/ (exists AssetEditor,
              In (Called (OpenEditorForAsset AssetEditor Asset) false) (calls r)
              /\ ResultObj
                 = CreateErrorResponse host
                     ("Failed to open editor for asset: " +:+ AssetPath))).
Proof.
  intros Hpath Hload.
  change (HandleCommand host "open_asset_in_editor" Params)
    with (HandleOpenAssetInEditor host Params).
  unfold HandleOpenAssetInEditor; rewrite Hpath; simpl.
  rewrite Hload; simpl.
  destruct (IsA_UWorld Asset); simpl.
  - destruct (perform M GetEditorSubsystem_ULevelEditorSubsystem s1)
      as [[LevelEditor|] s2]; simpl.
    + destruct (perform M (LoadLevel LevelEditor AssetPath) s2) as [[|] s3]; simpl;
        (eexists; split; [reflexivity|]; split; [repeat constructor|]).
      * left; exists LevelEditor; split; [simpl; tauto|apply OpenedAssetReply_intro].
      * right; right; exists LevelEditor; split; [simpl; tauto|reflexivity].
    + eexists; split; [reflexivity|]; split; [repeat constructor|].
      right; left; split; [simpl; tauto|reflexivity].
  - destruct (perform M GetEditorSubsystem_UAssetEditorSubsystem s1)
      as [[AssetEditor|] s2]; simpl.
    + destruct (perform M (OpenEditorForAsset AssetEditor Asset) s2) as [[|] s3]; simpl;
        (eexists; split; [reflexivity|]; split; [repeat constructor|]).
      * left; exists AssetEditor; split; [simpl; tauto|apply OpenedAssetReply_intro].
      * right; right; exists AssetEditor; split; [simpl; tauto|reflexivity].
    + eexists; split; [reflexivity|]; split; [repeat constructor|].
      right; left; split; [simpl; tauto|reflexivity].
Qed.

Lemma C7_open_asset_in_editor_witness :
  let r := run (Scripted ArenaProject)
             (HandleCommand PlainHost "open_asset_in_editor"
                {[ "asset_path" := FJsonValueString "/Game/Maps/Arena" ]}) 0%nat in
  exists ResultObj : FJsonObject,
    outcome r = Returned ResultObj /\
    Forall (fun e => IsAssetEditorCall e = false) (calls r) /\
    ((exists LevelEditor,
         In (Called (LoadLevel LevelEditor "/Game/Maps/Arena") true) (calls r)
         /\ OpenedAssetReply "/Game/Maps/Arena" Arena ResultObj)
     \/ (In (Called GetEditorSubsystem_ULevelEditorSubsystem None) (calls r)
         /\ ResultObj = CreateErrorResponse PlainHost "Failed to get LevelEditorSubsystem")
     \/ (exists LevelEditor,
            In (Called (LoadLevel LevelEditor "/Game/Maps/Arena") false) (calls r)
            /\ ResultObj
               = CreateErrorResponse PlainHost "Failed to load level: /Game/Maps/Arena")).
Proof.
  apply (C7_open_asset_in_editor PlainHost (Scripted ArenaProject) 0%nat 1%nat
           {[ "asset_path" := FJsonValueString "/Game/Maps/Arena" ]}
           "/Game/Maps/Arena" Arena);
    reflexivity.
Defined.

(** The two ways of opening, run on the sample project. *)
Example open_level_calls :
  calls (run (Scripted ArenaProject)
           (HandleCommand PlainHost "open_asset_in_editor"
              {[ "asset_path" := FJsonValueString "/Game/Maps/Arena" ]}) 0%nat)
  = [Called (LoadAsset "/Game/Maps/Arena") (Some Arena);
     Called GetEditorSubsystem_ULevelEditorSubsystem (Some {| LevelEditorPtr := 3 |});
     Called (LoadLevel {| LevelEditorPtr := 3 |} "/Game/Maps/Arena") true].
Proof. reflexivity. Qed.

Example open_material_calls :
  calls (run (Scripted ArenaProject)
           (HandleCommand PlainHost "open_asset_in_editor"
              {[ "asset_path" := FJsonValueString "/Game/Materials/M_Steel" ]}) 0%nat)
  = [Called (LoadAsset "/Game/Materials/M_Steel") (Some (AMaterialInterface M_Steel));
     Called GetEditorSubsystem_UAssetEditorSubsystem (Some {| AssetEditorPtr := 4 |});
     Called (OpenEditorForAsset {| AssetEditorPtr := 4 |} (AMaterialInterface M_Steel)) true].
Proof. reflexivity. Qed.

(* ===================================================================== *)
(** ** add_component_to_blueprint                                         *)
(* ===================================================================== *)

(** C9 (as amended).  For [add_component_to_blueprint] with a
    'blueprint_name': when 'component_type' is absent the handler returns the
    error "Missing 'type' parameter"; when 'component_type' is given and
    'component_name' is absent it returns "Missing 'name' parameter".  The
    field named in each message differs from the field that was read. *)
Theorem C9_add_component_messages (host : Host) (Params : FJsonObject)
    (BlueprintName : string) :
  TryGetStringField host Params "blueprint_name" = Some BlueprintName ->
  (Params !! "component_type" = None ->
   HandleCommand host "add_component_to_blueprint" Params
   = Ret (CreateErrorResponse host "Missing 'type' parameter"))
  /\ (forall ComponentType : string,
        TryGetStringField host Params "component_type" = Some ComponentType ->
        Params !! "component_name" = None ->
        HandleCommand host "add_component_to_blueprint" Params
        = Ret (CreateErrorResponse host "Missing 'name' parameter"))
  /\ "type" <> "component_type"
  /\ "name" <> "component_name".
Proof.
  intros Hbp.
  change (HandleCommand host "add_component_to_blueprint" Params)
    with (HandleAddComponentToBlueprint host Params).
  unfold HandleAddComponentToBlueprint; rewrite Hbp.
  split; [|split; [|split; discriminate]].
  - intros Habsent; rewrite (TryGetStringField_absent host _ _ Habsent); reflexivity.
  - intros ComponentType Htype Habsent.
    rewrite Htype, (TryGetStringField_absent host _ _ Habsent); reflexivity.
Qed.

Lemma C9_add_component_messages_witness :
  let Params : FJsonObject := {[ "blueprint_name" := FJsonValueString "BP_Crate" ]} in
  (Params !! "component_type" = None ->
   HandleCommand PlainHost "add_component_to_blueprint" Params
   = Ret (CreateErrorResponse PlainHost "Missing 'type' parameter"))
  /\ (forall ComponentType : string,
        TryGetStringField PlainHost Params "component_type" = Some ComponentType ->
        Params !! "component_name" = None ->
        HandleCommand PlainHost "add_component_to_blueprint" Params
        = Ret (CreateErrorResponse PlainHost "Missing 'name' parameter"))
  /\ "type" <> "component_type"
  /\ "name" <> "component_name".
Proof.
  apply (C9_add_component_messages PlainHost
           {[ "blueprint_name" := FJsonValueString "BP_Crate" ]} "BP_Crate").
  reflexivity.
Defined.

(** C9 (as stated) fails: with an empty parameter bag 'component_type' is
    absent, and the error is "Missing 'blueprint_name' parameter". *)
Lemma C9_blueprint_name_is_checked_first :
  (∅ : FJsonObject) !! "component_type" = None
  /\ HandleCommand PlainHost "add_component_to_blueprint" ∅
     = Ret (CreateErrorResponse PlainHost "Missing 'blueprint_name' parameter")
  /\ HandleCommand PlainHost "add_component_to_blueprint" ∅
     <> Ret (CreateErrorResponse PlainHost "Missing 'type' parameter").
Proof.
  split; [reflexivity|split; [reflexivity|]].
  intros H. apply (f_equal (fun p => match p with
                                     | Ret o => o !! "error"
                                     | _ => None
                                     end)) in H.
  vm_compute in H. discriminate H.
Qed.

(* ===================================================================== *)
(** ** analyze_blueprint_graph                                            *)
(* ===================================================================== *)

Lemma FindGraphByName_head (Graphs : list (option UEdGraph)) (GraphName : string) :
  FindGraphByName Graphs GraphName = head (GraphsNamed GraphName Graphs).
Proof.
  unfold GraphsNamed.
  induction Graphs as [|[Graph|] rest IH]; simpl; [reflexivity| |exact IH].
  destruct (GetName (GraphObject Graph) ==? GraphName); [reflexivity|exact IH].
Qed.

Lemma FindTargetGraph_head (Blueprint : UBlueprint) (GraphName : string) :
  FindTargetGraph Blueprint GraphName
  = head (GraphsNamed GraphName (UbergraphPages Blueprint)
          ++ GraphsNamed GraphName (FunctionGraphs Blueprint))%list.
Proof.
  unfold FindTargetGraph. rewrite !FindGraphByName_head.
  destruct (GraphsNamed GraphName (UbergraphPages Blueprint)); reflexivity.
Qed.

Lemma AnalyzedNode_entry (bIncludeNodeDetails bIncludePinConnections : bool)
    (Node : UEdGraphNode) :
  EntryOfNode Node
    (FJsonValueObject (AnalyzedNode bIncludeNodeDetails bIncludePinConnections Node)).
Proof.
  eexists; split; [reflexivity|].
  unfold AnalyzedNode, BasicNodeInfo, SetStringField, SetNumberField, SetBoolField,
    SetArrayField.
  destruct bIncludeNodeDetails, bIncludePinConnections;
    repeat split;
    repeat (rewrite lookup_insert_ne by discriminate); apply lookup_insert_eq.
Qed.

Lemma AnalyzedNodeArray_entries (bIncludeNodeDetails bIncludePinConnections : bool)
    (TargetGraph : UEdGraph) :
  Forall2 EntryOfNode (SetNodes TargetGraph)
    (AnalyzedNodeArray bIncludeNodeDetails bIncludePinConnections TargetGraph).
Proof.
  unfold SetNodes, AnalyzedNodeArray.
  induction (Nodes TargetGraph) as [|[Node|] rest IH]; simpl.
  - constructor.
  - constructor; [apply AnalyzedNode_entry|exact IH].
  - exact IH.
Qed.

(** C6 (as amended).  [analyze_blueprint_graph] on a blueprint that loads,
    for the graph name given by 'graph_name' ("EventGraph" when it cannot be
    read, in particular when it is absent), names being compared without
    regard to the case of ASCII letters: the target is the first graph of
    that name among the event graphs (UbergraphPages), and a function graph
    only when no event graph has the name.  Without such a graph the reply is
    the error "Graph not found: <name>"; otherwise the reply's "graph_data"
    names the target graph and its "nodes" array has, in order, exactly one
    entry for each node of the target graph that is set. *)
Theorem C6_analyze_blueprint_graph (host : Host) (M : EditorModel) (s s1 : EditorState M)
    (Params : FJsonObject) (BlueprintPath : string) (Blueprint : UBlueprint) :
  TryGetStringField host Params "blueprint_path" = Some BlueprintPath ->
  perform M (LoadAsset BlueprintPath) s = (Some (ABlueprint Blueprint), s1) ->
  let GraphName := default "EventGraph" (TryGetStringField host Params "graph_name") in
  let r := run M (HandleCommand host "analyze_blueprint_graph" Params) s in
  (Params !! "graph_name" = None -> GraphName = "EventGraph") /\
  match (GraphsNamed GraphName (UbergraphPages Blueprint)
         ++ GraphsNamed GraphName (FunctionGraphs Blueprint))%list with
  | [] =>
      outcome r = Returned (CreateErrorResponse host ("Graph not found: " +:+ GraphName))
  | TargetGraph :: _ =>
      exists (ResultObj GraphData : FJsonObject) (NodeArray : list FJsonValue),
        outcome r = Returned ResultObj
        /\ ResultObj !! "graph_data" = Some (FJsonValueObject GraphData)
        /\ GraphData !! "graph_name"
           = Some (FJsonValueString (GetName (GraphObject TargetGraph)))
        /\ GraphData !! "nodes" = Some (FJsonValueArray NodeArray)
        /\ Forall2 EntryOfNode (SetNodes TargetGraph) NodeArray
  end.
Proof.
  intros Hpath Hload GraphName r.
  split.
  { intros Habsent. unfold GraphName.
    rewrite (TryGetStringField_absent host _ _ Habsent). reflexivity. }
  subst r.
  change (HandleCommand host "analyze_blueprint_graph" Params)
    with (HandleAnalyzeBlueprintGraph host Params).
  unfold HandleAnalyzeBlueprintGraph; rewrite Hpath; simpl.
  rewrite Hload; simpl.
  fold GraphName. rewrite FindTargetGraph_head.
  destruct (GraphsNamed GraphName (UbergraphPages Blueprint)
            ++ GraphsNamed GraphName (FunctionGraphs Blueprint))%list
    as [|TargetGraph others]; simpl; [reflexivity|].
  eexists _, _, _. split; [reflexivity|].
  unfold SetStringField, SetObjectField, SetBoolField, SetArrayField.
  split; [|split; [|split]].
  - rewrite lookup_insert_ne by discriminate. apply lookup_insert_eq.
  - repeat (rewrite lookup_insert_ne by discriminate). apply lookup_insert_eq.
  - rewrite lookup_insert_ne by discriminate. apply lookup_insert_eq.
  - apply AnalyzedNodeArray_entries.
Qed.

Lemma C6_analyze_blueprint_graph_witness :
  let Params : FJsonObject :=
    {[ "blueprint_path" := FJsonValueString "/Game/Blueprints/BP_Barrel" ]} in
  let r := run (Scripted BarrelProject)
             (HandleCommand PlainHost "analyze_blueprint_graph" Params) 0%nat in
  (Params !! "graph_name" = None -> "EventGraph" = "EventGraph") /\
  exists (ResultObj GraphData : FJsonObject) (NodeArray : list FJsonValue),
    outcome r = Returned ResultObj
    /\ ResultObj !! "graph_data" = Some (FJsonValueObject GraphData)
    /\ GraphData !! "graph_name" = Some (FJsonValueString "EventGraph")
    /\ GraphData !! "nodes" = Some (FJsonValueArray NodeArray)
    /\ Forall2 EntryOfNode [BeginPlayNode; PrintNode] NodeArray.
Proof.
  refine (C6_analyze_blueprint_graph PlainHost (Scripted BarrelProject) 0%nat 1%nat
            {[ "blueprint_path" := FJsonValueString "/Game/Blueprints/BP_Barrel" ]}
            "/Game/Blueprints/BP_Barrel" BP_Barrel _ _);
    reflexivity.
Defined.

(** C6 (as stated) fails: no graph of the sample blueprint is named
    "eventgraph", yet asking for that name does not yield the error "Graph
    not found: eventgraph"; the graph "EventGraph" is analyzed. *)
Lemma C6_graph_found_in_other_case :
  let Params : FJsonObject :=
    {[ "blueprint_path" := FJsonValueString "/Game/Blueprints/BP_Barrel";
       "graph_name" := FJsonValueString "eventgraph" ]} in
  let r := run (Scripted BarrelProject)
             (HandleCommand PlainHost "analyze_blueprint_graph" Params) 0%nat in
  Forall (fun Graph : UEdGraph => GetName (GraphObject Graph) <> "eventgraph")
    (omap id (UbergraphPages BP_Barrel ++ FunctionGraphs BP_Barrel))
  /\ (exists ResultObj GraphData : FJsonObject,
         outcome r = Returned ResultObj
         /\ ResultObj !! "success" = Some (FJsonValueBoolean true)
         /\ ResultObj !! "graph_data" = Some (FJsonValueObject GraphData)
         /\ GraphData !! "graph_name" = Some (FJsonValueString "EventGraph"))
  /\ outcome r <> Returned (CreateErrorResponse PlainHost "Graph not found: eventgraph").
Proof.
  cbv zeta. split; [|split].
  - repeat constructor; discriminate.
  - eexists _, _. repeat split.
  - intros H. apply (f_equal (fun o => match o with
                                       | Returned obj => obj !! "success"
                                       | Crashed => None
                                       end)) in H.
    vm_compute in H. discriminate H.
Qed.

(** The lookup on the sample blueprint: a function graph is found when no
    event graph has the name, whatever the case of the letters; a name that
    no graph has yields the error. *)
Example analyze_function_graph :
  FindTargetGraph BP_Barrel "explode" = Some ExplodeGraph
  /\ FindTargetGraph BP_Barrel "EventGraph" = Some EventGraph
  /\ outcome (run (Scripted BarrelProject)
                (HandleCommand PlainHost "analyze_blueprint_graph"
                   {[ "blueprint_path" := FJsonValueString "/Game/Blueprints/BP_Barrel";
                      "graph_name" := FJsonValueString "Construction" ]}) 0%nat)
     = Returned (CreateErrorResponse PlainHost "Graph not found: Construction").
Proof. repeat split. Qed.

(* ===================================================================== *)
(** ** Running sequences                                                  *)
(* ===================================================================== *)

(** Running [bind p f] runs [p] and then, unless [p] crashed, [f] on its
    result. *)
Lemma run_bind {U T : Type} (M : EditorModel) (p : Editor U) (f : U -> Editor T)
    (s : EditorState M) :
  run M (bind p f) s
  = let r1 := run M p s in
    match outcome r1 with
    | Returned u =>
        let r2 := run M (f u) (final r1) in
        {| outcome := outcome r2; final := final r2;
           calls := calls r1 ++ calls r2; logged := logged r1 ++ logged r2 |}
    | Crashed =>
        {| outcome := Crashed; final := final r1;
           calls := calls r1; logged := logged r1 |}
    end.
Proof.
  revert s; induction p as [u| |v fmt args k IH|X c k IH]; intros s; simpl.
  - destruct (run M (f u) s); reflexivity.
  - reflexivity.
  - rewrite IH; cbv zeta. destruct (run M k s) as [[u|] s' cs ls]; reflexivity.
  - destruct (perform M c s) as [x s']; simpl.
    rewrite IH; cbv zeta. destruct (run M (k x) s') as [[u|] s'' cs ls]; reflexivity.
Qed.

(** The rules of [wp], one per way of building a handler. *)
Lemma wp_Ret {T : Type} (M : EditorModel) (t : T) (s : EditorState M)
    (Q : Outcome T -> EditorState M -> list EngineEvent -> Prop) :
  Q (Returned t) s [] -> wp M (Ret t) s Q.
Proof. exact (fun H => H). Qed.

Lemma wp_NullDereference {T : Type} (M : EditorModel) (s : EditorState M)
    (Q : Outcome T -> EditorState M -> list EngineEvent -> Prop) :
  Q Crashed s [] -> wp M NullDereference s Q.
Proof. exact (fun H => H). Qed.

Lemma wp_UE_LOG {T : Type} (M : EditorModel) (v : ELogVerbosity) (fmt : string)
    (args : list LogArg) (k : Editor T) (s : EditorState M)
    (Q : Outcome T -> EditorState M -> list EngineEvent -> Prop) :
  wp M k s Q -> wp M (UE_LOG v fmt args k) s Q.
Proof. exact (fun H => H). Qed.

Lemma wp_Call {T X : Type} (M : EditorModel) (c : EngineCall X) (k : X -> Editor T)
    (s : EditorState M) (Q : Outcome T -> EditorState M -> list EngineEvent -> Prop) :
  (forall (x : X) (s' : EditorState M),
      perform M c s = (x, s') ->
      wp M (k x) s' (fun o f cs => Q o f (Called c x :: cs))) ->
  wp M (Call c k) s Q.
Proof.
  unfold wp; simpl; intros H.
  destruct (perform M c s) as [x s'] eqn:Hperf. exact (H x s' eq_refl).
Qed.

Lemma wp_bind {U T : Type} (M : EditorModel) (p : Editor U) (f : U -> Editor T)
    (s : EditorState M) (Q : Outcome T -> EditorState M -> list EngineEvent -> Prop) :
  wp M p s (fun o s' cs =>
              match o with
              | Returned u => wp M (f u) s' (fun o' f' cs' => Q o' f' (cs ++ cs'))
              | Crashed => Q Crashed s' cs
              end) ->
  wp M (bind p f) s Q.
Proof.
  unfold wp; rewrite run_bind; cbv zeta.
  destruct (outcome (run M p s)); exact (fun H => H).
Qed.

Lemma wp_consequence {T : Type} (M : EditorModel) (p : Editor T) (s : EditorState M)
    (Q Q' : Outcome T -> EditorState M -> list EngineEvent -> Prop) :
  wp M p s Q -> (forall o f cs, Q o f cs -> Q' o f cs) -> wp M p s Q'.
Proof. unfold wp; intros H HQ; apply HQ, H. Qed.

Ltac wp_step :=
  match goal with
  | |- wp _ (Ret _) _ _ => apply wp_Ret
  | |- wp _ (ReturnError _ _) _ _ => unfold ReturnError; apply wp_Ret
  | |- wp _ NullDereference _ _ => apply wp_NullDereference
  | |- wp _ (UE_LOG _ _ _ _) _ _ => apply wp_UE_LOG
  | |- wp _ (Call _ _) _ _ => apply wp_Call; intros ? ? ?
  end.

Lemma wp_run {T : Type} (M : EditorModel) (p : Editor T) (s : EditorState M)
    (Q : Outcome T -> EditorState M -> list EngineEvent -> Prop) :
  wp M p s Q -> Q (outcome (run M p s)) (final (run M p s)) (calls (run M p s)).
Proof. exact (fun H => H). Qed.

(** Turns a goal about [run M p s] into a goal [wp M p s Q]. *)
Ltac by_wp :=
  cbv zeta;
  match goal with
  | |- context [run ?M ?p ?s] =>
      pattern (outcome (run M p s)), (final (run M p s)), (calls (run M p s));
      apply wp_run
  end.

Ltac wp_norm := cbn [bind call log when fst snd negb default from_option id].

Tactic Notation "wp_call" ident(x) ident(s) ident(H) :=
  apply wp_Call; intros x s H.

Ltac wp_auto :=
  repeat first
    [ progress wp_norm
    | wp_step
    | match goal with
      | |- wp _ (match ?x with _ => _ end) _ _ => destruct x eqn:?
      end ].

(* ===================================================================== *)
(** ** get_available_materials                                            *)
(* ===================================================================== *)

Lemma prefix_empty (s : string) : String.prefix "" s = true.
Proof. destruct s; reflexivity. Qed.

Lemma ToLowerChar_slash (c : ascii) :
  String.prefix "/" (String (FString.ToLowerChar c) "") = String.prefix "/" (String c "").
Proof. destruct c as [[] [] [] [] [] [] [] []]; reflexivity. Qed.

Lemma ToLowerChar_eq_slash (c : ascii) :
  (FString.ToLowerChar c =? FString.ToLowerChar "/")%char = true -> c = "/"%char.
Proof.
  destruct c as [[] [] [] [] [] [] [] []]; intros H;
    first [reflexivity | vm_compute in H; discriminate H].
Qed.

Lemma prefix_slash_cons (c : ascii) (r r' : string) :
  String.prefix "/" (String c r) = String.prefix "/" (String c r').
Proof.
  change (String.prefix "/" (String c r))
    with (if ascii_dec "/" c then String.prefix "" r else false).
  change (String.prefix "/" (String c r'))
    with (if ascii_dec "/" c then String.prefix "" r' else false).
  destruct (ascii_dec "/" c); [rewrite !prefix_empty|]; reflexivity.
Qed.

Lemma StartsWith_slash (p : string) : FString.StartsWith p "/" = String.prefix "/" p.
Proof.
  unfold FString.StartsWith. destruct p as [|c r]; [reflexivity|].
  change (FString.ToLower "/") with "/". cbn [FString.ToLower].
  rewrite (prefix_slash_cons _ _ ""), ToLowerChar_slash. apply prefix_slash_cons.
Qed.

Lemma prefix_slash_append (p q : string) :
  String.prefix "/" p = true -> String.prefix "/" (p +:+ q) = true.
Proof.
  destruct p as [|c r]; [discriminate|]. intros H.
  change (String c r +:+ q) with (String c (r +:+ q)).
  rewrite (prefix_slash_cons _ _ r). exact H.
Qed.

Lemma prefix_slash_slash (p : string) : String.prefix "/" ("/" +:+ p) = true.
Proof.
  change ("/" +:+ p) with (String "/" p). rewrite (prefix_slash_cons _ _ ""). reflexivity.
Qed.

Lemma append_empty_r (p : string) : p +:+ "" = p.
Proof.
  induction p as [|c r IH]; [reflexivity|].
  change (String c r +:+ "") with (String c (r +:+ "")). rewrite IH. reflexivity.
Qed.

Lemma EndsWith_slash_cons (c c' : ascii) (r : string) :
  FString.EndsWith (String c (String c' r)) "/" = FString.EndsWith (String c' r) "/".
Proof.
  unfold FString.EndsWith. cbn [String.length Nat.leb].
  replace (S (S (String.length r)) - 1)%nat with (S (String.length r)) by lia.
  replace (S (String.length r) - 1)%nat with (String.length r) by lia.
  reflexivity.
Qed.

Lemma EndsWith_slash (p : string) :
  FString.EndsWith p "/" = true -> exists Body : string, p = Body +:+ "/".
Proof.
  induction p as [|c r IH]; [discriminate|].
  destruct r as [|c' r'].
  - intros H. exists "".
    unfold FString.EndsWith in H. cbn in H.
    destruct (FString.ToLowerChar c =? FString.ToLowerChar "/")%char eqn:Hc;
      [|discriminate H].
    apply ToLowerChar_eq_slash in Hc. subst c. reflexivity.
  - rewrite EndsWith_slash_cons. intros H. destruct (IH H) as [Body ->].
    exists (String c Body). reflexivity.
Qed.

Lemma EndsWith_LastIsSlash (p : string) : FString.EndsWith p "/" = LastIsSlash p.
Proof.
  induction p as [|c r IH]; [reflexivity|].
  destruct r as [|c' r'].
  - destruct c as [[] [] [] [] [] [] [] []]; reflexivity.
  - rewrite EndsWith_slash_cons.
    change (LastIsSlash (String c (String c' r'))) with (LastIsSlash (String c' r')).
    exact IH.
Qed.

Lemma NormalizeSearchPath_normalized (Given : string) :
  NormalizedFrom Given (NormalizeSearchPath Given).
Proof.
  unfold NormalizedFrom, NormalizeSearchPath, WithSlashes. rewrite StartsWith_slash.
  destruct (String.prefix "/" Given) eqn:Hpre; cbn [negb].
  - rewrite EndsWith_LastIsSlash.
    destruct (LastIsSlash Given) eqn:Hsuf; cbn [negb]; (split; [reflexivity|]).
    + split; [exact Hpre|apply EndsWith_slash; rewrite EndsWith_LastIsSlash; exact Hsuf].
    + split; [apply prefix_slash_append, Hpre|exists Given; reflexivity].
  - rewrite EndsWith_LastIsSlash.
    destruct (LastIsSlash ("/" +:+ Given)) eqn:Hsuf; cbn [negb]; (split; [reflexivity|]).
    + split; [apply prefix_slash_slash
             |apply EndsWith_slash; rewrite EndsWith_LastIsSlash; exact Hsuf].
    + split; [apply prefix_slash_append, prefix_slash_slash
             |exists ("/" +:+ Given); reflexivity].
Qed.

(** The normalized path is determined by the given one. *)
Example NormalizedFrom_samples :
  WithSlashes "Game/Materials" = "/Game/Materials/"
  /\ WithSlashes "/Game/Materials" = "/Game/Materials/"
  /\ WithSlashes "Game/Materials/" = "/Game/Materials/"
  /\ forall Path : string, NormalizedFrom "/Game/" Path -> Path = "/Game/".
Proof.
  repeat split. intros Path (-> & _). reflexivity.
Qed.

Lemma NormalizeSearchPath_not_empty (Given : string) :
  FString.IsEmpty (NormalizeSearchPath Given) = false.
Proof.
  destruct (NormalizeSearchPath_normalized Given) as (_ & Hpre & _).
  destruct (NormalizeSearchPath Given); [discriminate Hpre|reflexivity].
Qed.




Lemma MaterialsToJson_run (M : EditorModel) (AssetDataArray : list FAssetData) :
  forall (MaterialArray : list FJsonValue) (s : EditorState M),
    let r := run M (MaterialsToJson AssetDataArray MaterialArray) s in
    outcome r
    = Returned (MaterialArray
                ++ map (fun Data => FJsonValueObject (MaterialToJson Data)) AssetDataArray)
    /\ calls r = []
    /\ final r = s.
Proof.
  induction AssetDataArray as [|Data rest IH]; intros MaterialArray s; simpl.
  - rewrite app_nil_r. repeat split.
  - destruct (IH (MaterialArray ++ [FJsonValueObject (MaterialToJson Data)])%list s)
      as (Hout & Hcalls & Hfinal).
    rewrite Hout, <- app_assoc. repeat split; assumption.
Qed.


Lemma MaterialsToJson_wp (M : EditorModel) (AssetDataArray : list FAssetData)
    (MaterialArray : list FJsonValue) (s : EditorState M) :
  wp M (MaterialsToJson AssetDataArray MaterialArray) s
    (fun o f cs =>
       o = Returned (MaterialArray
                     ++ map (fun Data => FJsonValueObject (MaterialToJson Data))
                          AssetDataArray)
       /\ cs = [] /\ f = s).
Proof. exact (MaterialsToJson_run M AssetDataArray MaterialArray s). Qed.






(** The manual pass on the sample project: "M_Steel" is known to the
    registry and is not added again, "M_Glass" is added, the texture is
    not looked at. *)
Example available_materials_in_sample_project :
  let r := run (Scripted MaterialsProject)
             (HandleCommand PlainHost "get_available_materials" ∅) 0%nat in
  exists ResultObj : FJsonObject,
    outcome r = Returned ResultObj
    /\ ResultObj !! "materials"
       = Some (FJsonValueArray [FJsonValueObject (MaterialToJson SteelData);
                                FJsonValueObject (MaterialToJson GlassData)])
    /\ ResultObj !! "count" = Some (FJsonValueNumber (Int32ToDouble 2))
    /\ ResultObj !! "search_path_used" = Some (FJsonValueString "/Game/").
Proof. eexists; repeat split. Qed.

(* ===================================================================== *)
(** ** create_blueprint: the parent class                                 *)
(* ===================================================================== *)

Lemma StartsWith_A (Given : string) : FString.StartsWith Given "A" = BeginsWithLetterA Given.
Proof.
  destruct Given as [|c r]; [reflexivity|].
  unfold FString.StartsWith, BeginsWithLetterA.
  change (FString.ToLower "A") with "a". cbn [FString.ToLower].
  change (String.prefix "a" (String (FString.ToLowerChar c) (FString.ToLower r)))
    with (if ascii_dec "a" (FString.ToLowerChar c)
          then String.prefix "" (FString.ToLower r) else false).
  rewrite prefix_empty.
  destruct c as [[] [] [] [] [] [] [] []]; reflexivity.
Qed.

(** The parent-class block for a value that names no class: both loads are
    tried on the normalized name and, when both fail, [AActor] is
    selected. *)
Lemma SelectParentClass_fallback_wp (M : EditorModel) (s s1 s2 : EditorState M)
    (Given : string) :
  FString.IsEmpty Given = false ->
  ParentClassName Given ==? "APawn" = false ->
  ParentClassName Given ==? "AActor" = false ->
  perform M (LoadClass_AActor ("/Script/Engine." +:+ ParentClassName Given)) s = (None, s1) ->
  perform M (LoadClass_AActor ("/Script/Game." +:+ ParentClassName Given)) s1 = (None, s2) ->
  wp M (SelectParentClass Given) s
    (fun o f cs =>
       o = Returned AActor_StaticClass
       /\ f = s2
       /\ cs = [Called (LoadClass_AActor ("/Script/Engine." +:+ ParentClassName Given)) None;
                Called (LoadClass_AActor ("/Script/Game." +:+ ParentClassName Given)) None]).
Proof.
  intros Hgiven Hpawn Hactor Hengine Hgame.
  unfold SelectParentClass. rewrite Hgiven, StartsWith_A.
  fold (ParentClassName Given). rewrite Hpawn, Hactor. wp_norm.
  apply wp_Call. intros FoundClass s1' Hengine'.
  rewrite Hengine in Hengine'. injection Hengine' as <- <-. wp_norm.
  apply wp_Call. intros FoundClass s2' Hgame'.
  rewrite Hgame in Hgame'. injection Hgame' as <- <-. wp_norm.
  apply wp_UE_LOG. wp_norm. apply wp_Ret. repeat split.
Qed.

Lemma SelectParentClass_prefixes (Given : string) :
  FString.IsEmpty Given = false ->
  BeginsWithLetterA Given = false ->
  SelectParentClass Given = SelectParentClass ("A" +:+ Given).
Proof.
  intros Hgiven Hletter. unfold SelectParentClass.
  rewrite Hgiven, !StartsWith_A, Hletter. reflexivity.
Qed.

(** C10 (as amended).  [create_blueprint] with a 'name' whose asset does
    not exist yet and a non-empty 'parent_class' that names no class (it is
    neither "APawn" nor "AActor" after normalization, and the two loads the
    handler tries for it, of "/Script/Engine.<class>" and then of
    "/Script/Game.<class>", both fail; what other classes the editor can
    load does not matter): the handler does not reject the value.  It gives
    the factory [AActor] as parent class and replies with the "name" and "path" of the
    new blueprint when the factory returns one; the only error left is
    "Failed to create blueprint" when the factory returns none.  The class
    name looked up is the value itself when it begins with the letter "A"
    (capital or small); any other non-empty value is treated exactly as the
    value with "A" put in front. *)
Theorem C10_unknown_parent_class (host : Host) (M : EditorModel)
    (s s1 s2 s3 s4 : EditorState M) (Params : FJsonObject) (BlueprintName Given : string)
    (NewFactory : UBlueprintFactory) :
  TryGetStringField host Params "name" = Some BlueprintName ->
  TryGetStringField host Params "parent_class" = Some Given ->
  FString.IsEmpty Given = false ->
  ParentClassName Given ==? "APawn" = false ->
  ParentClassName Given ==? "AActor" = false ->
  perform M (DoesAssetExist ("/Game/Blueprints/" +:+ BlueprintName)) s = (false, s1) ->
  perform M NewObject_UBlueprintFactory s1 = (NewFactory, s2) ->
  perform M (LoadClass_AActor ("/Script/Engine." +:+ ParentClassName Given)) s2
  = (None, s3) ->
  perform M (LoadClass_AActor ("/Script/Game." +:+ ParentClassName Given)) s3
  = (None, s4) ->
  let r := run M (HandleCommand host "create_blueprint" Params) s in
  (exists (Factory : UBlueprintFactory) (Package : UPackage) (Created : option UObject),
      In (Called (LoadClass_AActor ("/Script/Engine." +:+ ParentClassName Given)) None)
         (calls r)
      /\ In (Called (LoadClass_AActor ("/Script/Game." +:+ ParentClassName Given)) None)
            (calls r)
      /\ In (Called (FactoryCreateNew Factory UBlueprint_StaticClass Package BlueprintName
                       [RF_Standalone; RF_Public]) Created) (calls r)
      /\ Factory_ParentClass Factory = AActor_StaticClass
      /\ outcome r
         = Returned
             (match Cast_UBlueprint Created with
              | Some _ =>
                  SetStringField "path" ("/Game/Blueprints/" +:+ BlueprintName)
                    (SetStringField "name" BlueprintName ∅)
              | None => CreateErrorResponse host "Failed to create blueprint"
              end))
  /\ (forall Value : string,
        FString.IsEmpty Value = false ->
        BeginsWithLetterA Value = false ->
        ParentClassName Value = "A" +:+ Value
        /\ SelectParentClass Value = SelectParentClass ("A" +:+ Value))
  /\ (forall Value : string,
        BeginsWithLetterA Value = true -> ParentClassName Value = Value).
Proof.
  intros Hname Hparent Hgiven Hpawn Hactor Hnew Hfactory Hengine Hgame.
  change (HandleCommand host "create_blueprint" Params)
    with (HandleCreateBlueprint host Params).
  split;
    [|split;
      [intros Value Hvalue Hletter; split;
       [unfold ParentClassName; rewrite Hletter; reflexivity
       |apply SelectParentClass_prefixes; assumption]
      |unfold ParentClassName; intros Value ->; reflexivity]].
  by_wp. unfold HandleCreateBlueprint. rewrite Hname, Hparent. wp_norm.
  apply wp_Call. intros bExists s1' Hexists.
  rewrite Hnew in Hexists. injection Hexists as <- <-. wp_norm.
  apply wp_Call. intros Factory s2' Hfactory'.
  rewrite Hfactory in Hfactory'. injection Hfactory' as <- <-. wp_norm.
  apply wp_bind. eapply wp_consequence;
    [apply (SelectParentClass_fallback_wp M s2 s3 s4); assumption|].
  intros o f cs (-> & -> & ->). wp_norm.
  wp_call Package s5 Hpackage. wp_norm. wp_call Created s6 Hcreated. wp_norm.
  destruct (Cast_UBlueprint Created) eqn:Hcast; wp_norm.
  - wp_step. wp_norm. wp_step. wp_norm. wp_step.
    eexists _, Package, Created. rewrite Hcast. cbn. intuition eauto.
  - wp_step. eexists _, Package, Created. rewrite Hcast. cbn. intuition eauto.
Qed.

Lemma C10_unknown_parent_class_witness :
  let Params : FJsonObject :=
    {[ "name" := FJsonValueString "BP_Robot"; "parent_class" := FJsonValueString "Robot" ]} in
  let r := run (Scripted CharacterProject)
             (HandleCommand PlainHost "create_blueprint" Params) 0%nat in
  (exists (Factory : UBlueprintFactory) (Package : UPackage) (Created : option UObject),
      In (Called (LoadClass_AActor "/Script/Engine.ARobot") None) (calls r)
      /\ In (Called (LoadClass_AActor "/Script/Game.ARobot") None) (calls r)
      /\ In (Called (FactoryCreateNew Factory UBlueprint_StaticClass Package "BP_Robot"
                       [RF_Standalone; RF_Public]) Created) (calls r)
      /\ Factory_ParentClass Factory = AActor_StaticClass
      /\ outcome r
         = Returned
             (match Cast_UBlueprint Created with
              | Some _ =>
                  SetStringField "path" "/Game/Blueprints/BP_Robot"
                    (SetStringField "name" "BP_Robot" ∅)
              | None => CreateErrorResponse PlainHost "Failed to create blueprint"
              end))
  /\ (forall Value : string,
        FString.IsEmpty Value = false ->
        BeginsWithLetterA Value = false ->
        ParentClassName Value = "A" +:+ Value
        /\ SelectParentClass Value = SelectParentClass ("A" +:+ Value))
  /\ (forall Value : string,
        BeginsWithLetterA Value = true -> ParentClassName Value = Value).
Proof.
  refine (C10_unknown_parent_class PlainHost (Scripted CharacterProject)
            0%nat 1%nat 2%nat 3%nat 4%nat
            {[ "name" := FJsonValueString "BP_Robot";
               "parent_class" := FJsonValueString "Robot" ]}
            "BP_Robot" "Robot"
            {| FactoryPtr := 1; Factory_ParentClass := AActor_StaticClass |}
            _ _ _ _ _ _ _ _ _);
    reflexivity.
Defined.

(** In that project a class does load, which the handler then gives the
    factory; the value "Robot" falls back to [AActor] all the same. *)
Example create_blueprint_with_loaded_parent :
  let r := run (Scripted CharacterProject)
             (HandleCommand PlainHost "create_blueprint"
                {[ "name" := FJsonValueString "BP_Hero";
                   "parent_class" := FJsonValueString "Character" ]}) 0%nat in
  outcome r
  = Returned (SetStringField "path" "/Game/Blueprints/BP_Hero"
                (SetStringField "name" "BP_Hero" ∅))
  /\ In (Called (LoadClass_AActor "/Script/Engine.ACharacter") (Some (SomeClass "Character")))
        (calls r)
  /\ exists (Factory : UBlueprintFactory) (Package : UPackage) (Created : option UObject),
       In (Called (FactoryCreateNew Factory UBlueprint_StaticClass Package "BP_Hero"
                     [RF_Standalone; RF_Public]) Created) (calls r)
       /\ Factory_ParentClass Factory = SomeClass "Character".
Proof.
  cbv zeta. split; [reflexivity|]. split; [vm_compute; tauto|].
  eexists _, _, _. split; [vm_compute; do 4 right; left; reflexivity|reflexivity].
Qed.

(** The same call run on the sample project: the blueprint is created with
    [AActor] as parent class. *)
Example create_blueprint_with_unknown_parent :
  let r := run (Scripted WorkshopProject)
             (HandleCommand PlainHost "create_blueprint"
                {[ "name" := FJsonValueString "BP_Robot";
                   "parent_class" := FJsonValueString "Robot" ]}) 0%nat in
  outcome r
  = Returned (SetStringField "path" "/Game/Blueprints/BP_Robot"
                (SetStringField "name" "BP_Robot" ∅))
  /\ calls r
     = [Called (DoesAssetExist "/Game/Blueprints/BP_Robot") false;
        Called NewObject_UBlueprintFactory
          {| FactoryPtr := 1; Factory_ParentClass := AActor_StaticClass |};
        Called (LoadClass_AActor "/Script/Engine.ARobot") None;
        Called (LoadClass_AActor "/Script/Game.ARobot") None;
        Called (CreatePackage "/Game/Blueprints/BP_Robot")
          {| PackagePtr := 2; PackageName := "/Game/Blueprints/BP_Robot" |};
        Called (FactoryCreateNew
                  {| FactoryPtr := 1; Factory_ParentClass := AActor_StaticClass |}
                  UBlueprint_StaticClass
                  {| PackagePtr := 2; PackageName := "/Game/Blueprints/BP_Robot" |}
                  "BP_Robot" [RF_Standalone; RF_Public])
          (Some (ABlueprint (NewBlueprint "BP_Robot" AActor_StaticClass)));
        Called (AssetCreated (NewBlueprint "BP_Robot" AActor_StaticClass)) tt;
        Called (MarkPackageDirty
                  {| PackagePtr := 2; PackageName := "/Game/Blueprints/BP_Robot" |}) true].
Proof. split; reflexivity. Qed.

(** C10 (as stated) fails twice.  The value "robot" names no class and does
    not start with "A", yet the handler returns an error when the factory
    returns no blueprint.  The value "actor" does not start with "A" either,
    and it is looked up as it is, without an "A" in front. *)
Lemma C10_error_and_small_letter :
  let Robot : FJsonObject :=
    {[ "name" := FJsonValueString "BP_Robot"; "parent_class" := FJsonValueString "robot" ]} in
  let Actor : FJsonObject :=
    {[ "name" := FJsonValueString "BP_Robot"; "parent_class" := FJsonValueString "actor" ]} in
  let r1 := run (Scripted (@EmptyProject))
              (HandleCommand PlainHost "create_blueprint" Robot) 0%nat in
  let r2 := run (Scripted WorkshopProject)
              (HandleCommand PlainHost "create_blueprint" Actor) 0%nat in
  (In (Called (LoadClass_AActor "/Script/Engine.Arobot") None) (calls r1)
   /\ In (Called (LoadClass_AActor "/Script/Game.Arobot") None) (calls r1)
   /\ outcome r1 = Returned (CreateErrorResponse PlainHost "Failed to create blueprint"))
  /\ (String.prefix "A" "actor" = false
      /\ In (Called (LoadClass_AActor "/Script/Engine.actor") None) (calls r2)
      /\ ~ In (Called (LoadClass_AActor "/Script/Engine.Aactor") None) (calls r2)).
Proof.
  cbv zeta. split; [split; [|split]|split; [|split]].
  - vm_compute. tauto.
  - vm_compute. tauto.
  - reflexivity.
  - reflexivity.
  - vm_compute. tauto.
  - vm_compute. intros H.
    repeat (destruct H as [H|H]; [discriminate H|]). exact H.
Qed.

(* ===================================================================== *)
(** ** set_mesh_material_color                                            *)
(* ===================================================================== *)

Lemma SFltb_SFleb (a b : spec_float) : SFltb a b = true -> SFleb a b = true.
Proof. unfold SFltb, SFleb. destruct (SFcompare a b) as [[]|]; easy. Qed.

(** [FMath::Clamp(x, 0, 1)] lies in the closed interval [0, 1], for every
    [x], including infinities and NaN. *)
Lemma Clamp_unit_interval (x : double) :
  SFleb Double_0 (FMath.Clamp x Double_0 Double_1) = true
  /\ SFleb (FMath.Clamp x Double_0 Double_1) Double_1 = true.
Proof.
  unfold FMath.Clamp, FMath.Max, FMath.Min.
  destruct (SFltb x Double_1) eqn:Hhi.
  - destruct (SFltb Double_0 x) eqn:Hlo.
    + split; apply SFltb_SFleb; assumption.
    + split; reflexivity.
  - split; reflexivity.
Qed.

(** A value strictly between 0 and 1 is left as it is. *)
Lemma Clamp_inside (x : double) :
  SFltb Double_0 x = true -> SFltb x Double_1 = true ->
  FMath.Clamp x Double_0 Double_1 = x.
Proof.
  intros Hlo Hhi. unfold FMath.Clamp, FMath.Max, FMath.Min. rewrite Hhi, Hlo. reflexivity.
Qed.

(** C5 (as amended).  A [set_mesh_material_color] call that reaches the
    colour (its blueprint is found and its component is a primitive
    component of the construction script): unless 'color' is an array of
    exactly four values, the handler returns the error "'color' must be an
    array of 4 float values [R, G, B, A]" and has called nothing but
    [FindBlueprint].  Otherwise it returns; when a material was obtained and
    instanced the blueprint is marked as modified and the reply has
    "success" = true and a "color" array of exactly four numbers, each the
    corresponding input component clamped to [0, 1] and rounded to single
    precision; the clamped component lies in the closed interval [0, 1]. *)
Theorem C5_set_mesh_material_color (host : Host) (M : EditorModel) (s s1 : EditorState M)
    (Params : FJsonObject) (BlueprintName ComponentName : string) (Blueprint : UBlueprint)
    (Script : USimpleConstructionScript) (ComponentNode : USCS_Node)
    (PrimComponent : UActorComponent) :
  TryGetStringField host Params "blueprint_name" = Some BlueprintName ->
  TryGetStringField host Params "component_name" = Some ComponentName ->
  perform M (FindBlueprint BlueprintName) s = (Some Blueprint, s1) ->
  SimpleConstructionScript Blueprint = Some Script ->
  FindComponentNode (GetAllNodes Script) ComponentName = Some ComponentNode ->
  Cast_UPrimitiveComponent (ComponentTemplate ComponentNode) = Some PrimComponent ->
  let r := run M (HandleCommand host "set_mesh_material_color" Params) s in
  match TryGetArrayField Params "color" with
  | Some [V0; V1; V2; V3] =>
      (exists ResultObj : FJsonObject,
          outcome r = Returned ResultObj
          /\ (MaterialFailure host ResultObj
              \/ (In (Called (MarkBlueprintAsModified Blueprint) tt) (calls r)
                  /\ ResultObj !! "success" = Some (FJsonValueBoolean true)
                  /\ ResultObj !! "color"
                     = Some (FJsonValueArray
                               [ColorEntry host V0; ColorEntry host V1;
                                ColorEntry host V2; ColorEntry host V3]))))
      /\ Forall (fun Value =>
                   SFleb Double_0 (Clamped host Value) = true
                   /\ SFleb (Clamped host Value) Double_1 = true)
           [V0; V1; V2; V3]
  | _ =>
      outcome r
      = Returned (CreateErrorResponse host
                    "'color' must be an array of 4 float values [R, G, B, A]")
      /\ calls r = [Called (FindBlueprint BlueprintName) (Some Blueprint)]
  end.
Proof.
  intros Hbp Hcomp Hfind Hscript Hnode Hprim.
  change (HandleCommand host "set_mesh_material_color" Params)
    with (HandleSetMeshMaterialColor host Params).
  assert (Hreach :
    forall Q : Outcome FJsonObject -> EditorState M -> list EngineEvent -> Prop,
      wp M (SetMeshMaterialColor_FromColor host Params ComponentName Blueprint PrimComponent)
        s1 (fun o f cs => Q o f (Called (FindBlueprint BlueprintName) (Some Blueprint) :: cs)) ->
      wp M (HandleSetMeshMaterialColor host Params) s Q).
  { intros Q HQ. unfold HandleSetMeshMaterialColor. rewrite Hbp, Hcomp. wp_norm.
    wp_call Found s' Hfound. rewrite Hfind in Hfound. injection Hfound as <- <-.
    rewrite Hscript, Hnode, Hprim. exact HQ. }
  destruct (TryGetArrayField Params "color")
    as [[|V0 [|V1 [|V2 [|V3 [|V4 rest]]]]]|] eqn:Hcolor.
  all: try (by_wp; apply Hreach; unfold SetMeshMaterialColor_FromColor; rewrite Hcolor;
            try match goal with
                | |- context [negb (Z.of_nat (length ?l) =? 4)] =>
                    replace (negb (Z.of_nat (length l) =? 4)) with true
                      by (symmetry; apply negb_true_iff, Z.eqb_neq; cbn [length]; lia)
                end;
            wp_step; split; reflexivity).
  split; [|repeat constructor; apply Clamp_unit_interval].
  by_wp; apply Hreach; unfold SetMeshMaterialColor_FromColor; rewrite Hcolor.
  cbv zeta. change (negb (Z.of_nat (length [V0; V1; V2; V3]) =? 4)) with false.
  cbv iota.
  wp_auto;
    (eexists; split; [reflexivity|]);
    first
      [ left; unfold MaterialFailure;
        first [ left; eexists; reflexivity
              | right; left; reflexivity
              | right; right; reflexivity ]
      | right;
        repeat match goal with x : unit |- _ => destruct x end;
        split; [simpl; tauto|];
        unfold SetBoolField, SetArrayField;
        split; [apply lookup_insert_eq|];
        rewrite lookup_insert_ne by discriminate; rewrite lookup_insert_eq;
        reflexivity ].
Qed.

Lemma C5_set_mesh_material_color_witness :
  let r := run (Scripted LampProject)
             (HandleCommand PlainHost "set_mesh_material_color" LampColor) 0%nat in
  (exists ResultObj : FJsonObject,
      outcome r = Returned ResultObj
      /\ (MaterialFailure PlainHost ResultObj
          \/ (In (Called (MarkBlueprintAsModified BP_Lamp) tt) (calls r)
              /\ ResultObj !! "success" = Some (FJsonValueBoolean true)
              /\ ResultObj !! "color"
                 = Some (FJsonValueArray
                           [ColorEntry PlainHost (FJsonValueNumber Double_0_1);
                            ColorEntry PlainHost (FJsonValueNumber Double_0_5);
                            ColorEntry PlainHost (FJsonValueNumber Double_2);
                            ColorEntry PlainHost (FJsonValueNumber Double_minus_1)]))))
  /\ Forall (fun Value =>
               SFleb Double_0 (Clamped PlainHost Value) = true
               /\ SFleb (Clamped PlainHost Value) Double_1 = true)
       [FJsonValueNumber Double_0_1; FJsonValueNumber Double_0_5;
        FJsonValueNumber Double_2; FJsonValueNumber Double_minus_1].
Proof.
  refine (C5_set_mesh_material_color PlainHost (Scripted LampProject) 0%nat 1%nat
            LampColor "BP_Lamp" "Shade" BP_Lamp
            {| ScriptPtr := 114; GetAllNodes := [None; Some ShadeNode];
               GetDefaultSceneRootNode := None |}
            ShadeNode Shade _ _ _ _ _ _);
    reflexivity.
Defined.

(** C5 (as stated) fails: for the colour [0.1, 0.5, 2, -1] the call
    succeeds and the reply's "color" is [0.100000001490116..., 0.5, 1, 0].
    The first entry is the float nearest to 0.1, not the input component
    clamped to [0, 1], which is the input 0.1 itself. *)
Lemma C5_color_is_rounded_to_float :
  let r := run (Scripted LampProject)
             (HandleCommand PlainHost "set_mesh_material_color" LampColor) 0%nat in
  exists ResultObj : FJsonObject,
    outcome r = Returned ResultObj
    /\ ResultObj !! "success" = Some (FJsonValueBoolean true)
    /\ ResultObj !! "color"
       = Some (FJsonValueArray
                 [FJsonValueNumber Float_0_1_as_double; FJsonValueNumber Double_0_5;
                  FJsonValueNumber Double_1; FJsonValueNumber Double_0])
    /\ FMath.Clamp Double_0_1 Double_0 Double_1 = Double_0_1
    /\ Float_0_1_as_double <> Double_0_1.
Proof.
  eexists; split; [reflexivity|].
  split; [reflexivity|split; [reflexivity|split; [reflexivity|]]].
  intros H. apply (f_equal (fun d => match d with
                                     | S754_finite _ m _ => Pos.eqb m 7205759403792794
                                     | _ => true
                                     end)) in H.
  vm_compute in H. discriminate H.
Qed.

(* ===================================================================== *)
(** ** The dispatcher: names are compared ignoring case                   *)
(* ===================================================================== *)

Lemma Equals_refl (a : string) : a ==? a = true.
Proof. apply String.eqb_refl. Qed.

Lemma Equals_ToLower (a b : string) :
  a ==? b = true -> FString.ToLower a = FString.ToLower b.
Proof. unfold FString.Equals. apply String.eqb_eq. Qed.

Lemma SelectHandler_Some (CommandType : string) (h : Handler) :
  SelectHandler CommandType = Some h ->
  exists Name : string,
    In Name RecognizedCommands
    /\ CommandType ==? Name = true
    /\ SelectHandler Name = Some h.
Proof.
  unfold SelectHandler at 1; intros H.
  repeat match type of H with
         | (if ?c ==? ?n then _ else _) = _ =>
             destruct (c ==? n) eqn:?;
             [injection H as <-; exists n;
              split; [unfold RecognizedCommands; simpl; tauto|];
              split; [assumption|reflexivity]|]
         end.
  discriminate H.
Qed.

Lemma SelectHandler_None (CommandType : string) :
  SelectHandler CommandType = None ->
  Forall (fun Name => CommandType ==? Name = false) RecognizedCommands.
Proof.
  unfold SelectHandler; intros H.
  repeat match type of H with
         | (if ?c ==? ?n then _ else _) = _ =>
             destruct (c ==? n) eqn:?; [discriminate H|]
         end.
  unfold RecognizedCommands. repeat constructor; assumption.
Qed.

Lemma SelectHandler_Equals (a b : string) :
  a ==? b = true -> SelectHandler a = SelectHandler b.
Proof.
  intros H. apply Equals_ToLower in H.
  unfold SelectHandler, FString.Equals. rewrite H. reflexivity.
Qed.

(** X1.  [HandleCommand] runs a handler exactly when the command type
    equals, ignoring the case of ASCII letters, one of the seventeen command
    names; it then behaves as it does on that name.  When it runs none, the
    command type matches none of the names. *)
Theorem HandleCommand_matches_a_name (host : Host) (CommandType : string)
    (Params : FJsonObject) :
  match SelectHandler CommandType with
  | Some h =>
      exists Name : string,
        In Name RecognizedCommands
        /\ CommandType ==? Name = true
        /\ SelectHandler Name = Some h
        /\ HandleCommand host CommandType Params = HandleCommand host Name Params
  | None =>
      Forall (fun Name => CommandType ==? Name = false) RecognizedCommands
      /\ HandleCommand host CommandType Params
         = Ret (CreateErrorResponse host ("Unknown blueprint command: " +:+ CommandType))
  end.
Proof.
  destruct (SelectHandler CommandType) as [h|] eqn:Hsel.
  - destruct (SelectHandler_Some _ _ Hsel) as (Name & Hin & Heq & Hname).
    exists Name. repeat split; try assumption.
    unfold HandleCommand. rewrite Hsel, Hname. reflexivity.
  - split; [apply SelectHandler_None, Hsel|].
    unfold HandleCommand. rewrite Hsel. reflexivity.
Qed.

(* ===================================================================== *)
(** ** The lookup loops                                                   *)
(* ===================================================================== *)

(** X2.  The component loop returns the first node of the construction
    script that is set and whose variable name equals the requested name,
    ignoring case; it returns none only when no set node has the name. *)
Theorem FindComponentNode_first_match (AllNodes : list (option USCS_Node))
    (ComponentName : string) :
  match FindComponentNode AllNodes ComponentName with
  | Some Node =>
      exists Before After : list (option USCS_Node),
        AllNodes = Before ++ Some Node :: After
        /\ GetVariableName Node ==? ComponentName = true
        /\ Forall (fun Other => GetVariableName Other ==? ComponentName = false)
             (omap id Before)
  | None =>
      Forall (fun Other => GetVariableName Other ==? ComponentName = false)
        (omap id AllNodes)
  end.
Proof.
  induction AllNodes as [|[Node|] rest IH]; cbn [FindComponentNode].
  - constructor.
  - destruct (GetVariableName Node ==? ComponentName) eqn:Hname.
    + exists [], rest. repeat split; [exact Hname|constructor].
    + destruct (FindComponentNode rest ComponentName) as [Found|].
      * destruct IH as (Before & After & -> & Hfound & Hbefore).
        exists (Some Node :: Before), After. repeat split; [exact Hfound|].
        cbn. constructor; assumption.
      * cbn. constructor; assumption.
  - destruct (FindComponentNode rest ComponentName) as [Found|].
    + destruct IH as (Before & After & -> & Hfound & Hbefore).
      exists (None :: Before), After. repeat split; assumption.
    + exact IH.
Qed.

(** X3.  The actor loop returns the first actor of the array that is set
    and whose name equals the requested name, ignoring case; it returns none
    only when no set actor has the name. *)
Theorem FindActorByName_first_match (AllActors : list (option AActor))
    (ActorName : string) :
  match FindActorByName AllActors ActorName with
  | Some Actor =>
      exists Before After : list (option AActor),
        AllActors = Before ++ Some Actor :: After
        /\ GetName (ActorObject Actor) ==? ActorName = true
        /\ Forall (fun Other => GetName (ActorObject Other) ==? ActorName = false)
             (omap id Before)
  | None =>
      Forall (fun Other => GetName (ActorObject Other) ==? ActorName = false)
        (omap id AllActors)
  end.
Proof.
  induction AllActors as [|[Actor|] rest IH]; cbn [FindActorByName].
  - constructor.
  - destruct (GetName (ActorObject Actor) ==? ActorName) eqn:Hname.
    + exists [], rest. repeat split; [exact Hname|constructor].
    + destruct (FindActorByName rest ActorName) as [Found|].
      * destruct IH as (Before & After & -> & Hfound & Hbefore).
        exists (Some Actor :: Before), After. repeat split; [exact Hfound|].
        cbn. constructor; assumption.
      * cbn. constructor; assumption.
  - destruct (FindActorByName rest ActorName) as [Found|].
    + destruct IH as (Before & After & -> & Hfound & Hbefore).
      exists (None :: Before), After. repeat split; assumption.
    + exact IH.
Qed.
(* ===================================================================== *)
(** ** Handlers that work on a blueprint found by name                    *)
(* ===================================================================== *)

Ltac read_fields Hfields :=
  unfold RequiredFieldsRead in Hfields; cbn [RequiredStringFields] in Hfields;
  repeat match type of Hfields with
         | Forall _ (_ :: _) =>
             let Hread := fresh "Hread" in
             apply Forall_cons_1 in Hfields; destruct Hfields as [[? Hread] Hfields];
             try rewrite Hread
         end.

Ltac unfold_handlers :=
  cbv beta iota delta
    [Invoke HandleCreateBlueprint HandleAddComponentToBlueprint
     HandleSetPhysicsProperties HandleCompileBlueprint HandleSetStaticMeshProperties
     HandleSpawnBlueprintActor HandleSetMeshMaterialColor HandleGetAvailableMaterials
     HandleApplyMaterialToActor HandleApplyMaterialToBlueprint
     HandleGetActorMaterialInfo HandleGetBlueprintMaterialInfo
     HandleReadBlueprintContent HandleAnalyzeBlueprintGraph
     HandleGetBlueprintVariableDetails HandleGetBlueprintFunctionDetails
     HandleOpenAssetInEditor].

Ltac pick_handler Hin :=
  cbn [BlueprintHandlers ComponentHandlers In] in Hin;
  repeat (destruct Hin as [<-|Hin]; [|try contradiction]); try contradiction.

(** X4.  Each of the eight handlers that work on a blueprint found by name
    answers a name that [FindBlueprint] does not find with the error
    "Blueprint not found: <name>"; the lookup is the only call it makes. *)
Theorem blueprint_not_found (host : Host) (M : EditorModel) (s s1 : EditorState M)
    (CommandType : string) (h : Handler) (Params : FJsonObject) (BlueprintName : string) :
  SelectHandler CommandType = Some h ->
  In h BlueprintHandlers ->
  RequiredFieldsRead host h Params ->
  TryGetStringField host Params "blueprint_name" = Some BlueprintName ->
  perform M (FindBlueprint BlueprintName) s = (None, s1) ->
  let r := run M (HandleCommand host CommandType Params) s in
  outcome r = Returned (CreateErrorResponse host ("Blueprint not found: " +:+ BlueprintName))
  /\ calls r = [Called (FindBlueprint BlueprintName) None]
  /\ final r = s1.
Proof.
  intros Hsel Hin Hfields Hname Hfind.
  unfold HandleCommand; rewrite Hsel; clear Hsel.
  pick_handler Hin; unfold_handlers; rewrite Hname; read_fields Hfields;
    simpl; rewrite Hfind; simpl; repeat split.
Qed.

Lemma blueprint_not_found_witness :
  let r := run (Scripted (@EmptyProject))
             (HandleCommand PlainHost "apply_material_to_blueprint"
                {[ "blueprint_name" := FJsonValueString "BP_Lamp";
                   "component_name" := FJsonValueString "Shade";
                   "material_path" := FJsonValueString "/Game/Materials/M_Steel" ]}) 0%nat in
  outcome r = Returned (CreateErrorResponse PlainHost "Blueprint not found: BP_Lamp")
  /\ calls r = [Called (FindBlueprint "BP_Lamp") None]
  /\ final r = 1%nat.
Proof.
  apply (blueprint_not_found PlainHost (Scripted (@EmptyProject)) 0%nat 1%nat
           "apply_material_to_blueprint" CmdApplyMaterialToBlueprint
           {[ "blueprint_name" := FJsonValueString "BP_Lamp";
              "component_name" := FJsonValueString "Shade";
              "material_path" := FJsonValueString "/Game/Materials/M_Steel" ]} "BP_Lamp").
  - reflexivity.
  - simpl; tauto.
  - repeat constructor; vm_compute; eauto.
  - reflexivity.
  - reflexivity.
Defined.

(** X5.  Each of the five handlers that work on a component of a blueprint
    answers a component name that no set node of the construction script
    has with the error "Component not found: <name>", and a component that
    fails the cast of the handler (to a static mesh component for
    [set_static_mesh_properties] and [get_blueprint_material_info], to a
    primitive component for the others) with the error of that cast.  In both
    cases [FindBlueprint] is the only call made: nothing is set and the
    blueprint is not marked as modified. *)
Theorem component_not_usable (host : Host) (M : EditorModel) (s s1 : EditorState M)
    (CommandType : string) (h : Handler) (Params : FJsonObject)
    (BlueprintName ComponentName : string) (Blueprint : UBlueprint)
    (Script : USimpleConstructionScript) :
  SelectHandler CommandType = Some h ->
  In h ComponentHandlers ->
  RequiredFieldsRead host h Params ->
  TryGetStringField host Params "blueprint_name" = Some BlueprintName ->
  TryGetStringField host Params "component_name" = Some ComponentName ->
  perform M (FindBlueprint BlueprintName) s = (Some Blueprint, s1) ->
  SimpleConstructionScript Blueprint = Some Script ->
  let r := run M (HandleCommand host CommandType Params) s in
  match FindComponentNode (GetAllNodes Script) ComponentName with
  | None =>
      outcome r
      = Returned (CreateErrorResponse host ("Component not found: " +:+ ComponentName))
      /\ calls r = [Called (FindBlueprint BlueprintName) (Some Blueprint)]
      /\ final r = s1
  | Some ComponentNode =>
      match ComponentCast h (ComponentTemplate ComponentNode) with
      | None =>
          outcome r = Returned (CreateErrorResponse host (ComponentCastError h))
          /\ calls r = [Called (FindBlueprint BlueprintName) (Some Blueprint)]
          /\ final r = s1
      | Some _ => True
      end
  end.
Proof.
  intros Hsel Hin Hfields Hname Hcomp Hfind Hscript.
  unfold HandleCommand; rewrite Hsel; clear Hsel.
  pick_handler Hin; unfold_handlers; rewrite Hname, Hcomp; read_fields Hfields;
    simpl; rewrite Hfind; simpl; rewrite Hscript;
    (destruct (FindComponentNode (GetAllNodes Script) ComponentName) as [ComponentNode|];
     [cbn [ComponentCast ComponentCastError];
      match goal with
      | |- match ?c with _ => _ end => destruct c; [exact I|]
      end|]);
    repeat split.
Qed.

Lemma component_not_usable_witness :
  let r := run (Scripted GateProject)
             (HandleCommand PlainHost "set_static_mesh_properties"
                {[ "blueprint_name" := FJsonValueString "BP_Gate";
                   "component_name" := FJsonValueString "trigger" ]}) 0%nat in
  outcome r
  = Returned (CreateErrorResponse PlainHost "Component is not a static mesh component")
  /\ calls r = [Called (FindBlueprint "BP_Gate") (Some BP_Gate)]
  /\ final r = 1%nat.
Proof.
  refine (component_not_usable PlainHost (Scripted GateProject) 0%nat 1%nat
            "set_static_mesh_properties" CmdSetStaticMeshProperties
            {[ "blueprint_name" := FJsonValueString "BP_Gate";
               "component_name" := FJsonValueString "trigger" ]}
            "BP_Gate" "trigger" BP_Gate GateScript _ _ _ _ _ _ _);
    first [reflexivity | simpl; tauto | repeat constructor; vm_compute; eauto].
Defined.

(** X6.  None of the five handlers that work on a component checks the
    construction script of the blueprint before it reads the nodes: for a
    blueprint without one the handler dereferences the null pointer right
    after [FindBlueprint] and produces no reply. *)
Theorem no_construction_script (host : Host) (M : EditorModel) (s s1 : EditorState M)
    (CommandType : string) (h : Handler) (Params : FJsonObject)
    (BlueprintName : string) (Blueprint : UBlueprint) :
  SelectHandler CommandType = Some h ->
  In h ComponentHandlers ->
  RequiredFieldsRead host h Params ->
  TryGetStringField host Params "blueprint_name" = Some BlueprintName ->
  perform M (FindBlueprint BlueprintName) s = (Some Blueprint, s1) ->
  SimpleConstructionScript Blueprint = None ->
  let r := run M (HandleCommand host CommandType Params) s in
  outcome r = Crashed
  /\ calls r = [Called (FindBlueprint BlueprintName) (Some Blueprint)].
Proof.
  intros Hsel Hin Hfields Hname Hfind Hscript.
  unfold HandleCommand; rewrite Hsel; clear Hsel.
  pick_handler Hin; unfold_handlers; rewrite Hname; read_fields Hfields;
    simpl; rewrite Hfind; simpl; rewrite Hscript; repeat split.
Qed.

Lemma no_construction_script_witness :
  let r := run (Scripted CrateProject)
             (HandleCommand PlainHost "set_physics_properties"
                {[ "blueprint_name" := FJsonValueString "BP_Crate";
                   "component_name" := FJsonValueString "Lid" ]}) 0%nat in
  outcome r = Crashed
  /\ calls r = [Called (FindBlueprint "BP_Crate") (Some BP_Crate)].
Proof.
  refine (no_construction_script PlainHost (Scripted CrateProject) 0%nat 1%nat
            "set_physics_properties" CmdSetPhysicsProperties
            {[ "blueprint_name" := FJsonValueString "BP_Crate";
               "component_name" := FJsonValueString "Lid" ]}
            "BP_Crate" BP_Crate _ _ _ _ _ _);
    first [reflexivity | simpl; tauto | repeat constructor; vm_compute; eauto].
Defined.
(* ===================================================================== *)
(** ** Handlers that reach their component                                *)
(* ===================================================================== *)

Lemma Cast_UStaticMesh_Some (Asset : option UObject) (Mesh : UStaticMesh) :
  Cast_UStaticMesh Asset = Some Mesh -> Asset = Some (AStaticMesh Mesh).
Proof. destruct Asset as [[]|]; simpl; intros H; try discriminate H. congruence. Qed.

Lemma Cast_UMaterialInterface_Some (Asset : option UObject) (Material : UMaterialInterface) :
  Cast_UMaterialInterface Asset = Some Material -> Asset = Some (AMaterialInterface Material).
Proof. destruct Asset as [[]|]; simpl; intros H; try discriminate H. congruence. Qed.

Lemma Cast_UBlueprint_Some (Asset : option UObject) (Blueprint : UBlueprint) :
  Cast_UBlueprint Asset = Some Blueprint -> Asset = Some (ABlueprint Blueprint).
Proof. destruct Asset as [[]|]; simpl; intros H; try discriminate H. congruence. Qed.

Lemma MaterialSlotInfo_describes (i : Z) (Component : string)
    (Material : option UMaterialInterface) :
  SlotDescribes i Component Material (MaterialSlotInfo i Component Material).
Proof.
  unfold SlotDescribes, MaterialSlotInfo, SetStringField, SetNumberField.
  destruct Material; repeat split;
    repeat (rewrite lookup_insert_ne by discriminate); apply lookup_insert_eq.
Qed.

(** The slots of one component: one entry per index below [NumMaterials],
    in order, each describing the material the component has there. *)
Lemma ComponentMaterialSlots_describe (NumMaterials : Z) (Component : string)
    (MeshComp : UActorComponent) :
  length (ComponentMaterialSlots NumMaterials Component MeshComp) = Z.to_nat NumMaterials
  /\ forall i : nat,
       Z.of_nat i < NumMaterials ->
       exists SlotInfo : FJsonObject,
         ComponentMaterialSlots NumMaterials Component MeshComp !! i
         = Some (FJsonValueObject SlotInfo)
         /\ SlotDescribes (Z.of_nat i) Component (GetMaterial MeshComp (Z.of_nat i)) SlotInfo.
Proof.
  unfold ComponentMaterialSlots. split.
  - rewrite length_map. apply length_seqZ.
  - intros i Hi. eexists. split; [|apply MaterialSlotInfo_describes].
    change (map ?f ?l) with (f <$> l).
    rewrite list_lookup_fmap, lookup_seqZ_lt by exact Hi. reflexivity.
Qed.

(** As [wp_auto], also splitting a [match] that is the first part of a
    sequence. *)
Ltac wp_cases :=
  repeat first
    [ progress wp_norm
    | wp_step
    | match goal with
      | |- wp _ (match ?x with _ => _ end) _ _ => destruct x eqn:?
      | |- wp _ (bind (match ?x with _ => _ end) _) _ _ => destruct x eqn:?
      end ].

Section ComponentReached.
Context (host : Host) (M : EditorModel) (s s1 : EditorState M) (Params : FJsonObject).
Context (BlueprintName ComponentName : string) (Blueprint : UBlueprint).
Context (Script : USimpleConstructionScript) (ComponentNode : USCS_Node).
Context (Component : UActorComponent).

Hypothesis blueprint_name_read :
  TryGetStringField host Params "blueprint_name" = Some BlueprintName.
Hypothesis component_name_read :
  TryGetStringField host Params "component_name" = Some ComponentName.
Hypothesis blueprint_found :
  perform M (FindBlueprint BlueprintName) s = (Some Blueprint, s1).
Hypothesis script_set : SimpleConstructionScript Blueprint = Some Script.
Hypothesis component_found :
  FindComponentNode (GetAllNodes Script) ComponentName = Some ComponentNode.

(** X7.  [set_physics_properties] on a primitive component sets exactly the
    properties whose fields are present, in the order simulate_physics, mass,
    linear_damping, angular_damping, with the numbers rounded to single
    precision; it then marks the blueprint as modified, also when no field
    is present, and replies with the component name. *)
Theorem set_physics_properties_calls :
  Cast_UPrimitiveComponent (ComponentTemplate ComponentNode) = Some Component ->
  let r := run M (HandleCommand host "set_physics_properties" Params) s in
  outcome r = Returned (SetStringField "component" ComponentName ∅)
  /\ calls r
     = Called (FindBlueprint BlueprintName) (Some Blueprint)
       :: PhysicsSetterCalls host Params Component
       ++ [Called (MarkBlueprintAsModified Blueprint) tt].
Proof.
  intros Hcast.
  change (HandleCommand host "set_physics_properties" Params)
    with (HandleSetPhysicsProperties host Params).
  by_wp. unfold HandleSetPhysicsProperties, PhysicsSetterCalls.
  rewrite blueprint_name_read, component_name_read. wp_norm.
  wp_call Found s' Hfound. rewrite blueprint_found in Hfound. injection Hfound as <- <-.
  rewrite script_set, component_found, Hcast.
  destruct (HasField Params "simulate_physics"), (HasField Params "mass"),
    (HasField Params "linear_damping"), (HasField Params "angular_damping");
    wp_auto; repeat match goal with x : unit |- _ => destruct x end;
    split; reflexivity.
Qed.

(** X8.  [set_static_mesh_properties] on a static mesh component always
    replies with the component name and ends by marking the blueprint as
    modified: an asset that does not load, or is of another kind, is
    skipped without an error.  The only setters it calls are [SetStaticMesh]
    with a mesh it loaded from the path in 'static_mesh' and [SetMaterial]
    on slot 0 with a material it loaded from the path in 'material'. *)
Theorem set_static_mesh_properties_setters :
  Cast_UStaticMeshComponent (ComponentTemplate ComponentNode) = Some Component ->
  let r := run M (HandleCommand host "set_static_mesh_properties" Params) s in
  outcome r = Returned (SetStringField "component" ComponentName ∅)
  /\ last (calls r) = Some (Called (MarkBlueprintAsModified Blueprint) tt)
  /\ Forall (fun e => IsSetterCall e = true ->
                      SetsLoadedAsset host Params Component (calls r) e) (calls r).
Proof.
  intros Hcast.
  change (HandleCommand host "set_static_mesh_properties" Params)
    with (HandleSetStaticMeshProperties host Params).
  by_wp. unfold HandleSetStaticMeshProperties.
  rewrite blueprint_name_read, component_name_read. wp_norm.
  wp_call Found s' Hfound. rewrite blueprint_found in Hfound. injection Hfound as <- <-.
  rewrite script_set, component_found, Hcast.
  destruct (HasField Params "static_mesh") eqn:Hmesh,
    (HasField Params "material") eqn:Hmaterial;
    wp_cases; repeat match goal with x : unit |- _ => destruct x end;
    repeat match goal with
           | H : Cast_UStaticMesh _ = Some _ |- _ => apply Cast_UStaticMesh_Some in H; subst
           | H : Cast_UMaterialInterface _ = Some _ |- _ =>
               apply Cast_UMaterialInterface_Some in H; subst
           end;
    (split; [reflexivity|split; [reflexivity|]]);
    repeat first [apply List.Forall_nil | apply List.Forall_cons];
    intros Hsetter; try discriminate Hsetter;
    unfold SetsLoadedAsset;
    first [ left; eexists _, _; split; [reflexivity|split; [assumption|simpl; tauto]]
          | right; eexists; split; [reflexivity|split; [assumption|simpl; tauto]] ].
Qed.

(** X9.  [apply_material_to_blueprint] on a primitive component loads the
    asset at 'material_path'.  When that is not a material it returns the
    error "Failed to load material: <path>" and neither sets a material nor
    marks the blueprint as modified.  Otherwise it puts the material in the
    requested slot of the component (slot 0 when 'material_slot' is absent),
    marks the blueprint as modified and replies with the names, the path, the
    slot and "success". *)
Theorem apply_material_to_blueprint_result (MaterialPath : string) (Asset : option UObject)
    (s2 : EditorState M) :
  Cast_UPrimitiveComponent (ComponentTemplate ComponentNode) = Some Component ->
  TryGetStringField host Params "material_path" = Some MaterialPath ->
  perform M (LoadAsset MaterialPath) s1 = (Asset, s2) ->
  let r := run M (HandleCommand host "apply_material_to_blueprint" Params) s in
  match Cast_UMaterialInterface Asset with
  | None =>
      outcome r
      = Returned (CreateErrorResponse host ("Failed to load material: " +:+ MaterialPath))
      /\ calls r = [Called (FindBlueprint BlueprintName) (Some Blueprint);
                    Called (LoadAsset MaterialPath) Asset]
  | Some Material =>
      (exists ResultObj : FJsonObject,
          outcome r = Returned ResultObj
          /\ ResultObj !! "blueprint_name" = Some (FJsonValueString BlueprintName)
          /\ ResultObj !! "component_name" = Some (FJsonValueString ComponentName)
          /\ ResultObj !! "material_path" = Some (FJsonValueString MaterialPath)
          /\ ResultObj !! "material_slot"
             = Some (FJsonValueNumber (Int32ToDouble (RequestedSlot host Params)))
          /\ ResultObj !! "success" = Some (FJsonValueBoolean true))
      /\ calls r = [Called (FindBlueprint BlueprintName) (Some Blueprint);
                    Called (LoadAsset MaterialPath) Asset;
                    Called (SetMaterial Component (RequestedSlot host Params) Material) tt;
                    Called (MarkBlueprintAsModified Blueprint) tt]
  end.
Proof.
  intros Hcast Hpath Hload.
  change (HandleCommand host "apply_material_to_blueprint" Params)
    with (HandleApplyMaterialToBlueprint host Params).
  unfold HandleApplyMaterialToBlueprint.
  rewrite blueprint_name_read, component_name_read, Hpath.
  fold (RequestedSlot host Params). simpl.
  rewrite blueprint_found; simpl. rewrite script_set, component_found, Hcast. simpl.
  rewrite Hload; simpl.
  destruct (Cast_UMaterialInterface Asset) as [Material|]; simpl; [|split; reflexivity].
  destruct (perform M (SetMaterial Component (RequestedSlot host Params) Material) s2)
    as [[] s3]; simpl.
  destruct (perform M (MarkBlueprintAsModified Blueprint) s3) as [[] s4]; simpl.
  split; [|reflexivity].
  eexists; split; [reflexivity|].
  unfold SetStringField, SetNumberField, SetBoolField.
  repeat split; repeat (rewrite lookup_insert_ne by discriminate); apply lookup_insert_eq.
Qed.

(** X10.  [get_blueprint_material_info] on a static mesh component only
    reads: [FindBlueprint] is its only call.  The reply reports whether the
    component has a static mesh; "total_slots" is the length of
    "material_slots"; without a static mesh there are no slots, whatever
    materials the component has; with one there is a slot for every section
    of LOD 0 of the mesh, in order, each describing the material the
    component has at that index ("None" and empty strings when it has
    none). *)
Theorem get_blueprint_material_info_slots :
  Cast_UStaticMeshComponent (ComponentTemplate ComponentNode) = Some Component ->
  let r := run M (HandleCommand host "get_blueprint_material_info" Params) s in
  let NumSlots :=
    match GetStaticMesh Component with
    | Some StaticMesh => GetNumSections StaticMesh 0
    | None => 0
    end in
  exists (ResultObj : FJsonObject) (MaterialSlots : list FJsonValue),
    outcome r = Returned ResultObj
    /\ calls r = [Called (FindBlueprint BlueprintName) (Some Blueprint)]
    /\ ResultObj !! "has_static_mesh"
       = Some (FJsonValueBoolean (bool_decide (is_Some (GetStaticMesh Component))))
    /\ ResultObj !! "material_slots" = Some (FJsonValueArray MaterialSlots)
    /\ ResultObj !! "total_slots"
       = Some (FJsonValueNumber (Int32ToDouble (Z.of_nat (length MaterialSlots))))
    /\ length MaterialSlots = Z.to_nat NumSlots
    /\ forall i : nat,
         Z.of_nat i < NumSlots ->
         exists SlotInfo : FJsonObject,
           MaterialSlots !! i = Some (FJsonValueObject SlotInfo)
           /\ SlotDescribes (Z.of_nat i) ComponentName
                (GetMaterial Component (Z.of_nat i)) SlotInfo.
Proof.
  intros Hcast.
  change (HandleCommand host "get_blueprint_material_info" Params)
    with (HandleGetBlueprintMaterialInfo host Params).
  unfold HandleGetBlueprintMaterialInfo.
  rewrite blueprint_name_read, component_name_read. simpl.
  rewrite blueprint_found; simpl. rewrite script_set, component_found, Hcast.
  destruct (GetStaticMesh Component) as [StaticMesh|]; simpl.
  - destruct (ComponentMaterialSlots_describe (GetNumSections StaticMesh 0)
                ComponentName Component) as [Hlength Hslots].
    eexists _, _. split; [reflexivity|]. split; [reflexivity|].
    unfold SetStringField, SetNumberField, SetBoolField, SetArrayField.
    split; [apply lookup_insert_eq|].
    split; [repeat (rewrite lookup_insert_ne by discriminate); apply lookup_insert_eq|].
    split; [repeat (rewrite lookup_insert_ne by discriminate); apply lookup_insert_eq|].
    split; [exact Hlength|exact Hslots].
  - eexists _, []. split; [reflexivity|]. split; [reflexivity|].
    unfold SetStringField, SetNumberField, SetBoolField, SetArrayField.
    split; [apply lookup_insert_eq|].
    split; [repeat (rewrite lookup_insert_ne by discriminate); apply lookup_insert_eq|].
    split; [repeat (rewrite lookup_insert_ne by discriminate); apply lookup_insert_eq|].
    split; [reflexivity|]. intros i Hi. lia.
Qed.

(** X11.  [set_mesh_material_color] with a 'color' of four values, on a
    primitive component: every call that makes a material instance, sets a
    vector parameter or sets a material is as [ColorCall] describes.  The
    instance is made for the component from the asset at 'material_path'
    when that can be read, else from the material in the requested slot,
    else from the basic shape material; the colour given to the engine is the
    clamped colour, under 'parameter_name' or "BaseColor"; the instance
    replaces the material in the requested slot. *)
Theorem set_mesh_material_color_calls (V0 V1 V2 V3 : FJsonValue) :
  Cast_UPrimitiveComponent (ComponentTemplate ComponentNode) = Some Component ->
  TryGetArrayField Params "color" = Some [V0; V1; V2; V3] ->
  let r := run M (HandleCommand host "set_mesh_material_color" Params) s in
  Forall (ColorCall host Params Component (ColorOf host V0 V1 V2 V3) (calls r)) (calls r).
Proof.
  intros Hcast Hcolor.
  change (HandleCommand host "set_mesh_material_color" Params)
    with (HandleSetMeshMaterialColor host Params).
  by_wp. unfold HandleSetMeshMaterialColor.
  rewrite blueprint_name_read, component_name_read. wp_norm.
  wp_call Found s' Hfound. rewrite blueprint_found in Hfound. injection Hfound as <- <-.
  rewrite script_set, component_found, Hcast.
  unfold SetMeshMaterialColor_FromColor. rewrite Hcolor.
  cbv zeta. change (negb (Z.of_nat (length [V0; V1; V2; V3]) =? 4)) with false.
  cbv iota. fold (RequestedSlot host Params).
  wp_auto;
    repeat match goal with x : unit |- _ => destruct x end;
    repeat match goal with
           | H : Cast_UMaterialInterface _ = Some _ |- _ =>
               apply Cast_UMaterialInterface_Some in H; subst
           end;
    repeat constructor;
    repeat match goal with
           | H : TryGetStringField host Params "material_path" = _ |- _ => rewrite H
           | H : GetMaterial Component (RequestedSlot host Params) = _ |- _ => rewrite H
           end;
    first [reflexivity | simpl; tauto | eexists; simpl; eauto].
Qed.

End ComponentReached.

Lemma set_physics_properties_calls_witness :
  let r := run (Scripted GateProject)
             (HandleCommand PlainHost "set_physics_properties" GatePhysics) 0%nat in
  outcome r = Returned (SetStringField "component" "Trigger" ∅)
  /\ calls r
     = [Called (FindBlueprint "BP_Gate") (Some BP_Gate);
        Called (SetSimulatePhysics Trigger true) tt;
        Called (SetMassOverrideInKg Trigger "None" (DoubleToFloat Double_10)) tt;
        Called (MarkBlueprintAsModified BP_Gate) tt].
Proof.
  refine (set_physics_properties_calls PlainHost (Scripted GateProject) 0%nat 1%nat
            GatePhysics "BP_Gate" "Trigger" BP_Gate GateScript TriggerNode Trigger
            _ _ _ _ _ _);
    reflexivity.
Defined.

Lemma set_static_mesh_properties_setters_witness :
  let r := run (Scripted LampProject)
             (HandleCommand PlainHost "set_static_mesh_properties" LampMesh) 0%nat in
  outcome r = Returned (SetStringField "component" "Shade" ∅)
  /\ last (calls r) = Some (Called (MarkBlueprintAsModified BP_Lamp) tt)
  /\ Forall (fun e => IsSetterCall e = true ->
                      SetsLoadedAsset PlainHost LampMesh Shade (calls r) e) (calls r).
Proof.
  refine (set_static_mesh_properties_setters PlainHost (Scripted LampProject) 0%nat 1%nat
            LampMesh "BP_Lamp" "Shade" BP_Lamp
            {| ScriptPtr := 114; GetAllNodes := [None; Some ShadeNode];
               GetDefaultSceneRootNode := None |}
            ShadeNode Shade _ _ _ _ _ _);
    reflexivity.
Defined.

(** On the sample project the missing mesh is skipped: nothing is set. *)
Example set_static_mesh_with_missing_mesh :
  calls (run (Scripted LampProject)
           (HandleCommand PlainHost "set_static_mesh_properties" LampMesh) 0%nat)
  = [Called (FindBlueprint "BP_Lamp") (Some BP_Lamp);
     Called (LoadAsset "/Game/Meshes/SM_Missing") None;
     Called (MarkBlueprintAsModified BP_Lamp) tt].
Proof. reflexivity. Qed.

Lemma apply_material_to_blueprint_result_witness :
  let r := run (Scripted GateProject)
             (HandleCommand PlainHost "apply_material_to_blueprint" GateMaterial) 0%nat in
  (exists ResultObj : FJsonObject,
      outcome r = Returned ResultObj
      /\ ResultObj !! "blueprint_name" = Some (FJsonValueString "BP_Gate")
      /\ ResultObj !! "component_name" = Some (FJsonValueString "Bars")
      /\ ResultObj !! "material_path" = Some (FJsonValueString "/Game/Materials/M_Steel")
      /\ ResultObj !! "material_slot" = Some (FJsonValueNumber (Int32ToDouble 0))
      /\ ResultObj !! "success" = Some (FJsonValueBoolean true))
  /\ calls r = [Called (FindBlueprint "BP_Gate") (Some BP_Gate);
                Called (LoadAsset "/Game/Materials/M_Steel")
                  (Some (AMaterialInterface M_Steel));
                Called (SetMaterial Bars 0 M_Steel) tt;
                Called (MarkBlueprintAsModified BP_Gate) tt].
Proof.
  refine (apply_material_to_blueprint_result PlainHost (Scripted GateProject) 0%nat 1%nat
            GateMaterial "BP_Gate" "Bars" BP_Gate GateScript BarsNode Bars
            _ _ _ _ _ "/Game/Materials/M_Steel" (Some (AMaterialInterface M_Steel)) 2%nat
            _ _ _);
    reflexivity.
Defined.

Lemma get_blueprint_material_info_slots_witness :
  let r := run (Scripted GateProject)
             (HandleCommand PlainHost "get_blueprint_material_info"
                {[ "blueprint_name" := FJsonValueString "BP_Gate";
                   "component_name" := FJsonValueString "Bars" ]}) 0%nat in
  exists (ResultObj : FJsonObject) (MaterialSlots : list FJsonValue),
    outcome r = Returned ResultObj
    /\ calls r = [Called (FindBlueprint "BP_Gate") (Some BP_Gate)]
    /\ ResultObj !! "has_static_mesh" = Some (FJsonValueBoolean true)
    /\ ResultObj !! "material_slots" = Some (FJsonValueArray MaterialSlots)
    /\ ResultObj !! "total_slots"
       = Some (FJsonValueNumber (Int32ToDouble (Z.of_nat (length MaterialSlots))))
    /\ length MaterialSlots = 2%nat
    /\ forall i : nat,
         Z.of_nat i < 2 ->
         exists SlotInfo : FJsonObject,
           MaterialSlots !! i = Some (FJsonValueObject SlotInfo)
           /\ SlotDescribes (Z.of_nat i) "Bars" (GetMaterial Bars (Z.of_nat i)) SlotInfo.
Proof.
  refine (get_blueprint_material_info_slots PlainHost (Scripted GateProject) 0%nat 1%nat
            {[ "blueprint_name" := FJsonValueString "BP_Gate";
               "component_name" := FJsonValueString "Bars" ]}
            "BP_Gate" "Bars" BP_Gate GateScript BarsNode Bars _ _ _ _ _ _);
    reflexivity.
Defined.

Lemma set_mesh_material_color_calls_witness :
  let r := run (Scripted LampProject)
             (HandleCommand PlainHost "set_mesh_material_color" LampColor) 0%nat in
  Forall (ColorCall PlainHost LampColor Shade
            (ColorOf PlainHost (FJsonValueNumber Double_0_1) (FJsonValueNumber Double_0_5)
               (FJsonValueNumber Double_2) (FJsonValueNumber Double_minus_1))
            (calls r))
    (calls r).
Proof.
  refine (set_mesh_material_color_calls PlainHost (Scripted LampProject) 0%nat 1%nat
            LampColor "BP_Lamp" "Shade" BP_Lamp
            {| ScriptPtr := 114; GetAllNodes := [None; Some ShadeNode];
               GetDefaultSceneRootNode := None |}
            ShadeNode Shade _ _ _ _ _
            (FJsonValueNumber Double_0_1) (FJsonValueNumber Double_0_5)
            (FJsonValueNumber Double_2) (FJsonValueNumber Double_minus_1) _ _);
    reflexivity.
Defined.

(** The calls on the sample project: the material of the component is
    instanced, the instance gets the clamped colour as "BaseColor" and is
    put in slot 0. *)
Example set_mesh_material_color_on_sample :
  calls (run (Scripted LampProject)
           (HandleCommand PlainHost "set_mesh_material_color" LampColor) 0%nat)
  = [Called (FindBlueprint "BP_Lamp") (Some BP_Lamp);
     Called (UMaterialInstanceDynamic_Create M_Glass Shade) (Some ShadeInstance);
     Called (SetVectorParameterValue ShadeInstance "BaseColor"
               (ColorOf PlainHost (FJsonValueNumber Double_0_1) (FJsonValueNumber Double_0_5)
                  (FJsonValueNumber Double_2) (FJsonValueNumber Double_minus_1))) tt;
     Called (SetMaterial Shade 0 ShadeInstance) tt;
     Called (MarkBlueprintAsModified BP_Lamp) tt].
Proof. reflexivity. Qed.
(* ===================================================================== *)
(** ** Handlers that work on an actor of the editor world                 *)
(* ===================================================================== *)

(** X12.  [apply_material_to_actor] and [get_actor_material_info] answer a
    missing editor world with the error "Failed to get editor world" and do
    not list the actors; they answer an actor name that no set actor of the
    world has with the error "Actor not found: <name>", having called
    nothing but the world lookup and [GetAllActorsOfClass]. *)
Theorem actor_not_found (host : Host) (M : EditorModel) (s s1 : EditorState M)
    (CommandType : string) (h : Handler) (Params : FJsonObject) (ActorName : string)
    (EditorWorld : option UWorld) :
  SelectHandler CommandType = Some h ->
  In h ActorHandlers ->
  RequiredFieldsRead host h Params ->
  TryGetStringField host Params "actor_name" = Some ActorName ->
  perform M GetEditorWorld s = (EditorWorld, s1) ->
  let r := run M (HandleCommand host CommandType Params) s in
  match EditorWorld with
  | None =>
      outcome r = Returned (CreateErrorResponse host "Failed to get editor world")
      /\ calls r = [Called GetEditorWorld None]
  | Some World =>
      let AllActors := fst (perform M (GetAllActorsOfClass World AActor_StaticClass) s1) in
      match FindActorByName AllActors ActorName with
      | None =>
          outcome r
          = Returned (CreateErrorResponse host ("Actor not found: " +:+ ActorName))
          /\ calls r = [Called GetEditorWorld (Some World);
                        Called (GetAllActorsOfClass World AActor_StaticClass) AllActors]
      | Some _ => True
      end
  end.
Proof.
  intros Hsel Hin Hfields Hname Hworld.
  unfold HandleCommand; rewrite Hsel; clear Hsel.
  cbn [ActorHandlers In] in Hin.
  repeat (destruct Hin as [<-|Hin]; [|try contradiction]); try contradiction;
    unfold_handlers; rewrite Hname; read_fields Hfields;
    simpl; rewrite Hworld; simpl;
    (destruct EditorWorld as [World|]; simpl; [|split; reflexivity]);
    destruct (perform M (GetAllActorsOfClass World AActor_StaticClass) s1)
      as [AllActors s2]; simpl;
    (destruct (FindActorByName AllActors ActorName); [exact I|]);
    split; reflexivity.
Qed.

Lemma actor_not_found_witness :
  let r := run (Scripted StageProject)
             (HandleCommand PlainHost "get_actor_material_info"
                {[ "actor_name" := FJsonValueString "Gate_2" ]}) 0%nat in
  outcome r = Returned (CreateErrorResponse PlainHost "Actor not found: Gate_2")
  /\ calls r = [Called GetEditorWorld (Some Stage);
                Called (GetAllActorsOfClass Stage AActor_StaticClass) [None; Some Gate_1]].
Proof.
  refine (actor_not_found PlainHost (Scripted StageProject) 0%nat 1%nat
            "get_actor_material_info" CmdGetActorMaterialInfo
            {[ "actor_name" := FJsonValueString "Gate_2" ]} "Gate_2" (Some Stage)
            _ _ _ _ _);
    first [reflexivity | simpl; tauto | repeat constructor; vm_compute; eauto].
Defined.

(** The loop of [apply_material_to_actor] sets the material on every
    component that is set, in order, and reports whether there was one. *)
Lemma ApplyMaterialToComponents_run (M : EditorModel)
    (MeshComponents : list (option UActorComponent)) (MaterialSlot : Z)
    (Material : UMaterialInterface) :
  forall (bAppliedToAny : bool) (s : EditorState M),
    let r := run M (ApplyMaterialToComponents MeshComponents MaterialSlot Material
                      bAppliedToAny) s in
    outcome r
    = Returned (match omap id MeshComponents with [] => bAppliedToAny | _ :: _ => true end)
    /\ calls r
       = map (fun MeshComp => Called (SetMaterial MeshComp MaterialSlot Material) tt)
           (omap id MeshComponents).
Proof.
  induction MeshComponents as [|[MeshComp|] rest IH]; intros bAppliedToAny s.
  - split; reflexivity.
  - cbn [ApplyMaterialToComponents omap]. simpl.
    destruct (perform M (SetMaterial MeshComp MaterialSlot Material) s) as [[] s']; simpl.
    destruct (IH true s') as [Hout Hcalls]. rewrite Hout, Hcalls.
    split; [destruct (omap id rest)|]; reflexivity.
  - cbn [ApplyMaterialToComponents omap]. apply IH.
Qed.

Lemma ApplyMaterialToComponents_wp (M : EditorModel)
    (MeshComponents : list (option UActorComponent)) (MaterialSlot : Z)
    (Material : UMaterialInterface) (bAppliedToAny : bool) (s : EditorState M) :
  wp M (ApplyMaterialToComponents MeshComponents MaterialSlot Material bAppliedToAny) s
    (fun o _ cs =>
       o = Returned (match omap id MeshComponents with
                     | [] => bAppliedToAny
                     | _ :: _ => true
                     end)
       /\ cs = map (fun MeshComp => Called (SetMaterial MeshComp MaterialSlot Material) tt)
                 (omap id MeshComponents)).
Proof. exact (ApplyMaterialToComponents_run M MeshComponents MaterialSlot Material _ s). Qed.

(** The slots of all components of an actor: as many as the set components
    have materials, each describing a slot of a set component. *)
Lemma actor_material_slots (MeshComponents : list (option UActorComponent)) :
  let MaterialSlots :=
    flat_map (fun MeshComp : option UActorComponent =>
                match MeshComp with
                | Some MeshComp =>
                    ComponentMaterialSlots (GetNumMaterials MeshComp)
                      (GetName (ComponentObject MeshComp)) MeshComp
                | None => []
                end) MeshComponents in
  length MaterialSlots
  = sum_list (map (fun MeshComp => Z.to_nat (GetNumMaterials MeshComp))
                (omap id MeshComponents))
  /\ Forall (fun Entry =>
               exists (MeshComp : UActorComponent) (i : Z) (SlotInfo : FJsonObject),
                 In (Some MeshComp) MeshComponents
                 /\ 0 <= i < GetNumMaterials MeshComp
                 /\ Entry = FJsonValueObject SlotInfo
                 /\ SlotDescribes i (GetName (ComponentObject MeshComp))
                      (GetMaterial MeshComp i) SlotInfo)
       MaterialSlots.
Proof.
  induction MeshComponents as [|[MeshComp|] rest [IHlength IHslots]]; cbn zeta in *.
  - split; [reflexivity|constructor].
  - cbn [flat_map omap map sum_list]. split.
    + rewrite length_app, IHlength.
      destruct (ComponentMaterialSlots_describe (GetNumMaterials MeshComp)
                  (GetName (ComponentObject MeshComp)) MeshComp) as [-> _].
      reflexivity.
    + apply Forall_app. split.
      * unfold ComponentMaterialSlots. apply List.Forall_map.
        apply Forall_seqZ. intros i Hi.
        eexists MeshComp, i, _. split; [left; reflexivity|]. split; [lia|].
        split; [reflexivity|apply MaterialSlotInfo_describes].
      * eapply Forall_impl; [exact IHslots|].
        intros Entry (Other & i & SlotInfo & Hin & Hrest).
        exists Other, i, SlotInfo. split; [right; exact Hin|exact Hrest].
  - cbn [flat_map omap app]. split; [exact IHlength|].
    eapply Forall_impl; [exact IHslots|].
    intros Entry (Other & i & SlotInfo & Hin & Hrest).
    exists Other, i, SlotInfo. split; [right; exact Hin|exact Hrest].
Qed.

Section ActorReached.
Context (host : Host) (M : EditorModel) (s s1 s2 : EditorState M) (Params : FJsonObject).
Context (ActorName : string) (World : UWorld) (AllActors : list (option AActor)).
Context (TargetActor : AActor).

Hypothesis actor_name_read : TryGetStringField host Params "actor_name" = Some ActorName.
Hypothesis world_found : perform M GetEditorWorld s = (Some World, s1).
Hypothesis actors_listed :
  perform M (GetAllActorsOfClass World AActor_StaticClass) s1 = (AllActors, s2).
Hypothesis actor_found : FindActorByName AllActors ActorName = Some TargetActor.

(** X13.  [apply_material_to_actor] on an actor it found loads the asset
    at 'material_path'.  When that is not a material it returns the error
    "Failed to load material: <path>" and sets nothing.  Otherwise it calls
    [SetMaterial] with the requested slot and the material once for every
    static mesh component of the actor that is set, in order; it returns the
    error "No mesh components found on actor" when there was none and the
    reply with "success" otherwise. *)
Theorem apply_material_to_actor_result (MaterialPath : string) (Asset : option UObject)
    (s3 : EditorState M) :
  TryGetStringField host Params "material_path" = Some MaterialPath ->
  perform M (LoadAsset MaterialPath) s2 = (Asset, s3) ->
  let r := run M (HandleCommand host "apply_material_to_actor" Params) s in
  let Lookup :=
    [Called GetEditorWorld (Some World);
     Called (GetAllActorsOfClass World AActor_StaticClass) AllActors;
     Called (LoadAsset MaterialPath) Asset] in
  match Cast_UMaterialInterface Asset with
  | None =>
      outcome r
      = Returned (CreateErrorResponse host ("Failed to load material: " +:+ MaterialPath))
      /\ calls r = Lookup
  | Some Material =>
      let MeshComponents := omap id (GetComponents_UStaticMeshComponent TargetActor) in
      calls r
      = Lookup
        ++ map (fun MeshComp =>
                  Called (SetMaterial MeshComp (RequestedSlot host Params) Material) tt)
             MeshComponents
      /\ match MeshComponents with
         | [] =>
             outcome r
             = Returned (CreateErrorResponse host "No mesh components found on actor")
         | _ :: _ =>
             exists ResultObj : FJsonObject,
               outcome r = Returned ResultObj
               /\ ResultObj !! "actor_name" = Some (FJsonValueString ActorName)
               /\ ResultObj !! "material_path" = Some (FJsonValueString MaterialPath)
               /\ ResultObj !! "material_slot"
                  = Some (FJsonValueNumber (Int32ToDouble (RequestedSlot host Params)))
               /\ ResultObj !! "success" = Some (FJsonValueBoolean true)
         end
  end.
Proof.
  intros Hpath Hload.
  change (HandleCommand host "apply_material_to_actor" Params)
    with (HandleApplyMaterialToActor host Params).
  by_wp. unfold HandleApplyMaterialToActor.
  rewrite actor_name_read, Hpath. fold (RequestedSlot host Params). wp_norm.
  wp_call Found s' Hfound. rewrite world_found in Hfound. injection Hfound as <- <-.
  wp_norm. wp_call Listed s' Hlisted. rewrite actors_listed in Hlisted.
  injection Hlisted as <- <-. rewrite actor_found. wp_norm.
  wp_call Loaded s' Hloaded. rewrite Hload in Hloaded. injection Hloaded as <- <-.
  destruct (Cast_UMaterialInterface Asset) as [Material|]; wp_norm;
    [|wp_step; split; reflexivity].
  apply wp_bind. eapply wp_consequence; [apply ApplyMaterialToComponents_wp|].
  intros o f cs (-> & ->).
  destruct (omap id (GetComponents_UStaticMeshComponent TargetActor)) as [|First Others];
    wp_norm; wp_step; (split; [rewrite ?app_nil_r; reflexivity|]); [reflexivity|].
  eexists; split; [reflexivity|].
  unfold SetStringField, SetNumberField, SetBoolField.
  repeat split; repeat (rewrite lookup_insert_ne by discriminate); apply lookup_insert_eq.
Qed.

(** X14.  [get_actor_material_info] on an actor it found only reads: the
    world lookup and [GetAllActorsOfClass] are its only calls.  "total_slots"
    is the length of "material_slots", which has as many entries as the set
    static mesh components of the actor have materials; every entry describes
    a slot of such a component: its index, the name of the component and the
    material there ("None" and empty strings when there is none). *)
Theorem get_actor_material_info_slots :
  let r := run M (HandleCommand host "get_actor_material_info" Params) s in
  let MeshComponents := GetComponents_UStaticMeshComponent TargetActor in
  exists (ResultObj : FJsonObject) (MaterialSlots : list FJsonValue),
    outcome r = Returned ResultObj
    /\ calls r = [Called GetEditorWorld (Some World);
                  Called (GetAllActorsOfClass World AActor_StaticClass) AllActors]
    /\ ResultObj !! "actor_name" = Some (FJsonValueString ActorName)
    /\ ResultObj !! "material_slots" = Some (FJsonValueArray MaterialSlots)
    /\ ResultObj !! "total_slots"
       = Some (FJsonValueNumber (Int32ToDouble (Z.of_nat (length MaterialSlots))))
    /\ length MaterialSlots
       = sum_list (map (fun MeshComp => Z.to_nat (GetNumMaterials MeshComp))
                     (omap id MeshComponents))
    /\ Forall (fun Entry =>
                 exists (MeshComp : UActorComponent) (i : Z) (SlotInfo : FJsonObject),
                   In (Some MeshComp) MeshComponents
                   /\ 0 <= i < GetNumMaterials MeshComp
                   /\ Entry = FJsonValueObject SlotInfo
                   /\ SlotDescribes i (GetName (ComponentObject MeshComp))
                        (GetMaterial MeshComp i) SlotInfo)
         MaterialSlots.
Proof.
  change (HandleCommand host "get_actor_material_info" Params)
    with (HandleGetActorMaterialInfo host Params).
  unfold HandleGetActorMaterialInfo. rewrite actor_name_read. simpl.
  rewrite world_found; simpl. rewrite actors_listed; simpl. rewrite actor_found.
  destruct (actor_material_slots (GetComponents_UStaticMeshComponent TargetActor))
    as [Hlength Hslots].
  eexists _, _. split; [reflexivity|]. split; [reflexivity|].
  unfold SetStringField, SetNumberField, SetArrayField.
  split; [repeat (rewrite lookup_insert_ne by discriminate); apply lookup_insert_eq|].
  split; [repeat (rewrite lookup_insert_ne by discriminate); apply lookup_insert_eq|].
  split; [apply lookup_insert_eq|].
  split; [exact Hlength|exact Hslots].
Qed.

End ActorReached.

Lemma apply_material_to_actor_result_witness :
  let r := run (Scripted StageProject)
             (HandleCommand PlainHost "apply_material_to_actor" StageMaterial) 0%nat in
  calls r
  = [Called GetEditorWorld (Some Stage);
     Called (GetAllActorsOfClass Stage AActor_StaticClass) [None; Some Gate_1];
     Called (LoadAsset "/Game/Materials/M_Steel") (Some (AMaterialInterface M_Steel));
     Called (SetMaterial Bars 1 M_Steel) tt;
     Called (SetMaterial Shade 1 M_Steel) tt]
  /\ exists ResultObj : FJsonObject,
       outcome r = Returned ResultObj
       /\ ResultObj !! "actor_name" = Some (FJsonValueString "Gate_1")
       /\ ResultObj !! "material_path" = Some (FJsonValueString "/Game/Materials/M_Steel")
       /\ ResultObj !! "material_slot" = Some (FJsonValueNumber (Int32ToDouble 1))
       /\ ResultObj !! "success" = Some (FJsonValueBoolean true).
Proof.
  refine (apply_material_to_actor_result PlainHost (Scripted StageProject)
            0%nat 1%nat 2%nat StageMaterial "Gate_1" Stage [None; Some Gate_1] Gate_1
            _ _ _ _ "/Game/Materials/M_Steel" (Some (AMaterialInterface M_Steel)) 3%nat
            _ _);
    reflexivity.
Defined.

Lemma get_actor_material_info_slots_witness :
  let r := run (Scripted StageProject)
             (HandleCommand PlainHost "get_actor_material_info"
                {[ "actor_name" := FJsonValueString "Gate_1" ]}) 0%nat in
  exists (ResultObj : FJsonObject) (MaterialSlots : list FJsonValue),
    outcome r = Returned ResultObj
    /\ calls r = [Called GetEditorWorld (Some Stage);
                  Called (GetAllActorsOfClass Stage AActor_StaticClass)
                    [None; Some Gate_1]]
    /\ ResultObj !! "actor_name" = Some (FJsonValueString "Gate_1")
    /\ ResultObj !! "material_slots" = Some (FJsonValueArray MaterialSlots)
    /\ ResultObj !! "total_slots"
       = Some (FJsonValueNumber (Int32ToDouble (Z.of_nat (length MaterialSlots))))
    /\ length MaterialSlots = 3%nat
    /\ Forall (fun Entry =>
                 exists (MeshComp : UActorComponent) (i : Z) (SlotInfo : FJsonObject),
                   In (Some MeshComp) [Some Bars; None; Some Shade]
                   /\ 0 <= i < GetNumMaterials MeshComp
                   /\ Entry = FJsonValueObject SlotInfo
                   /\ SlotDescribes i (GetName (ComponentObject MeshComp))
                        (GetMaterial MeshComp i) SlotInfo)
         MaterialSlots.
Proof.
  refine (get_actor_material_info_slots PlainHost (Scripted StageProject)
            0%nat 1%nat 2%nat {[ "actor_name" := FJsonValueString "Gate_1" ]}
            "Gate_1" Stage [None; Some Gate_1] Gate_1 _ _ _ _);
    reflexivity.
Defined.
(* ===================================================================== *)
(** ** spawn_blueprint_actor                                              *)
(* ===================================================================== *)

(** A call whose answer is known from a hypothesis. *)
Ltac wp_known :=
  match goal with
  | H : perform ?M ?c ?s = (_, _) |- wp ?M (Call ?c _) ?s _ =>
      let Hk := fresh in
      apply wp_Call; intros ? ? Hk; rewrite H in Hk; injection Hk as <- <-
  end.

(** X15.  [spawn_blueprint_actor] for a blueprint it found: without an
    editor world it returns the error "Failed to get editor world" and
    neither sleeps nor spawns.  With one it sleeps 0.2 seconds and spawns an
    actor of the generated class of the blueprint, passed on as it is, at
    'location' and 'rotation' (zero where absent).  When no actor comes back
    it returns the error "Failed to spawn blueprint actor"; otherwise it
    labels the actor with 'actor_name' and replies with what
    [ActorToJsonObject] makes of the actor. *)
Theorem spawn_blueprint_actor_result (host : Host) (M : EditorModel)
    (s s1 s2 : EditorState M) (Params : FJsonObject) (BlueprintName ActorName : string)
    (Blueprint : UBlueprint) (EditorWorld : option UWorld) :
  TryGetStringField host Params "blueprint_name" = Some BlueprintName ->
  TryGetStringField host Params "actor_name" = Some ActorName ->
  perform M (FindBlueprint BlueprintName) s = (Some Blueprint, s1) ->
  perform M GetEditorWorld s1 = (EditorWorld, s2) ->
  let r := run M (HandleCommand host "spawn_blueprint_actor" Params) s in
  match EditorWorld with
  | None =>
      outcome r = Returned (CreateErrorResponse host "Failed to get editor world")
      /\ calls r = [Called (FindBlueprint BlueprintName) (Some Blueprint);
                    Called GetEditorWorld None]
  | Some World =>
      exists NewActor : option AActor,
        let Spawn :=
          [Called (FindBlueprint BlueprintName) (Some Blueprint);
           Called GetEditorWorld (Some World);
           Called (Sleep Float_0_2) tt;
           Called (SpawnActor World (GeneratedClass Blueprint)
                     (SpawnTransformOf host Params)) NewActor] in
        match NewActor with
        | None =>
            outcome r
            = Returned (CreateErrorResponse host "Failed to spawn blueprint actor")
            /\ calls r = Spawn
        | Some Actor =>
            exists Result : FJsonObject,
              outcome r = Returned Result
              /\ calls r
                 = Spawn ++ [Called (SetActorLabel Actor ActorName) tt;
                             Called (ActorToJsonObject Actor true) Result]
        end
  end.
Proof.
  intros Hbp Hactor Hfind Hworld.
  change (HandleCommand host "spawn_blueprint_actor" Params)
    with (HandleSpawnBlueprintActor host Params).
  destruct EditorWorld as [World|]; by_wp;
    unfold HandleSpawnBlueprintActor, SpawnTransformOf; rewrite Hbp, Hactor;
    destruct (HasField Params "location"), (HasField Params "rotation");
    repeat first
      [ progress wp_norm
      | wp_known
      | wp_step
      | match goal with
        | |- wp _ (match ?x with _ => _ end) _ _ => destruct x eqn:?
        end ];
    repeat match goal with x : unit |- _ => destruct x end;
    try match goal with
        | H : perform _ (SpawnActor _ _ _) _ = (?x, _) |- _ => exists x
        end;
    first [split; reflexivity | eexists; split; reflexivity].
Qed.

Lemma spawn_blueprint_actor_result_witness :
  let r := run (Scripted StageProject)
             (HandleCommand PlainHost "spawn_blueprint_actor" StageSpawn) 0%nat in
  exists NewActor : option AActor,
    let Spawn :=
      [Called (FindBlueprint "BP_Gate") (Some BP_Gate);
       Called GetEditorWorld (Some Stage);
       Called (Sleep Float_0_2) tt;
       Called (SpawnActor Stage (Some (SomeClass "BP_Gate_C"))
                 (SpawnTransformOf PlainHost StageSpawn)) NewActor] in
    match NewActor with
    | None =>
        outcome r
        = Returned (CreateErrorResponse PlainHost "Failed to spawn blueprint actor")
        /\ calls r = Spawn
    | Some Actor =>
        exists Result : FJsonObject,
          outcome r = Returned Result
          /\ calls r
             = Spawn ++ [Called (SetActorLabel Actor "North gate") tt;
                         Called (ActorToJsonObject Actor true) Result]
    end.
Proof.
  refine (spawn_blueprint_actor_result PlainHost (Scripted StageProject)
            0%nat 1%nat 2%nat StageSpawn "BP_Gate" "North gate" BP_Gate (Some Stage)
            _ _ _ _);
    reflexivity.
Defined.

(** The run on the sample project. *)
Example spawn_gate_on_stage :
  let r := run (Scripted StageProject)
             (HandleCommand PlainHost "spawn_blueprint_actor" StageSpawn) 0%nat in
  outcome r = Returned (SetStringField "name" "Gate_1" ∅)
  /\ calls r
     = [Called (FindBlueprint "BP_Gate") (Some BP_Gate);
        Called GetEditorWorld (Some Stage);
        Called (Sleep Float_0_2) tt;
        Called (SpawnActor Stage (Some (SomeClass "BP_Gate_C"))
                  {| Location := {| VX := Double_0; VY := Double_0; VZ := Double_0 |};
                     Rotation := {| Pitch := Double_0; Yaw := Double_0; Roll := Double_0 |} |})
          (Some Gate_1);
        Called (SetActorLabel Gate_1 "North gate") tt;
        Called (ActorToJsonObject Gate_1 true) (SetStringField "name" "Gate_1" ∅)]
  /\ length (logged r) = 10%nat.
Proof. repeat split. Qed.
(* ===================================================================== *)
(** ** What a handler reads of its parameters                             *)
(* ===================================================================== *)

Ltac same_fields Hsame :=
  cbn [FieldsUsed] in Hsame;
  repeat match type of Hsame with
         | Forall _ (_ :: _) =>
             let Hfield := fresh "Hfield" in
             apply Forall_cons_1 in Hsame; destruct Hsame as [Hfield Hsame]
         end.

(** X16.  A handler depends on its parameter bag only through the fields
    listed for it: two bags that agree on these fields make the handler do
    the same, whatever else they hold.  In particular 'trace_execution_flow',
    which [analyze_blueprint_graph] reads, has no effect. *)
Theorem handler_uses_only_its_fields (host : Host) (CommandType : string) (h : Handler)
    (Params Params' : FJsonObject) :
  HostReadsTheField host ->
  SelectHandler CommandType = Some h ->
  Forall (fun Field => Params !! Field = Params' !! Field) (FieldsUsed h) ->
  HandleCommand host CommandType Params = HandleCommand host CommandType Params'.
Proof.
  intros Hhost Hsel Hsame. unfold HandleCommand; rewrite Hsel; clear Hsel.
  destruct h; same_fields Hsame; unfold_handlers;
    unfold SetMeshMaterialColor_FromColor, TryGetStringField, TryGetBoolField,
      TryGetArrayField, HasField, GetIntegerField, GetBoolField, GetNumberField,
      GetStringField, GetField;
    repeat match goal with
           | H : Params !! ?f = Params' !! ?f |- _ =>
               try rewrite (proj1 (Hhost Params Params' f H));
               try rewrite (proj2 (Hhost Params Params' f H));
               rewrite H; clear H
           end;
    reflexivity.
Qed.

Lemma handler_uses_only_its_fields_witness :
  HandleCommand PlainHost "analyze_blueprint_graph"
    {[ "blueprint_path" := FJsonValueString "/Game/Blueprints/BP_Barrel";
       "trace_execution_flow" := FJsonValueBoolean false ]}
  = HandleCommand PlainHost "analyze_blueprint_graph"
      {[ "blueprint_path" := FJsonValueString "/Game/Blueprints/BP_Barrel" ]}.
Proof.
  apply (handler_uses_only_its_fields PlainHost "analyze_blueprint_graph"
           CmdAnalyzeBlueprintGraph).
  - intros Params Params' Field Hsame. split; reflexivity.
  - reflexivity.
  - repeat constructor.
Defined.

(* ===================================================================== *)
(** ** Handlers that analyze a blueprint                                  *)
(* ===================================================================== *)

(** X17.  The four analysis handlers always return a reply, and they only
    read: without a readable 'blueprint_path' they call nothing, with one
    their only call is [LoadAsset] of that path, and they leave the editor in
    the state the load left it in. *)
Theorem analysis_only_loads (host : Host) (M : EditorModel) (s : EditorState M)
    (CommandType : string) (h : Handler) (Params : FJsonObject) :
  SelectHandler CommandType = Some h ->
  In h AnalysisHandlers ->
  let r := run M (HandleCommand host CommandType Params) s in
  (exists ResultObj : FJsonObject, outcome r = Returned ResultObj)
  /\ match TryGetStringField host Params "blueprint_path" with
     | Some BlueprintPath =>
         calls r = [Called (LoadAsset BlueprintPath)
                      (fst (perform M (LoadAsset BlueprintPath) s))]
         /\ final r = snd (perform M (LoadAsset BlueprintPath) s)
     | None => calls r = [] /\ final r = s
     end.
Proof.
  intros Hsel Hin. unfold HandleCommand; rewrite Hsel; clear Hsel.
  cbn [AnalysisHandlers In] in Hin.
  repeat (destruct Hin as [<-|Hin]; [|try contradiction]); try contradiction;
    unfold_handlers;
    (destruct (TryGetStringField host Params "blueprint_path") as [BlueprintPath|];
     [|split; [eexists; reflexivity|split; reflexivity]]);
    by_wp; wp_norm; wp_call Asset s1 Hload; rewrite Hload;
    wp_auto; (split; [eexists; reflexivity|split; reflexivity]).
Qed.

Lemma analysis_only_loads_witness :
  let r := run (Scripted BarrelProject)
             (HandleCommand PlainHost "read_blueprint_content"
                {[ "blueprint_path" := FJsonValueString "/Game/Blueprints/BP_Barrel" ]})
             0%nat in
  (exists ResultObj : FJsonObject, outcome r = Returned ResultObj)
  /\ calls r = [Called (LoadAsset "/Game/Blueprints/BP_Barrel") (Some (ABlueprint BP_Barrel))]
  /\ final r = 1%nat.
Proof.
  refine (analysis_only_loads PlainHost (Scripted BarrelProject) 0%nat
            "read_blueprint_content" CmdReadBlueprintContent
            {[ "blueprint_path" := FJsonValueString "/Game/Blueprints/BP_Barrel" ]} _ _);
    first [reflexivity | simpl; tauto].
Defined.

(** X18.  The four analysis handlers answer a path at which no asset
    loads, or at which the asset is not a blueprint, with the error "Failed
    to load blueprint: <path>". *)
Theorem analysis_needs_a_blueprint (host : Host) (M : EditorModel) (s s1 : EditorState M)
    (CommandType : string) (h : Handler) (Params : FJsonObject) (BlueprintPath : string)
    (Asset : option UObject) :
  SelectHandler CommandType = Some h ->
  In h AnalysisHandlers ->
  TryGetStringField host Params "blueprint_path" = Some BlueprintPath ->
  perform M (LoadAsset BlueprintPath) s = (Asset, s1) ->
  Cast_UBlueprint Asset = None ->
  outcome (run M (HandleCommand host CommandType Params) s)
  = Returned (CreateErrorResponse host ("Failed to load blueprint: " +:+ BlueprintPath)).
Proof.
  intros Hsel Hin Hpath Hload Hcast. unfold HandleCommand; rewrite Hsel; clear Hsel.
  cbn [AnalysisHandlers In] in Hin.
  repeat (destruct Hin as [<-|Hin]; [|try contradiction]); try contradiction;
    unfold_handlers; rewrite Hpath; simpl; rewrite Hload; simpl; rewrite Hcast;
    reflexivity.
Qed.

Lemma analysis_needs_a_blueprint_witness :
  outcome (run (Scripted DoorProject)
             (HandleCommand PlainHost "get_blueprint_variable_details"
                {[ "blueprint_path" := FJsonValueString "/Game/Materials/M_Steel" ]}) 0%nat)
  = Returned (CreateErrorResponse PlainHost
                "Failed to load blueprint: /Game/Materials/M_Steel").
Proof.
  apply (analysis_needs_a_blueprint PlainHost (Scripted DoorProject) 0%nat 1%nat
           "get_blueprint_variable_details" CmdGetBlueprintVariableDetails
           {[ "blueprint_path" := FJsonValueString "/Game/Materials/M_Steel" ]}
           "/Game/Materials/M_Steel" (Some (AMaterialInterface M_Steel)));
    first [reflexivity | simpl; tauto].
Defined.
Lemma BasicNodeInfo_entry (Node : UEdGraphNode) :
  EntryOfNode Node (FJsonValueObject (BasicNodeInfo Node)).
Proof.
  eexists; split; [reflexivity|].
  unfold BasicNodeInfo, SetStringField.
  repeat split; repeat (rewrite lookup_insert_ne by discriminate); apply lookup_insert_eq.
Qed.

(** The basic node array has, in order, one entry for every node that is
    set; it is never longer than the array of nodes. *)
Lemma BasicNodeArray_entries (GraphNodes : list (option UEdGraphNode)) :
  Forall2 EntryOfNode (omap id GraphNodes) (BasicNodeArray GraphNodes)
  /\ (length (BasicNodeArray GraphNodes) <= length GraphNodes)%nat.
Proof.
  unfold BasicNodeArray.
  induction GraphNodes as [|[Node|] rest [IHentries IHlength]]; simpl.
  - split; [constructor|lia].
  - split; [constructor; [apply BasicNodeInfo_entry|exact IHentries]|].
    apply le_n_S, IHlength.
  - split; [exact IHentries|apply le_S, IHlength].
Qed.

Lemma VariableDetails_entry (Var : FBPVariableDescription) :
  EntryOfVariable Var (FJsonValueObject (VariableDetails Var)).
Proof.
  eexists; split; [reflexivity|].
  unfold VariableDetails, SetStringField, SetBoolField, SetNumberField.
  destruct (FriendlyName Var), (MetaData_Tooltip Var); cbn [FString.IsEmpty default];
    repeat split; repeat (rewrite lookup_insert_ne by discriminate); apply lookup_insert_eq.
Qed.

Lemma FunctionDetails_entry (bIncludeGraph : bool) (Graph : UEdGraph) :
  EntryOfFunction bIncludeGraph Graph (FJsonValueObject (FunctionDetails bIncludeGraph Graph)).
Proof.
  eexists; split; [reflexivity|].
  unfold FunctionDetails, SetStringField, SetArrayField, SetNumberField.
  destruct bIncludeGraph;
    (split; [repeat (rewrite lookup_insert_ne by discriminate); apply lookup_insert_eq|]);
    (split; [repeat (rewrite lookup_insert_ne by discriminate); apply lookup_insert_eq|]);
    (split; [repeat (rewrite lookup_insert_ne by discriminate); apply lookup_insert_eq|]).
  - rewrite lookup_insert_eq. split; [intros _; reflexivity|intros _; eexists; reflexivity].
  - repeat (rewrite lookup_insert_ne by discriminate). rewrite lookup_empty.
    split; [intros [? H]; discriminate H|discriminate].
Qed.

(** With a name the loops keep the entries of that name, without one they
    keep every entry. *)
Lemma variables_of_name (VariableName : string) (Variables : list FBPVariableDescription) :
  omap (fun Var : FBPVariableDescription =>
          if true && negb (VarName Var ==? VariableName)
          then None else Some (VariableDetails Var)) Variables
  = map VariableDetails (VariablesNamed VariableName Variables).
Proof.
  unfold VariablesNamed.
  induction Variables as [|Var rest IH]; [reflexivity|]. simpl.
  destruct (VarName Var ==? VariableName); simpl; first [exact IH | f_equal; exact IH].
Qed.

Lemma variables_of_any_name (VariableName : string) (Variables : list FBPVariableDescription) :
  omap (fun Var : FBPVariableDescription =>
          if false && negb (VarName Var ==? VariableName)
          then None else Some (VariableDetails Var)) Variables
  = map VariableDetails Variables.
Proof.
  induction Variables as [|Var rest IH]; [reflexivity|]. simpl.
  first [exact IH | f_equal; exact IH].
Qed.

Lemma functions_of_name (bIncludeGraph : bool) (FunctionName : string)
    (Graphs : list (option UEdGraph)) :
  omap (fun Graph : option UEdGraph =>
          Graph ≫= fun Graph =>
            if true && negb (GetName (GraphObject Graph) ==? FunctionName)
            then None else Some (FunctionDetails bIncludeGraph Graph)) Graphs
  = map (FunctionDetails bIncludeGraph) (GraphsNamed FunctionName Graphs).
Proof.
  unfold GraphsNamed.
  induction Graphs as [|[Graph|] rest IH]; [reflexivity| |exact IH]. simpl.
  destruct (GetName (GraphObject Graph) ==? FunctionName); simpl;
    first [exact IH | f_equal; exact IH].
Qed.

Lemma functions_of_any_name (bIncludeGraph : bool) (FunctionName : string)
    (Graphs : list (option UEdGraph)) :
  omap (fun Graph : option UEdGraph =>
          Graph ≫= fun Graph =>
            if false && negb (GetName (GraphObject Graph) ==? FunctionName)
            then None else Some (FunctionDetails bIncludeGraph Graph)) Graphs
  = map (FunctionDetails bIncludeGraph) (omap id Graphs).
Proof.
  induction Graphs as [|[Graph|] rest IH]; [reflexivity| |exact IH]. simpl.
  first [exact IH | f_equal; exact IH].
Qed.

Lemma Forall2_map_entries {A : Type} (Describes : A -> FJsonValue -> Prop)
    (ToJson : A -> FJsonObject) (l : list A) :
  (forall x, Describes x (FJsonValueObject (ToJson x))) ->
  Forall2 Describes l (map FJsonValueObject (map ToJson l)).
Proof. intros H. induction l; simpl; constructor; auto. Qed.

Ltac lookup_field :=
  unfold SetStringField, SetBoolField, SetNumberField, SetArrayField, SetObjectField;
  repeat (rewrite lookup_insert_ne by discriminate);
  first [apply lookup_insert_eq | apply lookup_empty].

Section BlueprintLoaded.
Context (host : Host) (M : EditorModel) (s s1 : EditorState M) (Params : FJsonObject).
Context (BlueprintPath : string) (Blueprint : UBlueprint).

Hypothesis blueprint_path_read :
  TryGetStringField host Params "blueprint_path" = Some BlueprintPath.
Hypothesis blueprint_loaded :
  perform M (LoadAsset BlueprintPath) s = (Some (ABlueprint Blueprint), s1).

(** X19.  The reply of [read_blueprint_content] for a blueprint that loads
    has "success", the path, the name of the blueprint and the name of its
    parent class ("None" when it has none); each of the sections
    "variables", "functions", "event_graph", "components" and "interfaces" is
    present exactly when its flag is [true] or cannot be read. *)
Theorem read_blueprint_content_sections :
  let r := run M (HandleCommand host "read_blueprint_content" Params) s in
  exists ResultObj : FJsonObject,
    outcome r = Returned ResultObj
    /\ ResultObj !! "success" = Some (FJsonValueBoolean true)
    /\ ResultObj !! "blueprint_path" = Some (FJsonValueString BlueprintPath)
    /\ ResultObj !! "blueprint_name"
       = Some (FJsonValueString (GetName (BlueprintObject Blueprint)))
    /\ ResultObj !! "parent_class"
       = Some (FJsonValueString
                 (match ParentClass Blueprint with
                  | Some Class => ClassGetName Class
                  | None => "None"
                  end))
    /\ Forall (fun Section =>
                 is_Some (ResultObj !! fst Section)
                 <-> IncludeFlag host Params (snd Section) = true)
         ContentSections.
Proof.
  change (HandleCommand host "read_blueprint_content" Params)
    with (HandleReadBlueprintContent host Params).
  unfold HandleReadBlueprintContent. rewrite blueprint_path_read. cbn [bind call].
  cbn [run]. rewrite blueprint_loaded. cbn [Cast_UBlueprint mbind option_bind].
  cbv zeta. unfold ContentSections, IncludeFlag.
  destruct (default true (TryGetBoolField host Params "include_event_graph")) eqn:Hevents,
    (default true (TryGetBoolField host Params "include_functions")) eqn:Hfunctions,
    (default true (TryGetBoolField host Params "include_variables")) eqn:Hvariables,
    (default true (TryGetBoolField host Params "include_components")) eqn:Hcomponents,
    (default true (TryGetBoolField host Params "include_interfaces")) eqn:Hinterfaces;
    (eexists; split; [reflexivity|]);
    (split; [lookup_field|]); (split; [lookup_field|]);
    (split; [lookup_field|]); (split; [lookup_field|]);
    repeat first [apply List.Forall_nil | apply List.Forall_cons];
    cbn [fst snd];
    rewrite ?Hevents, ?Hfunctions, ?Hvariables, ?Hcomponents, ?Hinterfaces;
    unfold SetStringField, SetBoolField, SetNumberField, SetArrayField, SetObjectField;
    repeat (rewrite lookup_insert_ne by discriminate);
    first [ rewrite lookup_insert_eq; split; [intros _; reflexivity|intros _; eexists; reflexivity]
          | rewrite lookup_empty; split; [intros [? H]; discriminate H|discriminate] ].
Qed.

(** X20.  With the event graph asked for, the reply of
    [read_blueprint_content] has an "event_graph" object.  It is empty when
    no event graph of the blueprint is named "EventGraph" (ignoring case);
    otherwise it describes the first such graph: its name, a "node_count"
    that counts every entry of the node array, and "nodes" with one entry,
    in order, for every node that is set, so that "nodes" can be shorter than
    "node_count" says. *)
Theorem read_blueprint_content_event_graph :
  IncludeFlag host Params "include_event_graph" = true ->
  let r := run M (HandleCommand host "read_blueprint_content" Params) s in
  exists ResultObj EventGraphObj : FJsonObject,
    outcome r = Returned ResultObj
    /\ ResultObj !! "event_graph" = Some (FJsonValueObject EventGraphObj)
    /\ match GraphsNamed "EventGraph" (UbergraphPages Blueprint) with
       | [] => EventGraphObj = ∅
       | Graph :: _ =>
           exists NodeArray : list FJsonValue,
             EventGraphObj !! "name" = Some (FJsonValueString (GetName (GraphObject Graph)))
             /\ EventGraphObj !! "node_count"
                = Some (FJsonValueNumber (Int32ToDouble (Z.of_nat (length (Nodes Graph)))))
             /\ EventGraphObj !! "nodes" = Some (FJsonValueArray NodeArray)
             /\ Forall2 EntryOfNode (SetNodes Graph) NodeArray
             /\ (length NodeArray <= length (Nodes Graph))%nat
       end.
Proof.
  unfold IncludeFlag. intros Hflag.
  change (HandleCommand host "read_blueprint_content" Params)
    with (HandleReadBlueprintContent host Params).
  unfold HandleReadBlueprintContent. rewrite blueprint_path_read. cbn [bind call].
  cbn [run]. rewrite blueprint_loaded. cbn [Cast_UBlueprint mbind option_bind].
  cbv zeta. rewrite Hflag, FindGraphByName_head.
  destruct (default true (TryGetBoolField host Params "include_components")),
    (default true (TryGetBoolField host Params "include_interfaces"));
    (eexists _, _; split; [reflexivity|]; split; [lookup_field|]);
    (destruct (GraphsNamed "EventGraph" (UbergraphPages Blueprint)) as [|Graph others];
     cbn [head]; [reflexivity|]);
    exists (BasicNodeArray (Nodes Graph));
    (split; [lookup_field|]); (split; [lookup_field|]); (split; [lookup_field|]);
    apply BasicNodeArray_entries.
Qed.

(** X21.  [get_blueprint_variable_details] for a blueprint that loads.
    Without a readable 'variable_name' the reply lists every variable of the
    blueprint, in order, and "variable_count" is their number.  With one,
    the reply describes the first variable whose name equals it, ignoring
    case, and has no "variables" array; when there is no such variable the
    handler returns the error "Variable not found: <name>". *)
Theorem get_blueprint_variable_details_reply :
  let r := run M (HandleCommand host "get_blueprint_variable_details" Params) s in
  match TryGetStringField host Params "variable_name" with
  | None =>
      exists (ResultObj : FJsonObject) (Entries : list FJsonValue),
        outcome r = Returned ResultObj
        /\ ResultObj !! "success" = Some (FJsonValueBoolean true)
        /\ ResultObj !! "variables" = Some (FJsonValueArray Entries)
        /\ ResultObj !! "variable_count"
           = Some (FJsonValueNumber
                     (Int32ToDouble (Z.of_nat (length (NewVariables Blueprint)))))
        /\ Forall2 EntryOfVariable (NewVariables Blueprint) Entries
  | Some VariableName =>
      match VariablesNamed VariableName (NewVariables Blueprint) with
      | [] =>
          outcome r
          = Returned (CreateErrorResponse host ("Variable not found: " +:+ VariableName))
      | Var :: _ =>
          exists (ResultObj : FJsonObject) (Entry : FJsonValue),
            outcome r = Returned ResultObj
            /\ ResultObj !! "success" = Some (FJsonValueBoolean true)
            /\ ResultObj !! "variable_name" = Some (FJsonValueString VariableName)
            /\ ResultObj !! "variable" = Some Entry
            /\ EntryOfVariable Var Entry
            /\ ResultObj !! "variables" = None
      end
  end.
Proof.
  change (HandleCommand host "get_blueprint_variable_details" Params)
    with (HandleGetBlueprintVariableDetails host Params).
  unfold HandleGetBlueprintVariableDetails. rewrite blueprint_path_read. cbn [bind call].
  cbn [run]. rewrite blueprint_loaded. cbn [Cast_UBlueprint mbind option_bind].
  cbv zeta.
  destruct (TryGetStringField host Params "variable_name") as [VariableName|].
  - change (bool_decide (is_Some (Some VariableName))) with true. cbv iota.
    cbn [default from_option id]. rewrite variables_of_name.
    destruct (VariablesNamed VariableName (NewVariables Blueprint)) as [|Var others];
      [reflexivity|].
    cbn [map]. eexists _, _. split; [reflexivity|].
    split; [lookup_field|]. split; [lookup_field|]. split; [lookup_field|].
    split; [apply VariableDetails_entry|lookup_field].
  - change (bool_decide (is_Some (@None string))) with false. cbv iota.
    rewrite variables_of_any_name.
    eexists _, _. split; [reflexivity|].
    split; [lookup_field|]. split; [lookup_field|].
    split; [rewrite length_map; lookup_field|].
    apply Forall2_map_entries, VariableDetails_entry.
Qed.

(** X22.  [get_blueprint_function_details] for a blueprint that loads.
    Without a readable 'function_name' the reply lists every function graph
    that is set, in order, and "function_count" is their number.  With one,
    the reply describes the first function graph whose name equals it,
    ignoring case; when there is no such graph the handler returns the error
    "Function not found: <name>".  A function entry has "graph_nodes"
    exactly when 'include_graph' is [true] or cannot be read. *)
Theorem get_blueprint_function_details_reply :
  let r := run M (HandleCommand host "get_blueprint_function_details" Params) s in
  let bIncludeGraph := IncludeFlag host Params "include_graph" in
  match TryGetStringField host Params "function_name" with
  | None =>
      exists (ResultObj : FJsonObject) (Entries : list FJsonValue),
        outcome r = Returned ResultObj
        /\ ResultObj !! "success" = Some (FJsonValueBoolean true)
        /\ ResultObj !! "functions" = Some (FJsonValueArray Entries)
        /\ ResultObj !! "function_count"
           = Some (FJsonValueNumber
                     (Int32ToDouble
                        (Z.of_nat (length (omap id (FunctionGraphs Blueprint))))))
        /\ Forall2 (EntryOfFunction bIncludeGraph) (omap id (FunctionGraphs Blueprint)) Entries
  | Some FunctionName =>
      match GraphsNamed FunctionName (FunctionGraphs Blueprint) with
      | [] =>
          outcome r
          = Returned (CreateErrorResponse host ("Function not found: " +:+ FunctionName))
      | Graph :: _ =>
          exists (ResultObj : FJsonObject) (Entry : FJsonValue),
            outcome r = Returned ResultObj
            /\ ResultObj !! "success" = Some (FJsonValueBoolean true)
            /\ ResultObj !! "function_name" = Some (FJsonValueString FunctionName)
            /\ ResultObj !! "function" = Some Entry
            /\ EntryOfFunction bIncludeGraph Graph Entry
            /\ ResultObj !! "functions" = None
      end
  end.
Proof.
  change (HandleCommand host "get_blueprint_function_details" Params)
    with (HandleGetBlueprintFunctionDetails host Params).
  unfold HandleGetBlueprintFunctionDetails, IncludeFlag.
  rewrite blueprint_path_read. cbn [bind call].
  cbn [run]. rewrite blueprint_loaded. cbn [Cast_UBlueprint mbind option_bind].
  cbv zeta.
  destruct (TryGetStringField host Params "function_name") as [FunctionName|].
  - change (bool_decide (is_Some (Some FunctionName))) with true. cbv iota.
    cbn [default from_option id]. rewrite functions_of_name.
    destruct (GraphsNamed FunctionName (FunctionGraphs Blueprint)) as [|Graph others];
      [reflexivity|].
    cbn [map]. eexists _, _. split; [reflexivity|].
    split; [lookup_field|]. split; [lookup_field|]. split; [lookup_field|].
    split; [apply FunctionDetails_entry|lookup_field].
  - change (bool_decide (is_Some (@None string))) with false. cbv iota.
    rewrite functions_of_any_name.
    eexists _, _. split; [reflexivity|].
    split; [lookup_field|]. split; [lookup_field|].
    split; [rewrite length_map; lookup_field|].
    apply Forall2_map_entries, FunctionDetails_entry.
Qed.

End BlueprintLoaded.
Lemma read_blueprint_content_sections_witness :
  let Params : FJsonObject :=
    {[ "blueprint_path" := FJsonValueString "/Game/Blueprints/BP_Door";
       "include_functions" := FJsonValueBoolean false ]} in
  let r := run (Scripted DoorProject)
             (HandleCommand PlainHost "read_blueprint_content" Params) 0%nat in
  exists ResultObj : FJsonObject,
    outcome r = Returned ResultObj
    /\ ResultObj !! "success" = Some (FJsonValueBoolean true)
    /\ ResultObj !! "blueprint_path" = Some (FJsonValueString "/Game/Blueprints/BP_Door")
    /\ ResultObj !! "blueprint_name" = Some (FJsonValueString "BP_Door")
    /\ ResultObj !! "parent_class" = Some (FJsonValueString "None")
    /\ Forall (fun Section =>
                 is_Some (ResultObj !! fst Section)
                 <-> IncludeFlag PlainHost Params (snd Section) = true)
         ContentSections.
Proof.
  refine (read_blueprint_content_sections PlainHost (Scripted DoorProject) 0%nat 1%nat
            {[ "blueprint_path" := FJsonValueString "/Game/Blueprints/BP_Door";
               "include_functions" := FJsonValueBoolean false ]}
            "/Game/Blueprints/BP_Door" BP_Door _ _);
    reflexivity.
Defined.

Lemma read_blueprint_content_event_graph_witness :
  let r := run (Scripted BarrelProject)
             (HandleCommand PlainHost "read_blueprint_content"
                {[ "blueprint_path" := FJsonValueString "/Game/Blueprints/BP_Barrel" ]})
             0%nat in
  exists ResultObj EventGraphObj : FJsonObject,
    outcome r = Returned ResultObj
    /\ ResultObj !! "event_graph" = Some (FJsonValueObject EventGraphObj)
    /\ exists NodeArray : list FJsonValue,
         EventGraphObj !! "name" = Some (FJsonValueString "EventGraph")
         /\ EventGraphObj !! "node_count" = Some (FJsonValueNumber (Int32ToDouble 3))
         /\ EventGraphObj !! "nodes" = Some (FJsonValueArray NodeArray)
         /\ Forall2 EntryOfNode [BeginPlayNode; PrintNode] NodeArray
         /\ (length NodeArray <= 3)%nat.
Proof.
  refine (read_blueprint_content_event_graph PlainHost (Scripted BarrelProject) 0%nat 1%nat
            {[ "blueprint_path" := FJsonValueString "/Game/Blueprints/BP_Barrel" ]}
            "/Game/Blueprints/BP_Barrel" BP_Barrel _ _ _);
    reflexivity.
Defined.

Lemma get_blueprint_variable_details_reply_witness :
  let r := run (Scripted DoorProject)
             (HandleCommand PlainHost "get_blueprint_variable_details"
                {[ "blueprint_path" := FJsonValueString "/Game/Blueprints/BP_Door";
                   "variable_name" := FJsonValueString "health" ]}) 0%nat in
  exists (ResultObj : FJsonObject) (Entry : FJsonValue),
    outcome r = Returned ResultObj
    /\ ResultObj !! "success" = Some (FJsonValueBoolean true)
    /\ ResultObj !! "variable_name" = Some (FJsonValueString "health")
    /\ ResultObj !! "variable" = Some Entry
    /\ EntryOfVariable Health Entry
    /\ ResultObj !! "variables" = None.
Proof.
  refine (get_blueprint_variable_details_reply PlainHost (Scripted DoorProject) 0%nat 1%nat
            {[ "blueprint_path" := FJsonValueString "/Game/Blueprints/BP_Door";
               "variable_name" := FJsonValueString "health" ]}
            "/Game/Blueprints/BP_Door" BP_Door _ _);
    reflexivity.
Defined.

Lemma get_blueprint_function_details_reply_witness :
  let Params : FJsonObject :=
    {[ "blueprint_path" := FJsonValueString "/Game/Blueprints/BP_Door" ]} in
  let r := run (Scripted DoorProject)
             (HandleCommand PlainHost "get_blueprint_function_details" Params) 0%nat in
  exists (ResultObj : FJsonObject) (Entries : list FJsonValue),
    outcome r = Returned ResultObj
    /\ ResultObj !! "success" = Some (FJsonValueBoolean true)
    /\ ResultObj !! "functions" = Some (FJsonValueArray Entries)
    /\ ResultObj !! "function_count" = Some (FJsonValueNumber (Int32ToDouble 1))
    /\ Forall2 (EntryOfFunction true) [OpenGraph] Entries.
Proof.
  refine (get_blueprint_function_details_reply PlainHost (Scripted DoorProject) 0%nat 1%nat
            {[ "blueprint_path" := FJsonValueString "/Game/Blueprints/BP_Door" ]}
            "/Game/Blueprints/BP_Door" BP_Door _ _);
    reflexivity.
Defined.

(** The variable and the function of the sample blueprint, asked for by
    name. *)
Example door_details :
  let Found :=
    run (Scripted DoorProject)
      (HandleCommand PlainHost "get_blueprint_variable_details"
         {[ "blueprint_path" := FJsonValueString "/Game/Blueprints/BP_Door";
            "variable_name" := FJsonValueString "BISOPEN" ]}) 0%nat in
  let Missing :=
    run (Scripted DoorProject)
      (HandleCommand PlainHost "get_blueprint_function_details"
         {[ "blueprint_path" := FJsonValueString "/Game/Blueprints/BP_Door";
            "function_name" := FJsonValueString "Close" ]}) 0%nat in
  (exists ResultObj : FJsonObject,
      outcome Found = Returned ResultObj
      /\ ResultObj !! "variable" = Some (FJsonValueObject (VariableDetails bIsOpen)))
  /\ VariableDetails bIsOpen !! "friendly_name" = Some (FJsonValueString "Is Open")
  /\ VariableDetails bIsOpen !! "is_editable_in_instance" = Some (FJsonValueBoolean false)
  /\ VariableDetails Health !! "friendly_name" = Some (FJsonValueString "Health")
  /\ VariableDetails Health !! "is_editable" = Some (FJsonValueBoolean true)
  /\ outcome Missing
     = Returned (CreateErrorResponse PlainHost "Function not found: Close").
Proof. split; [eexists; split; reflexivity|repeat split]. Qed.

(* ===================================================================== *)
(** ** The parameters of a function                                       *)
(* ===================================================================== *)

Lemma SameDirection_eq (a b : EEdGraphPinDirection) : SameDirection a b = true <-> a = b.
Proof. destruct a, b; simpl; split; congruence. Qed.


(** The pins the loop over the pins of a node keeps. *)
Lemma In_ParameterPins (Dir : EEdGraphPinDirection) (Exec : string) (Node : UEdGraphNode)
    (Entry : FJsonValue) :
  In Entry (ParameterPins Dir Exec Node)
  <-> exists Pin : UEdGraphPin,
        In (Some Pin) (Pins Node)
        /\ Direction Pin = Dir
        /\ PinName Pin ==? Exec = false
        /\ Entry = ParameterPin Pin.
Proof.
  unfold ParameterPins.
  induction (Pins Node) as [|[Pin|] rest IH].
  - simpl. split; [tauto|intros (Pin & [] & _)].
  - change (In Entry
              (match (if SameDirection (Direction Pin) Dir && negb (PinName Pin ==? Exec)
                      then Some (ParameterPin Pin) else None) with
               | Some y =>
                   y :: omap (fun Pin : option UEdGraphPin =>
                                Pin ≫= fun Pin =>
                                  if SameDirection (Direction Pin) Dir
                                     && negb (PinName Pin ==? Exec)
                                  then Some (ParameterPin Pin) else None) rest
               | None =>
                   omap (fun Pin : option UEdGraphPin =>
                           Pin ≫= fun Pin =>
                             if SameDirection (Direction Pin) Dir
                                && negb (PinName Pin ==? Exec)
                             then Some (ParameterPin Pin) else None) rest
               end)
            <-> (exists Pin0 : UEdGraphPin,
                    In (Some Pin0) (Some Pin :: rest)
                    /\ Direction Pin0 = Dir
                    /\ PinName Pin0 ==? Exec = false
                    /\ Entry = ParameterPin Pin0)).
    destruct (SameDirection (Direction Pin) Dir) eqn:Hdir;
      destruct (PinName Pin ==? Exec) eqn:Hname; cbn [andb negb];
      try apply SameDirection_eq in Hdir.
    + rewrite IH. split.
      * intros (Other & Hin & Hrest). exists Other. split; [right; exact Hin|exact Hrest].
      * intros (Other & [Hhead|Hin] & Hd & Hn & He).
        -- injection Hhead as <-. congruence.
        -- exists Other. auto.
    + cbn [In]. rewrite IH. split.
      * intros [<-|(Other & Hin & Hrest)].
        -- exists Pin. split; [left; reflexivity|auto].
        -- exists Other. split; [right; exact Hin|exact Hrest].
      * intros (Other & [Hhead|Hin] & Hrest).
        -- injection Hhead as <-. left. symmetry. apply Hrest.
        -- right. exists Other. auto.
    + rewrite IH. split.
      * intros (Other & Hin & Hrest). exists Other. split; [right; exact Hin|exact Hrest].
      * intros (Other & [Hhead|Hin] & Hd & Hn & He).
        -- injection Hhead as <-. apply SameDirection_eq in Hd. congruence.
        -- exists Other. auto.
    + rewrite IH. split.
      * intros (Other & Hin & Hrest). exists Other. split; [right; exact Hin|exact Hrest].
      * intros (Other & [Hhead|Hin] & Hd & Hn & He).
        -- injection Hhead as <-. apply SameDirection_eq in Hd. congruence.
        -- exists Other. auto.
  - change (In Entry
              (omap (fun Pin : option UEdGraphPin =>
                       Pin ≫= fun Pin =>
                         if SameDirection (Direction Pin) Dir && negb (PinName Pin ==? Exec)
                         then Some (ParameterPin Pin) else None) rest)
            <-> (exists Pin0 : UEdGraphPin,
                    In (Some Pin0) (None :: rest)
                    /\ Direction Pin0 = Dir
                    /\ PinName Pin0 ==? Exec = false
                    /\ Entry = ParameterPin Pin0)).
    rewrite IH. split.
    + intros (Other & Hin & Hrest). exists Other. split; [right; exact Hin|exact Hrest].
    + intros (Other & [Hhead|Hin] & Hrest); [discriminate Hhead|]. exists Other. auto.
Qed.

(** X23.  The signature [get_blueprint_function_details] reports for a
    function graph.  The input parameters are the output pins, other than
    "then", of the nodes whose class name contains "FunctionEntry"; the
    output parameters are the input pins, other than "exec", of the nodes
    whose class name contains "FunctionResult" and not "FunctionEntry".  Pin
    names and class names are compared ignoring case, unset nodes and pins
    are skipped, and each parameter is reported with its name and type. *)
Theorem FunctionDetails_parameters (bIncludeGraph : bool) (Graph : UEdGraph) :
  exists InputPins OutputPins : list FJsonValue,
    FunctionDetails bIncludeGraph Graph !! "input_parameters"
    = Some (FJsonValueArray InputPins)
    /\ FunctionDetails bIncludeGraph Graph !! "output_parameters"
       = Some (FJsonValueArray OutputPins)
    /\ (forall Entry : FJsonValue,
          In Entry InputPins
          <-> ParameterOf Graph IsFunctionEntry EGPD_Output "then" Entry)
    /\ (forall Entry : FJsonValue,
          In Entry OutputPins
          <-> ParameterOf Graph
                (fun Node => negb (IsFunctionEntry Node) && IsFunctionResult Node)
                EGPD_Input "exec" Entry).
Proof.
  eexists _, _. split; [|split; [|split]].
  - unfold FunctionDetails. destruct bIncludeGraph; lookup_field.
  - unfold FunctionDetails. destruct bIncludeGraph; lookup_field.
  - intros Entry. rewrite in_flat_map. unfold ParameterOf. split.
    + intros ([Node|] & Hnode & Hentry); [|destruct Hentry].
      unfold NodeInputPins in Hentry. fold (IsFunctionEntry Node) in Hentry.
      destruct (IsFunctionEntry Node) eqn:Hclass; [|destruct Hentry].
      apply In_ParameterPins in Hentry. destruct Hentry as (Pin & Hpin).
      exists Node, Pin. tauto.
    + intros (Node & Pin & Hnode & Hclass & Hpin).
      exists (Some Node). split; [exact Hnode|].
      unfold NodeInputPins. fold (IsFunctionEntry Node). rewrite Hclass.
      apply In_ParameterPins. exists Pin. exact Hpin.
  - intros Entry. rewrite in_flat_map. unfold ParameterOf. split.
    + intros ([Node|] & Hnode & Hentry); [|destruct Hentry].
      unfold NodeOutputPins in Hentry.
      fold (IsFunctionEntry Node) in Hentry. fold (IsFunctionResult Node) in Hentry.
      destruct (IsFunctionEntry Node) eqn:Hentryclass; [destruct Hentry|].
      destruct (IsFunctionResult Node) eqn:Hclass; [|destruct Hentry].
      apply In_ParameterPins in Hentry. destruct Hentry as (Pin & Hpin).
      exists Node, Pin. rewrite Hentryclass, Hclass. tauto.
    + intros (Node & Pin & Hnode & Hclass & Hpin).
      apply andb_true_iff in Hclass. destruct Hclass as [Hentryclass Hclass].
      apply negb_true_iff in Hentryclass.
      exists (Some Node). split; [exact Hnode|].
      unfold NodeOutputPins. fold (IsFunctionEntry Node). fold (IsFunctionResult Node).
      rewrite Hentryclass, Hclass.
      apply In_ParameterPins. exists Pin. exact Hpin.
Qed.

(** The signature of the sample function: "Speed" comes in, "Done" goes
    out; the execution pins and the unset pin are left out. *)
Example signature_of_Open :
  FunctionDetails false OpenGraph !! "input_parameters"
  = Some (FJsonValueArray
            [FJsonValueObject (SetStringField "type" "real" (SetStringField "name" "Speed" ∅))])
  /\ FunctionDetails false OpenGraph !! "output_parameters"
     = Some (FJsonValueArray
               [FJsonValueObject
                  (SetStringField "type" "bool" (SetStringField "name" "Done" ∅))]).
Proof. split; reflexivity. Qed.
(* ===================================================================== *)
(** ** analyze_blueprint_graph: details and connections                   *)
(* ===================================================================== *)








(* ===================================================================== *)
(** ** add_component_to_blueprint                                         *)
(* ===================================================================== *)

Lemma decide_is_Some_Some {A : Type} (x : A) : bool_decide (is_Some (Some x)) = true.
Proof. reflexivity. Qed.

Lemma decide_is_Some_None {A : Type} : bool_decide (is_Some (@None A)) = false.
Proof. reflexivity. Qed.

(** Names the lookups of a run and the last answer, for the goal
    [exists Tried Last Class, ...]. *)
Ltac name_lookups :=
  match goal with
  | |- context [omap ClassLookup ?cs] =>
      let l := eval simpl in (omap ClassLookup cs) in
      match l with
      | [(?a, ?c)] => exists [], a, c
      | [(?a1, _); (?a, ?c)] => exists [a1], a, c
      | [(?a1, _); (?a2, _); (?a, ?c)] => exists [a1; a2], a, c
      | [(?a1, _); (?a2, _); (?a3, _); (?a, ?c)] => exists [a1; a2; a3], a, c
      end
  end.

(** X25.  [add_component_to_blueprint] for a blueprint it found looks the
    component class up under the names of [ComponentClassNames], in that
    order, and stops at the first name that is found.  When none is found,
    or the class found is not a component class, it returns the error
    "Unknown component type: <type>". *)
Theorem add_component_class_lookup (host : Host) (M : EditorModel) (s s1 : EditorState M)
    (Params : FJsonObject) (BlueprintName ComponentType ComponentName : string)
    (Blueprint : UBlueprint) :
  TryGetStringField host Params "blueprint_name" = Some BlueprintName ->
  TryGetStringField host Params "component_type" = Some ComponentType ->
  TryGetStringField host Params "component_name" = Some ComponentName ->
  perform M (FindBlueprint BlueprintName) s = (Some Blueprint, s1) ->
  let r := run M (HandleCommand host "add_component_to_blueprint" Params) s in
  exists (Tried : list string) (Last : string) (Class : option UClass),
    omap ClassLookup (calls r) = map (fun Name => (Name, None)) Tried ++ [(Last, Class)]
    /\ (Tried ++ [Last]) `prefix_of` ComponentClassNames ComponentType
    /\ match Class with
       | None =>
           Tried ++ [Last] = ComponentClassNames ComponentType
           /\ outcome r
              = Returned (CreateErrorResponse host
                            ("Unknown component type: " +:+ ComponentType))
       | Some Class =>
           if IsChildOf_UActorComponent Class then True
           else outcome r
                = Returned (CreateErrorResponse host
                              ("Unknown component type: " +:+ ComponentType))
       end.
Proof.
  intros Hbp Htype Hname Hfind.
  change (HandleCommand host "add_component_to_blueprint" Params)
    with (HandleAddComponentToBlueprint host Params).
  by_wp. unfold HandleAddComponentToBlueprint, ComponentClassNames.
  rewrite Hbp, Htype, Hname. wp_norm. wp_known.
  destruct (FString.EndsWith ComponentType "Component") eqn:Hends,
    (FString.StartsWith ComponentType "U") eqn:Hstarts;
    repeat first
      [ progress wp_norm
      | progress (rewrite ?decide_is_Some_Some, ?(@decide_is_Some_None UClass);
                  cbn [negb andb])
      | match goal with
        | |- wp _ (Call _ _) _ _ =>
            let Answer := fresh "Answer" in
            apply wp_Call; intros Answer ? ?; destruct Answer
        | |- wp _ (Ret _) _ _ => apply wp_Ret
        | |- wp _ (ReturnError _ _) _ _ => unfold ReturnError; apply wp_Ret
        | |- wp _ NullDereference _ _ => apply wp_NullDereference
        | |- wp _ (match ?x with _ => _ end) _ _ => destruct x eqn:?
        | |- wp _ (bind (match ?x with _ => _ end) _) _ _ => destruct x eqn:?
        | |- wp _ (bind (bind (match ?x with _ => _ end) _) _) _ _ => destruct x eqn:?
        | |- wp _ (bind (when ?b _) _) _ _ => destruct b eqn:?
        | |- wp _ (bind (bind (when ?b _) _) _) _ _ => destruct b eqn:?
        end ];
    name_lookups;
    (split; [reflexivity|]);
    (split; [eexists; reflexivity|]);
    first [ split; reflexivity
          | match goal with
            | |- if ?b then True else _ =>
                destruct b; [exact I|first [reflexivity | simpl in *; discriminate]]
            end ].
Qed.

Lemma add_component_class_lookup_witness :
  let r := run (Scripted LightProject)
             (HandleCommand PlainHost "add_component_to_blueprint" GateLight) 0%nat in
  exists (Tried : list string) (Last : string) (Class : option UClass),
    omap ClassLookup (calls r) = map (fun Name => (Name, None)) Tried ++ [(Last, Class)]
    /\ (Tried ++ [Last]) `prefix_of` ComponentClassNames "PointLight"
    /\ match Class with
       | None =>
           Tried ++ [Last] = ComponentClassNames "PointLight"
           /\ outcome r
              = Returned (CreateErrorResponse PlainHost "Unknown component type: PointLight")
       | Some Class =>
           if IsChildOf_UActorComponent Class then True
           else outcome r
                = Returned (CreateErrorResponse PlainHost
                              "Unknown component type: PointLight")
       end.
Proof.
  refine (add_component_class_lookup PlainHost (Scripted LightProject) 0%nat 1%nat
            GateLight "BP_Gate" "PointLight" "Lantern" BP_Gate _ _ _ _);
    reflexivity.
Defined.

(** On the sample project "PointLight" is found at the fourth name. *)
Example point_light_lookups :
  omap ClassLookup
    (calls (run (Scripted LightProject)
              (HandleCommand PlainHost "add_component_to_blueprint" GateLight) 0%nat))
  = [("PointLight", None); ("PointLightComponent", None); ("UPointLight", None);
     ("UPointLightComponent", Some UPointLightComponent_StaticClass)]
  /\ ComponentClassNames "PointLight"
     = ["PointLight"; "PointLightComponent"; "UPointLight"; "UPointLightComponent"]
  /\ ComponentClassNames "UPointLightComponent" = ["UPointLightComponent"]
  /\ ComponentClassNames "uSphere" = ["uSphere"; "uSphereComponent"].
Proof. repeat split. Qed.

(** X26.  [add_component_to_blueprint] with a component class found at the
    first lookup.  When [CreateNode] returns no node the handler returns the
    error "Failed to add component to blueprint" and neither adds a node nor
    compiles.  Otherwise it places the template, when that is a scene
    component, by the fields 'location', 'rotation' and 'scale' that are
    present, adds the node to the construction script, compiles the
    blueprint and replies with the component name and type. *)
Theorem add_component_result (host : Host) (M : EditorModel) (s s1 s2 s3 : EditorState M)
    (Params : FJsonObject) (BlueprintName ComponentType ComponentName : string)
    (Blueprint : UBlueprint) (ComponentClass : UClass)
    (Script : USimpleConstructionScript) (NewNode : option USCS_Node) :
  TryGetStringField host Params "blueprint_name" = Some BlueprintName ->
  TryGetStringField host Params "component_type" = Some ComponentType ->
  TryGetStringField host Params "component_name" = Some ComponentName ->
  perform M (FindBlueprint BlueprintName) s = (Some Blueprint, s1) ->
  perform M (FindObject_UClass ComponentType) s1 = (Some ComponentClass, s2) ->
  IsChildOf_UActorComponent ComponentClass = true ->
  SimpleConstructionScript Blueprint = Some Script ->
  perform M (CreateNode Script ComponentClass ComponentName) s2 = (NewNode, s3) ->
  let r := run M (HandleCommand host "add_component_to_blueprint" Params) s in
  let Created :=
    [Called (FindBlueprint BlueprintName) (Some Blueprint);
     Called (FindObject_UClass ComponentType) (Some ComponentClass);
     Called (CreateNode Script ComponentClass ComponentName) NewNode] in
  match NewNode with
  | None =>
      outcome r = Returned (CreateErrorResponse host "Failed to add component to blueprint")
      /\ calls r = Created
  | Some Node =>
      outcome r
      = Returned (SetStringField "component_type" ComponentType
                    (SetStringField "component_name" ComponentName ∅))
      /\ calls r
         = Created
           ++ match Cast_USceneComponent (ComponentTemplate Node) with
              | Some SceneComponent => TransformCalls host Params SceneComponent
              | None => []
              end
           ++ [Called (AddNode Script Node) tt; Called (CompileBlueprint Blueprint) tt]
  end.
Proof.
  intros Hbp Htype Hname Hfind Hclass Hchild Hscript Hnode.
  change (HandleCommand host "add_component_to_blueprint" Params)
    with (HandleAddComponentToBlueprint host Params).
  destruct NewNode as [Node|]; by_wp;
    unfold HandleAddComponentToBlueprint, TransformCalls;
    rewrite Hbp, Htype, Hname;
    repeat first [ progress wp_norm | wp_known
                 | progress (rewrite ?decide_is_Some_Some; cbn [negb andb]) ];
    rewrite Hchild, Hscript;
    repeat first [progress wp_norm | wp_known];
    [|wp_step; split; reflexivity].
  destruct (Cast_USceneComponent (ComponentTemplate Node)) as [SceneComponent|];
    [destruct (HasField Params "location"), (HasField Params "rotation"),
       (HasField Params "scale")|];
    wp_auto; repeat match goal with x : unit |- _ => destruct x end;
    split; reflexivity.
Qed.

Lemma add_component_result_witness :
  let r := run (Scripted LightProject)
             (HandleCommand PlainHost "add_component_to_blueprint" GateLightByClass)
             0%nat in
  outcome r
  = Returned (SetStringField "component_type" "UPointLightComponent"
                (SetStringField "component_name" "Lantern" ∅))
  /\ calls r
     = [Called (FindBlueprint "BP_Gate") (Some BP_Gate);
        Called (FindObject_UClass "UPointLightComponent")
          (Some UPointLightComponent_StaticClass);
        Called (CreateNode GateScript UPointLightComponent_StaticClass "Lantern")
          (Some LanternNode);
        Called (SetRelativeLocation Lantern
                  {| VX := Double_0; VY := Double_0; VZ := Double_0 |}) tt;
        Called (AddNode GateScript LanternNode) tt;
        Called (CompileBlueprint BP_Gate) tt].
Proof.
  refine (add_component_result PlainHost (Scripted LightProject)
            0%nat 1%nat 2%nat 3%nat GateLightByClass
            "BP_Gate" "UPointLightComponent" "Lantern" BP_Gate
            UPointLightComponent_StaticClass GateScript (Some LanternNode)
            _ _ _ _ _ _ _ _);
    reflexivity.
Defined.
(* ===================================================================== *)
(** ** create_blueprint without loading a class                           *)
(* ===================================================================== *)

(** X27.  [create_blueprint] for a new name, with a 'parent_class' that is
    absent or empty, or whose class name (the value, with "A" put in front
    unless it begins with that letter) equals "APawn" or "AActor", ignoring
    case: no class is loaded; the factory gets [APawn] for the pawn and
    [AActor] otherwise, and the blueprint is made in the package
    "/Game/Blueprints/<name>".  When the factory returns a
    blueprint the asset registry is notified, the package is marked dirty
    and the reply has "name" and "path"; when it returns none the handler
    returns the error "Failed to create blueprint" and does neither. *)
Theorem create_blueprint_without_loading (host : Host) (M : EditorModel)
    (s : EditorState M) (Params : FJsonObject) (BlueprintName : string) :
  TryGetStringField host Params "name" = Some BlueprintName ->
  fst (perform M (DoesAssetExist ("/Game/Blueprints/" +:+ BlueprintName)) s) = false ->
  let Given := default "" (TryGetStringField host Params "parent_class") in
  FString.IsEmpty Given || (ParentClassName Given ==? "APawn")
  || (ParentClassName Given ==? "AActor") = true ->
  let r := run M (HandleCommand host "create_blueprint" Params) s in
  exists (Factory : UBlueprintFactory) (Package : UPackage) (Created : option UObject),
    let Creation :=
      [Called (DoesAssetExist ("/Game/Blueprints/" +:+ BlueprintName)) false;
       Called NewObject_UBlueprintFactory Factory;
       Called (CreatePackage ("/Game/Blueprints/" +:+ BlueprintName)) Package;
       Called (FactoryCreateNew
                 {| FactoryPtr := FactoryPtr Factory;
                    Factory_ParentClass := ParentWithoutLoading Given |}
                 UBlueprint_StaticClass Package BlueprintName [RF_Standalone; RF_Public])
         Created] in
    match Cast_UBlueprint Created with
    | Some NewBlueprint =>
        exists bDirty : bool,
          calls r = Creation ++ [Called (AssetCreated NewBlueprint) tt;
                                 Called (MarkPackageDirty Package) bDirty]
          /\ outcome r
             = Returned (SetStringField "path" ("/Game/Blueprints/" +:+ BlueprintName)
                           (SetStringField "name" BlueprintName ∅))
    | None =>
        calls r = Creation
        /\ outcome r = Returned (CreateErrorResponse host "Failed to create blueprint")
    end.
Proof.
  intros Hname Hnew Given Hknown.
  change (HandleCommand host "create_blueprint" Params)
    with (HandleCreateBlueprint host Params).
  by_wp. unfold HandleCreateBlueprint. rewrite Hname. wp_norm.
  wp_call bExists s1 Hexists. rewrite Hexists in Hnew. cbn in Hnew. subst bExists.
  wp_norm. wp_call Factory s2 Hfactory. wp_norm.
  fold Given. unfold SelectParentClass, ParentWithoutLoading. rewrite StartsWith_A.
  fold (ParentClassName Given).
  destruct (FString.IsEmpty Given) eqn:Hempty;
    [|destruct (ParentClassName Given ==? "APawn") eqn:Hpawn;
      [|destruct (ParentClassName Given ==? "AActor") eqn:Hactor;
        [|discriminate Hknown]]];
    cbn [negb andb]; wp_norm; repeat (apply wp_UE_LOG; wp_norm);
    wp_call Package s3 Hpackage; wp_norm; wp_call Created s4 Hcreated; wp_norm;
    (destruct (Cast_UBlueprint Created) as [NewBlueprint|] eqn:Hcast; wp_norm;
     [wp_call Notified s5 Hnotified; destruct Notified; wp_norm;
      wp_call bDirty s6 Hdirty; wp_norm; repeat (apply wp_UE_LOG; wp_norm);
      apply wp_Ret; exists Factory, Package, Created; cbv zeta; rewrite Hcast;
      exists bDirty; split; reflexivity
     |repeat (apply wp_UE_LOG; wp_norm); apply wp_Ret;
      exists Factory, Package, Created; cbv zeta; rewrite Hcast; split; reflexivity]).
Qed.

Lemma create_blueprint_without_loading_witness :
  let Params : FJsonObject :=
    {[ "name" := FJsonValueString "BP_Guard"; "parent_class" := FJsonValueString "pawn" ]} in
  let r := run (Scripted WorkshopProject)
             (HandleCommand PlainHost "create_blueprint" Params) 0%nat in
  exists (Factory : UBlueprintFactory) (Package : UPackage) (Created : option UObject),
    let Creation :=
      [Called (DoesAssetExist "/Game/Blueprints/BP_Guard") false;
       Called NewObject_UBlueprintFactory Factory;
       Called (CreatePackage "/Game/Blueprints/BP_Guard") Package;
       Called (FactoryCreateNew
                 {| FactoryPtr := FactoryPtr Factory;
                    Factory_ParentClass := APawn_StaticClass |}
                 UBlueprint_StaticClass Package "BP_Guard" [RF_Standalone; RF_Public])
         Created] in
    match Cast_UBlueprint Created with
    | Some NewBlueprint =>
        exists bDirty : bool,
          calls r = Creation ++ [Called (AssetCreated NewBlueprint) tt;
                                 Called (MarkPackageDirty Package) bDirty]
          /\ outcome r
             = Returned (SetStringField "path" "/Game/Blueprints/BP_Guard"
                           (SetStringField "name" "BP_Guard" ∅))
    | None =>
        calls r = Creation
        /\ outcome r = Returned (CreateErrorResponse PlainHost "Failed to create blueprint")
    end.
Proof.
  refine (create_blueprint_without_loading PlainHost (Scripted WorkshopProject) 0%nat
            {[ "name" := FJsonValueString "BP_Guard";
               "parent_class" := FJsonValueString "pawn" ]}
            "BP_Guard" _ _ _);
    reflexivity.
Defined.

(* ===================================================================== *)
(** ** The search path and the filter of get_available_materials          *)
(* ===================================================================== *)

Lemma EndsWith_append_slash (p : string) : FString.EndsWith (p +:+ "/") "/" = true.
Proof.
  induction p as [|c r IH]; [reflexivity|].
  change (String c r +:+ "/") with (String c (r +:+ "/")).
  destruct r as [|c' r'].
  - change ("" +:+ "/") with "/". rewrite EndsWith_slash_cons. reflexivity.
  - change (String c' r' +:+ "/") with (String c' (r' +:+ "/")) in *.
    rewrite EndsWith_slash_cons. exact IH.
Qed.

Lemma NormalizeSearchPath_fixed (p : string) :
  String.prefix "/" p = true -> FString.EndsWith p "/" = true -> NormalizeSearchPath p = p.
Proof.
  intros Hpre Hsuf. unfold NormalizeSearchPath. rewrite StartsWith_slash, Hpre.
  cbn [negb]. rewrite Hsuf. reflexivity.
Qed.

(** X28.  Normalizing a search path is idempotent, and a path that is
    written with a "/" at both ends is left as it is. *)
Theorem NormalizeSearchPath_idempotent (Given Body : string) :
  NormalizeSearchPath (NormalizeSearchPath Given) = NormalizeSearchPath Given
  /\ NormalizeSearchPath ("/" +:+ Body +:+ "/") = "/" +:+ Body +:+ "/".
Proof.
  split.
  - destruct (NormalizeSearchPath_normalized Given) as (_ & Hpre & Tail & Hsuf).
    apply NormalizeSearchPath_fixed; [exact Hpre|].
    rewrite Hsuf. apply EndsWith_append_slash.
  - apply NormalizeSearchPath_fixed; [apply prefix_slash_slash|].
    change ("/" +:+ Body +:+ "/") with (String "/" Body +:+ "/").
    apply EndsWith_append_slash.
Qed.

(** The manual search only loads assets and makes asset data, and it
    returns. *)
Lemma ManualMaterialSearch_calls (M : EditorModel) (AllAssetPaths : list string) :
  forall (Found : list FAssetData) (s : EditorState M),
    let r := run M (ManualMaterialSearch AllAssetPaths Found) s in
    (exists AssetDataArray, outcome r = Returned AssetDataArray)
    /\ Forall (fun e => IsManualSearchCall e = true) (calls r).
Proof.
  induction AllAssetPaths as [|AssetPath rest IH]; intros Found s.
  - split; [eexists; reflexivity|constructor].
  - cbn [ManualMaterialSearch].
    destruct (FString.Contains AssetPath "Material"
              && negb (FString.Contains AssetPath ".uasset")); [|apply IH].
    simpl. destruct (perform M (LoadAsset AssetPath) s) as [[Asset|] s1]; simpl.
    2:{ destruct (IH Found s1) as [Hout Hcalls]. split; [exact Hout|].
        constructor; [reflexivity|exact Hcalls]. }
    destruct (IsA_UMaterialInterface Asset).
    2:{ destruct (IH Found s1) as [Hout Hcalls]. split; [exact Hout|].
        constructor; [reflexivity|exact Hcalls]. }
    destruct (AlreadyFound Found AssetPath); simpl.
    { destruct (IH Found s1) as [Hout Hcalls]. split; [exact Hout|].
      constructor; [reflexivity|exact Hcalls]. }
    destruct (perform M (FAssetData_FromObject Asset) s1) as [Data s2]; simpl.
    destruct (IH (Found ++ [Data])%list s2) as [Hout Hcalls]. split; [exact Hout|].
    constructor; [reflexivity|]. constructor; [reflexivity|exact Hcalls].
Qed.

Lemma finish_material_search_calls (M : EditorModel) (s : EditorState M)
    (Used : string) (Registry : list FAssetData) (AllAssetPaths : list string) :
  wp M
    (AssetDataArray <- ManualMaterialSearch AllAssetPaths Registry ;;
     UE_LOG Log "Total materials found after manual search: %d"
       [LogInt (Z.of_nat (length AssetDataArray))]
       (MaterialArray <- MaterialsToJson AssetDataArray [] ;;
        Ret (SetStringField "search_path_used" Used
               (SetNumberField "count"
                  (Int32ToDouble (Z.of_nat (length MaterialArray)))
                  (SetArrayField "materials" MaterialArray ∅))))) s
    (fun _ _ cs => Forall (fun e => IsManualSearchCall e = true) cs).
Proof.
  apply wp_bind.
  apply (wp_consequence M _ s
           (fun o _ cs => (exists AssetDataArray, o = Returned AssetDataArray)
                          /\ Forall (fun e => IsManualSearchCall e = true) cs));
    [exact (ManualMaterialSearch_calls M AllAssetPaths Registry s)|].
  intros o f cs [[AssetDataArray ->] Hcalls].
  apply wp_UE_LOG, wp_bind.
  eapply wp_consequence; [apply MaterialsToJson_wp|].
  intros o' f' cs' (-> & -> & ->). apply wp_Ret.
  rewrite !app_nil_r. exact Hcalls.
Qed.

(** X29.  [get_available_materials] begins with three calls: it loads the
    asset registry module, asks the registry for the assets of the four
    material classes under the search path, recursively, and under
    "/Engine/" as well unless 'include_engine_materials' is present and
    false, and lists the assets under the search path.  All it calls
    afterwards is [LoadAsset] and the making of asset data. *)
Theorem get_available_materials_calls (host : Host) (M : EditorModel) (s : EditorState M)
    (Params : FJsonObject) :
  let r := run M (HandleCommand host "get_available_materials" Params) s in
  exists (Registry : list FAssetData) (Listed : list string) (Rest : list EngineEvent),
    calls r
    = Called LoadModuleChecked_AssetRegistry tt
      :: Called (GetAssets (MaterialFilter host Params)) Registry
      :: Called (ListAssets (SearchPathOf host Params) true false) Listed
      :: Rest
    /\ Forall (fun e => IsManualSearchCall e = true) Rest.
Proof.
  change (HandleCommand host "get_available_materials" Params)
    with (HandleGetAvailableMaterials host Params).
  by_wp. unfold HandleGetAvailableMaterials, MaterialFilter, SearchPathOf.
  destruct (TryGetStringField host Params "search_path") as [Given|]; wp_norm;
    [destruct (FString.IsEmpty Given) eqn:Hempty; wp_norm|];
    destruct (if HasField Params "include_engine_materials"
              then GetBoolField host Params "include_engine_materials" else true);
    repeat first [ progress wp_norm
                 | progress cbn [FString.IsEmpty]
                 | rewrite NormalizeSearchPath_not_empty
                 | match goal with
                   | Hempty : FString.IsEmpty _ = _ |- _ => rewrite Hempty
                   end
                 | match goal with
                   | |- wp _ (UE_LOG _ _ _ _) _ _ => apply wp_UE_LOG
                   | |- wp _ (Call LoadModuleChecked_AssetRegistry _) _ _ =>
                       let Loaded := fresh "Loaded" in
                       apply wp_Call; intros Loaded ? ?; destruct Loaded
                   | |- wp _ (Call (GetAssets _) _) _ _ => apply wp_Call; intros ? ? ?
                   | |- wp _ (Call (ListAssets _ _ _) _) _ _ => apply wp_Call; intros ? ? ?
                   end ];
    (eapply wp_consequence; [apply finish_material_search_calls|]);
    intros o f cs Hcalls; eexists _, _, cs; (split; [reflexivity|exact Hcalls]).
Qed.

(* ===================================================================== *)
(** ** open_asset_in_editor: an asset that does not load                  *)
(* ===================================================================== *)

(** X30.  [open_asset_in_editor] answers a path at which no asset loads
    with the error "Failed to load asset: <path>"; the load is its only
    call, no editor subsystem is looked up. *)
Theorem open_asset_not_loaded (host : Host) (M : EditorModel) (s s1 : EditorState M)
    (Params : FJsonObject) (AssetPath : string) :
  TryGetStringField host Params "asset_path" = Some AssetPath ->
  perform M (LoadAsset AssetPath) s = (None, s1) ->
  let r := run M (HandleCommand host "open_asset_in_editor" Params) s in
  outcome r = Returned (CreateErrorResponse host ("Failed to load asset: " +:+ AssetPath))
  /\ calls r = [Called (LoadAsset AssetPath) None]
  /\ final r = s1.
Proof.
  intros Hpath Hload.
  change (HandleCommand host "open_asset_in_editor" Params)
    with (HandleOpenAssetInEditor host Params).
  unfold HandleOpenAssetInEditor. rewrite Hpath. simpl. rewrite Hload. simpl.
  repeat split.
Qed.

Lemma open_asset_not_loaded_witness :
  let r := run (Scripted ArenaProject)
             (HandleCommand PlainHost "open_asset_in_editor"
                {[ "asset_path" := FJsonValueString "/Game/Maps/Cellar" ]}) 0%nat in
  outcome r = Returned (CreateErrorResponse PlainHost "Failed to load asset: /Game/Maps/Cellar")
  /\ calls r = [Called (LoadAsset "/Game/Maps/Cellar") None]
  /\ final r = 1%nat.
Proof.
  refine (open_asset_not_loaded PlainHost (Scripted ArenaProject) 0%nat 1%nat
            {[ "asset_path" := FJsonValueString "/Game/Maps/Cellar" ]}
            "/Game/Maps/Cellar" _ _);
    reflexivity.
Defined.
